(** * Metal price predictor: the browser client (api.js, App.jsx) and the ledger

    The development embeds the two source files of the front end,
    [src/frontend/src/api.js] and [src/frontend/src/App.jsx], and states the
    properties of the client over that embedding.  JavaScript values are an
    inductive type, numbers are IEEE 754 binary64 values ([spec_float] of the
    Standard Library), strings are byte strings (they agree with JavaScript's
    strings on ASCII text), asynchronous functions are programs of a small
    monad with exceptions, interface state and a trace of the interactions
    with the user and with the server.

    What the browser provides and the repository does not define
    ([String.prototype.trim], [toLowerCase], [toUpperCase], [Number(...)],
    [Number.prototype.toString], the text of engine-raised errors) is an
    interface, [Host]; the theorems hold for every host, and [asciiHost] is an
    executable instance used to run the handlers on concrete inputs.

    The ledger engine runs on the server, whose code is not among the
    sources; the module [Ledger] models it from the specification, for any
    Hasher, difficulty prefix and iteration cap of the seal search. *)

From Stdlib Require Import ZArith List String Ascii Bool Lia.
From Stdlib Require Import Floats.SpecFloat.
Import ListNotations.

Local Open Scope string_scope.
Local Open Scope list_scope.
Local Open Scope Z_scope.

Set Warnings "-register-all".

(** String concatenation, apart from the append of lists. *)
Notation "a +++ b" := (String.append a b) (at level 60, right associativity).

(* ================================================================== *)
(** * JavaScript numbers *)

(** A JavaScript number is a binary64 value: 53 bits of precision, exponent
    of the infinities 1024. *)
Definition number : Type := spec_float.
Definition prec : Z := 53.
Definition emax : Z := 1024.

Module Num.

Definition zero : number := S754_zero false.
Definition nan : number := S754_nan.
Definition infinity (neg : bool) : number := S754_infinity neg.

(** The number nearest to an integer (ties to even). *)
Definition ofZ (z : Z) : number := binary_normalize prec emax z 0 false.

(** The number nearest to [m * 10^e], for [m] a natural number; [neg]
    is the sign.  A negative exponent is a correctly rounded division of
    two integers. *)
Definition ofDecimal (neg : bool) (m : Z) (e : Z) : number :=
  match m with
  | Zpos p =>
      match e with
      | Zneg k => SFdiv prec emax (S754_finite neg p 0)
                    (S754_finite false (Pos.pow 10 k) 0)
      | _ => binary_round prec emax neg (p * Z.to_pos (10 ^ e))%positive 0
      end
  | _ => S754_zero neg
  end.

(** [Number.isFinite(x)]. *)
Definition isFinite (x : number) : bool :=
  match x with
  | S754_zero _ | S754_finite _ _ _ => true
  | S754_infinity _ | S754_nan => false
  end.

(** [x <= y] and [x < y] on numbers (false when either is NaN). *)
Definition leb (x y : number) : bool := SFleb x y.
Definition ltb (x y : number) : bool := SFltb x y.

(** ToBoolean on a number: 0, -0 and NaN are falsy. *)
Definition truthy (x : number) : bool :=
  match x with
  | S754_zero _ | S754_nan => false
  | _ => true
  end.

(** Structural equality; on canonical values it is the identity of
    numbers (0 and -0 apart). *)
Definition same (x y : number) : bool :=
  match x, y with
  | S754_zero a, S754_zero b => Bool.eqb a b
  | S754_infinity a, S754_infinity b => Bool.eqb a b
  | S754_nan, S754_nan => true
  | S754_finite a m e, S754_finite b n f =>
      Bool.eqb a b && Pos.eqb m n && Z.eqb e f
  | _, _ => false
  end.

End Num.

(* ================================================================== *)
(** * Byte-string helpers *)

Module Str.

Definition chars (s : string) : list ascii := list_ascii_of_string s.
Definition ofChars (l : list ascii) : string := string_of_list_ascii l.

Definition code (c : ascii) : Z := Z.of_nat (nat_of_ascii c).
Definition char (z : Z) : ascii := ascii_of_nat (Z.to_nat z).

Definition isDigit (c : ascii) : bool := (48 <=? code c) && (code c <=? 57).
Definition isUpper (c : ascii) : bool := (65 <=? code c) && (code c <=? 90).
Definition isLower (c : ascii) : bool := (97 <=? code c) && (code c <=? 122).

(** The one-byte members of JavaScript's WhiteSpace and LineTerminator:
    TAB, LF, VT, FF, CR, SP. *)
Definition isSpace (c : ascii) : bool :=
  ((9 <=? code c) && (code c <=? 13)) || (code c =? 32).

(** The other members, by their bytes in UTF-8: U+00A0 in two bytes;
    U+1680, U+2000 to U+200A, U+2028, U+2029, U+202F, U+205F, U+3000 and
    U+FEFF in three. *)
Definition isSpace2 (a b : ascii) : bool := (code a =? 194) && (code b =? 160).

Definition isSpace3 (a b c : ascii) : bool :=
  ((code a =? 225) && (code b =? 154) && (code c =? 128))
  || ((code a =? 226) && (code b =? 128)
      && (((128 <=? code c) && (code c <=? 138))
          || (code c =? 168) || (code c =? 169) || (code c =? 175)))
  || ((code a =? 226) && (code b =? 129) && (code c =? 159))
  || ((code a =? 227) && (code b =? 128) && (code c =? 128))
  || ((code a =? 239) && (code b =? 187) && (code c =? 191)).

(** The number of bytes of the white space character a text starts with,
    and of the one it ends with, given the text reversed; 0 when there is
    none. *)
Definition spaceAhead (l : list ascii) : nat :=
  match l with
  | a :: r =>
      if isSpace a then 1
      else match r with
           | b :: r' =>
               if isSpace2 a b then 2
               else match r' with
                    | c :: _ => if isSpace3 a b c then 3 else 0
                    | [] => 0
                    end
           | [] => 0
           end
  | [] => 0
  end%nat.

Definition spaceBehind (l : list ascii) : nat :=
  match l with
  | c :: r =>
      if isSpace c then 1
      else match r with
           | b :: r' =>
               if isSpace2 b c then 2
               else match r' with
                    | a :: _ => if isSpace3 a b c then 3 else 0
                    | [] => 0
                    end
           | [] => 0
           end
  | [] => 0
  end%nat.

Fixpoint dropSpaces (width : list ascii -> nat) (fuel : nat) (l : list ascii)
    : list ascii :=
  match fuel with
  | O => l
  | S f =>
      match width l with
      | O => l
      | n => dropSpaces width f (skipn n l)
      end
  end.

Fixpoint dropWhile {A} (p : A -> bool) (l : list A) : list A :=
  match l with
  | x :: r => if p x then dropWhile p r else l
  | [] => []
  end.

Fixpoint takeWhile {A} (p : A -> bool) (l : list A) : list A :=
  match l with
  | x :: r => if p x then x :: takeWhile p r else []
  | [] => []
  end.

(** [s.trim()]: the white space at both ends goes. *)
Definition trim (s : string) : string :=
  let l := chars s in
  let n := List.length l in
  ofChars (rev (dropSpaces spaceBehind n (rev (dropSpaces spaceAhead n l)))).

Definition lowerChar (c : ascii) : ascii :=
  if isUpper c then char (code c + 32) else c.
Definition upperChar (c : ascii) : ascii :=
  if isLower c then char (code c - 32) else c.

Definition toLowerCase (s : string) : string := ofChars (map lowerChar (chars s)).
Definition toUpperCase (s : string) : string := ofChars (map upperChar (chars s)).

(** [s.slice(0, n)] for a natural [n]. *)
Definition take (n : nat) (s : string) : string := substring 0 n s.

Definition isEmpty (s : string) : bool :=
  match s with EmptyString => true | _ => false end.

(** Decimal digits of a natural number, most significant first. *)
Fixpoint digitsFuel (fuel : nat) (z : Z) (acc : list ascii) : list ascii :=
  match fuel with
  | O => acc
  | S f =>
      let acc' := char (48 + z mod 10) :: acc in
      if z <? 10 then acc' else digitsFuel f (z / 10) acc'
  end.

Definition digits (z : Z) : list ascii :=
  digitsFuel (S (Z.to_nat (Z.log2 z))) z [].

(** Value of a digit string in a base up to 16; [None] on a character that
    is not a digit of the base. *)
Definition digitValue (c : ascii) : option Z :=
  if isDigit c then Some (code c - 48)
  else if (97 <=? code c) && (code c <=? 102) then Some (code c - 87)
  else if (65 <=? code c) && (code c <=? 70) then Some (code c - 55)
  else None.

Fixpoint readBase (base : Z) (l : list ascii) (acc : Z) : option Z :=
  match l with
  | [] => Some acc
  | c :: r =>
      match digitValue c with
      | Some d => if d <? base then readBase base r (acc * base + d) else None
      | None => None
      end
  end.

End Str.

(* ================================================================== *)
(** * Number conversions of the executable host *)

Module Conv.

Import Str.

(** The digits of an exponent part: an optional sign and at least one
    digit; [None] when the text is anything else. *)
Definition readExponent (l : list ascii) : option Z :=
  let '(neg, ds) :=
    match l with
    | "+"%char :: r => (false, r)
    | "-"%char :: r => (true, r)
    | _ => (false, l)
    end in
  match ds with
  | [] => None
  | _ => match readBase 10 ds 0 with
         | Some e => Some (if neg then - e else e)
         | None => None
         end
  end.

(** StrUnsignedDecimalLiteral: [Infinity], or digits with an optional
    fraction and an optional exponent, at least one digit before the
    exponent. *)
Definition readDecimal (neg : bool) (l : list ascii) : number :=
  if list_eq_dec ascii_dec l (chars "Infinity") then Num.infinity neg
  else
    let ip := takeWhile isDigit l in
    let r1 := dropWhile isDigit l in
    let '(fp, r2) :=
      match r1 with
      | "."%char :: r => (takeWhile isDigit r, dropWhile isDigit r)
      | _ => ([], r1)
      end in
    let ex :=
      match r2 with
      | [] => Some 0
      | c :: r => if (code c =? 101) || (code c =? 69) then readExponent r
                  else None
      end in
    match ip ++ fp, readBase 10 (ip ++ fp) 0, ex with
    | _ :: _, Some m, Some e => Num.ofDecimal neg m (e - Z.of_nat (List.length fp))
    | _, _, _ => Num.nan
    end.

(** A non-decimal integer literal: [0x], [0o] or [0b] and digits. *)
Definition readRadix (base : Z) (l : list ascii) : number :=
  match l with
  | [] => Num.nan
  | _ => match readBase base l 0 with
         | Some m => Num.ofZ m
         | None => Num.nan
         end
  end.

(** StringToNumber: white space trimmed, the empty text is 0, text that
    is no numeric literal is NaN. *)
Definition toNumber (s : string) : number :=
  match chars (trim s) with
  | [] => Num.zero
  | "0"%char :: c :: r =>
      if (code c =? 120) || (code c =? 88) then readRadix 16 r
      else if (code c =? 111) || (code c =? 79) then readRadix 8 r
      else if (code c =? 98) || (code c =? 66) then readRadix 2 r
      else readDecimal false ("0"%char :: c :: r)
  | "+"%char :: r => readDecimal false r
  | "-"%char :: r => readDecimal true r
  | l => readDecimal false l
  end.

(** The decimal exponent [n] of a positive rational [num/den]:
    [10^(n-1) <= num/den < 10^n]. *)
Definition pow10Le (n num den : Z) : bool :=
  if 0 <=? n then 10 ^ n * den <=? num else den <=? num * 10 ^ (- n).

Fixpoint adjustUp (fuel : nat) (n num den : Z) : Z :=
  match fuel with
  | O => n
  | S f => if pow10Le n num den then adjustUp f (n + 1) num den else n
  end.

Fixpoint adjustDown (fuel : nat) (n num den : Z) : Z :=
  match fuel with
  | O => n
  | S f => if pow10Le (n - 1) num den then n else adjustDown f (n - 1) num den
  end.

Definition decimalExponent (num den : Z) : Z :=
  let guess := (Z.log2 num - Z.log2 den) * 30103 / 100000 in
  adjustUp 8 (adjustDown 8 guess num den) num den.

(** [floor (num/den * 10^p)] and whether the remainder is below, at or
    above one half. *)
Definition scaled (num den p : Z) : Z * comparison :=
  let '(a, b) := if 0 <=? p then (num * 10 ^ p, den) else (num, den * 10 ^ (- p)) in
  (a / b, Z.compare (2 * (a mod b)) b).

(** The [k]-digit decimal nearest to [num/den] that converts back to the
    positive number [x], as the pair of its digits [s] and its exponent
    [n], when there is one. *)
Definition candidate (x : number) (num den n k : Z) : option (Z * Z) :=
  let '(lo, half) := scaled num den (k - n) in
  let back s := Num.same (Num.ofDecimal false s (n - k)) x in
  let norm s := if s =? 10 ^ k then (10 ^ (k - 1), n + 1) else (s, n) in
  let first := match half with
               | Lt => lo
               | Gt => lo + 1
               | Eq => if Z.even lo then lo else lo + 1
               end in
  let second := if first =? lo then lo + 1 else lo in
  if (10 ^ (k - 1) <=? first) && back first then Some (norm first)
  else if (10 ^ (k - 1) <=? second) && back second then Some (norm second)
  else None.

Fixpoint shortest (fuel : nat) (x : number) (num den n k : Z) : Z * Z * Z :=
  match fuel with
  | O => (fst (scaled num den (k - n)), n, k)
  | S f =>
      match candidate x num den n k with
      | Some (s, n') => (s, n', k)
      | None => shortest f x num den n (k + 1)
      end
  end.

Definition zeros (n : Z) : list ascii := repeat "0"%char (Z.to_nat n).

(** Number::toString, radix 10, of the digits [s] ([k] of them) and the
    exponent [n]. *)
Definition layout (s n k : Z) : list ascii :=
  let ds := digits s in
  if (k <=? n) && (n <=? 21) then ds ++ zeros (n - k)
  else if (0 <? n) && (n <=? 21) then
    firstn (Z.to_nat n) ds ++ "."%char :: skipn (Z.to_nat n) ds
  else if (-6 <? n) && (n <=? 0) then
    "0"%char :: "."%char :: zeros (- n) ++ ds
  else
    let e := n - 1 in
    let ex := "e"%char :: (if e <? 0 then "-"%char else "+"%char) :: digits (Z.abs e) in
    match ds with
    | d :: (_ :: _) as r => d :: "."%char :: r ++ ex
    | _ => ds ++ ex
    end.

Definition numberToString (x : number) : string :=
  match x with
  | S754_nan => "NaN"
  | S754_zero _ => "0"
  | S754_infinity neg => if neg then "-Infinity" else "Infinity"
  | S754_finite neg m e =>
      let '(num, den) := if 0 <=? e then (Zpos m * 2 ^ e, 1) else (Zpos m, 2 ^ (- e)) in
      let n := decimalExponent num den in
      let '(s, n', k) := shortest 17 (S754_finite false m e) num den n 1 in
      ofChars ((if neg then ["-"%char] else []) ++ layout s n' k)
  end.

End Conv.

(* ================================================================== *)
(** * JavaScript values *)

(** The values the client handles: what [JSON.parse] produces, and
    [undefined].  An object is the list of its own properties. *)
Inductive jsval : Type :=
| VUndefined
| VNull
| VBool (b : bool)
| VNum (n : number)
| VStr (s : string)
| VArr (items : list jsval)
| VObj (fields : list (string * jsval)).

(** What a running program can throw: [new Error(message)] of api.js, a
    [TypeError] of the engine (reading [prop] of [undefined] or [null], or
    calling [prop] where there is no such method), the rejection of
    [res.json()] on a body that is not JSON, and the rejection of [fetch]. *)
Inductive exn : Type :=
| Error (message : string)
| TypeError (prop : string)
| SyntaxError
| FetchFailure.

Inductive result (A : Type) : Type :=
| Val (a : A)
| Throw (e : exn).

Arguments Val {A} a.
Arguments Throw {A} e.

Definition rbind {A B} (r : result A) (k : A -> result B) : result B :=
  match r with
  | Val a => k a
  | Throw e => Throw e
  end.

Declare Scope result_scope.
Delimit Scope result_scope with result.
Notation "'let?' x ':=' r 'in' k" := (rbind r (fun x => k))
  (at level 10, x name, r at level 100, k at level 200) : result_scope.

(** What the browser provides. *)
Class Host : Type := {
  trim : string -> string;
  toLowerCase : string -> string;
  toUpperCase : string -> string;
  (** [Number(s)] on a string. *)
  Number : string -> number;
  (** [String(x)] on a number. *)
  numberToString : number -> string;
  (** The [message] of an exception the engine raised. *)
  faultMessage : exn -> string
}.

(** The executable host, on text in UTF-8: white space of every kind is
    trimmed; the case of the letters A to Z and a to z is changed and other
    characters keep theirs; numbers are read from decimal, hex, octal and
    binary literals and written as the shortest decimal that reads back.
    For the exceptions the engine raises it gives one text each, that of a
    read on [undefined] for every [TypeError]. *)
Definition asciiHost : Host := {|
  trim := Str.trim;
  toLowerCase := Str.toLowerCase;
  toUpperCase := Str.toUpperCase;
  Number := Conv.toNumber;
  numberToString := Conv.numberToString;
  faultMessage := fun e =>
    match e with
    | Error m => m
    | TypeError p => "Cannot read properties of undefined (reading '" +++ p +++ "')"
    | SyntaxError => "Unexpected token in JSON"
    | FetchFailure => "Failed to fetch"
    end
|}.

Section Values.

Context {H : Host}.

(** ToBoolean. *)
Definition truthy (v : jsval) : bool :=
  match v with
  | VUndefined | VNull => false
  | VBool b => b
  | VNum n => Num.truthy n
  | VStr s => negb (Str.isEmpty s)
  | VArr _ | VObj _ => true
  end.

(** [a || b]. *)
Definition jsOr (a b : jsval) : jsval := if truthy a then a else b.

(** [v === s] for a string [s]. *)
Definition strictEqStr (v : jsval) (s : string) : bool :=
  match v with
  | VStr t => String.eqb t s
  | _ => false
  end.

(** [list.includes(s)] on an array of strings. *)
Definition includes (l : list string) (s : string) : bool :=
  existsb (String.eqb s) l.

Fixpoint lookup (k : string) (fields : list (string * jsval)) : jsval :=
  match fields with
  | [] => VUndefined
  | (k', v) :: r => if String.eqb k k' then v else lookup k r
  end.

(** [v.k] for the property names the client reads ([data], [date], [metal],
    [purity], [unit], [price], [index], [hash], [detail], [length], ...): a
    [TypeError] on [undefined] and [null], the own property of an object,
    the [length] of a string or an array, [undefined] otherwise. *)
Definition get (v : jsval) (k : string) : result jsval :=
  match v with
  | VUndefined | VNull => Throw (TypeError k)
  | VObj fields => Val (lookup k fields)
  | VStr s =>
      Val (if String.eqb k "length" then VNum (Num.ofZ (Z.of_nat (String.length s)))
           else VUndefined)
  | VArr items =>
      Val (if String.eqb k "length" then VNum (Num.ofZ (Z.of_nat (List.length items)))
           else VUndefined)
  | VBool _ | VNum _ => Val VUndefined
  end.

(** [String(v)], which is also the conversion of a template literal and of
    [new Error(v)]'s message. *)
Fixpoint ToString (v : jsval) : string :=
  match v with
  | VUndefined => "undefined"
  | VNull => "null"
  | VBool b => if b then "true" else "false"
  | VNum n => numberToString n
  | VStr s => s
  | VArr items =>
      (fix join (l : list jsval) : string :=
         let item x := match x with
                       | VUndefined | VNull => ""
                       | _ => ToString x
                       end in
         match l with
         | [] => ""
         | [x] => item x
         | x :: r => item x +++ "," +++ join r
         end) items
  | VObj _ => "[object Object]"
  end.

(** [v.toUpperCase()]: defined on strings; on [undefined] and [null] the
    property read throws, on other values the call does. *)
Definition callToUpperCase (v : jsval) : result string :=
  match v with
  | VStr s => Val (toUpperCase s)
  | _ => Throw (TypeError "toUpperCase")
  end.

(** [v.slice(0, 16)]: strings and arrays have the method. *)
Definition callSlice16 (v : jsval) : result jsval :=
  match v with
  | VStr s => Val (VStr (Str.take 16 s))
  | VArr l => Val (VArr (firstn 16 l))
  | _ => Throw (TypeError "slice")
  end.

(** [e.message]. *)
Definition message (e : exn) : string :=
  match e with
  | Error m => m
  | _ => faultMessage e
  end.

End Values.

(* ================================================================== *)
(** * The world of an asynchronous function *)

(** A request handed to [fetch].  [body] is the object the source passes to
    [JSON.stringify], before it is serialised. *)
Record request : Type := {
  method : string;
  url : string;
  headers : list (string * string);
  body : option jsval
}.

(** What [fetch] settles with: a rejection, or a response with its [ok] flag
    and what [res.json()] gives ([None] when the body is not JSON). *)
Record response : Type := {
  ok : bool;
  json : option jsval
}.

Inductive outcome : Type :=
| Rejected
| Responded (res : response).

(** The environment of one run: the user in front of [window.prompt] and
    [window.confirm], the server behind [fetch], and which of two failing
    parallel requests settles first. *)
Record Env : Type := {
  promptAnswer : string -> string -> option string;
  confirmAnswer : string -> bool;
  serve : request -> outcome;
  secondSettlesFirst : bool
}.

Inductive event : Type :=
| Prompted (text default : string) (answer : option string)
| Confirmed (text : string) (answer : bool)
| Fetched (req : request) (out : outcome).

(** The requests of a trace, in order. *)
Fixpoint requests (t : list event) : list request :=
  match t with
  | [] => []
  | Fetched r _ :: t' => r :: requests t'
  | _ :: t' => requests t'
  end.

(** A program over a state [S]: it returns or throws, leaves a state, and
    emits the events of its interactions. *)
Definition M (S A : Type) : Type := S -> result A * S * list event.

(** The run [x], after the events [t]. *)
Definition after {S A} (t : list event) (x : result A * S * list event)
    : result A * S * list event :=
  let '(r, s, t') := x in (r, s, t ++ t').

Definition ret {S A} (a : A) : M S A := fun s => (Val a, s, []).
Definition throw {S A} (e : exn) : M S A := fun s => (Throw e, s, []).

Definition bind {S A B} (m : M S A) (k : A -> M S B) : M S B :=
  fun s =>
    match m s with
    | (Val a, s1, t1) => after t1 (k a s1)
    | (Throw e, s1, t1) => (Throw e, s1, t1)
    end.

Declare Scope m_scope.
Delimit Scope m_scope with M.
Notation "x <- m ;; k" := (bind m (fun x => k))
  (at level 61, m at next level, right associativity) : m_scope.
Notation "m ;; k" := (bind m (fun _ => k))
  (at level 61, right associativity) : m_scope.

Definition lift {S A} (r : result A) : M S A := fun s => (r, s, []).
Definition getState {S} : M S S := fun s => (Val s, s, []).
Definition modify {S} (f : S -> S) : M S unit := fun s => (Val tt, f s, []).
Definition emit {S} (e : event) : M S unit := fun s => (Val tt, s, [e]).

(** [try { body } catch (e) { handler e }]. *)
Definition tryCatch {S A} (body : M S A) (handler : exn -> M S A) : M S A :=
  fun s =>
    match body s with
    | (Val a, s1, t1) => (Val a, s1, t1)
    | (Throw e, s1, t1) => after t1 (handler e s1)
    end.

(** [try { body } finally { fin }]: the finaliser runs either way, and the
    outcome of the body stands unless the finaliser throws. *)
Definition tryFinally {S A} (body : M S A) (fin : M S unit) : M S A :=
  fun s =>
    let '(r, s1, t1) := body s in
    match fin s1 with
    | (Val _, s2, t2) => (r, s2, t1 ++ t2)
    | (Throw e, s2, t2) => (Throw e, s2, t1 ++ t2)
    end.

(** [await Promise.all([a, b])]: both are started, in order; the result is
    both values, or the rejection that settles first. *)
Definition promiseAll2 {S A B} (E : Env) (a : M S A) (b : M S B) : M S (A * B) :=
  fun s =>
    let '(ra, s1, t1) := a s in
    let '(rb, s2, t2) := b s1 in
    (match ra, rb with
     | Val x, Val y => Val (x, y)
     | Throw e, Val _ => Throw e
     | Val _, Throw e => Throw e
     | Throw e1, Throw e2 => Throw (if secondSettlesFirst E then e2 else e1)
     end, s2, t1 ++ t2).

Definition resultOf {S A} (x : result A * S * list event) : result A := fst (fst x).
Definition stateOf {S A} (x : result A * S * list event) : S := snd (fst x).
Definition traceOf {S A} (x : result A * S * list event) : list event := snd x.

(* ================================================================== *)
(** * api.js *)

Module Api.
Section Api.

Context {H : Host} (E : Env) {S : Type}.

Local Open Scope m_scope.

Definition API_BASE : string := "http://localhost:8000".

(** [await fetch(url, init)]. *)
Definition fetch (req : request) : M S response :=
  let out := serve E req in
  emit (Fetched req out) ;;
  match out with
  | Rejected => throw FetchFailure
  | Responded res => ret res
  end.

(** [await res.json()] and [return res.json()]. *)
Definition resJson (res : response) : M S jsval :=
  match json res with
  | Some v => ret v
  | None => throw SyntaxError
  end.

(** The common tail of [addPrice], [updatePrice], [deletePrice] and
    [predict]: [if (!res.ok) { const error = await res.json(); throw new
    Error(error.detail || fallback) } return res.json()]. *)
Definition detailOrFallback (res : response) (fallback : string) : M S jsval :=
  if negb (ok res) then
    error <- resJson res ;;
    detail <- lift (get error "detail") ;;
    throw (Error (ToString (jsOr detail (VStr fallback))))
  else resJson res.

Definition jsonHeaders : list (string * string) :=
  [("Content-Type", "application/json")].

Definition getChain : M S jsval :=
  res <- fetch {| method := "GET"; url := API_BASE +++ "/chain";
                  headers := []; body := None |} ;;
  if negb (ok res) then throw (Error "Failed to fetch chain")
  else resJson res.

Definition addPrice (payload : jsval) : M S jsval :=
  res <- fetch {| method := "POST"; url := API_BASE +++ "/prices";
                  headers := jsonHeaders; body := Some payload |} ;;
  detailOrFallback res "Failed to add price".

Definition updatePrice (blockIndex payload : jsval) : M S jsval :=
  res <- fetch {| method := "PUT";
                  url := API_BASE +++ "/prices/" +++ ToString blockIndex;
                  headers := jsonHeaders; body := Some payload |} ;;
  detailOrFallback res "Failed to update price".

Definition deletePrice (blockIndex : jsval) : M S jsval :=
  res <- fetch {| method := "DELETE";
                  url := API_BASE +++ "/prices/" +++ ToString blockIndex;
                  headers := []; body := None |} ;;
  detailOrFallback res "Failed to delete price".

(** [URLSearchParams]: an ordered list of names and values. *)
Definition params : Type := list (string * string).

Fixpoint dropName (name : string) (p : params) : params :=
  match p with
  | [] => []
  | (n, v) :: r => if String.eqb n name then dropName name r
                   else (n, v) :: dropName name r
  end.

(** [params.set(name, value)]: the first pair of that name takes the value
    and the others go; without one the pair is appended. *)
Fixpoint paramsSet (name value : string) (p : params) : params :=
  match p with
  | [] => [(name, value)]
  | (n, v) :: r => if String.eqb n name then (n, value) :: dropName name r
                   else (n, v) :: paramsSet name value r
  end.

Definition paramsGet (name : string) (p : params) : option string :=
  match find (fun nv => String.eqb (fst nv) name) p with
  | Some nv => Some (snd nv)
  | None => None
  end.

Definition paramsHas (name : string) (p : params) : bool :=
  match paramsGet name p with Some _ => true | None => false end.

(** The application/x-www-form-urlencoded serialiser: letters, digits and
    [*-._] stay, a space is [+], any other byte is [%XX]. *)
Definition hexDigit (z : Z) : ascii :=
  if z <? 10 then Str.char (48 + z) else Str.char (55 + z).

Definition encodeByte (c : ascii) : list ascii :=
  let z := Str.code c in
  if Str.isDigit c || Str.isUpper c || Str.isLower c
     || (z =? 42) || (z =? 45) || (z =? 46) || (z =? 95) then [c]
  else if z =? 32 then ["+"%char]
  else ["%"%char; hexDigit (z / 16); hexDigit (z mod 16)].

Definition encode (s : string) : string :=
  Str.ofChars (flat_map encodeByte (Str.chars s)).

(** [params.toString()]. *)
Fixpoint paramsToString (p : params) : string :=
  match p with
  | [] => ""
  | [(n, v)] => encode n +++ "=" +++ encode v
  | (n, v) :: r => encode n +++ "=" +++ encode v +++ "&" +++ paramsToString r
  end.

(** A parameter default of a destructuring pattern: it applies to
    [undefined] only. *)
Definition orDefault (v d : jsval) : jsval :=
  match v with VUndefined => d | _ => v end.

(** The [URLSearchParams] of [predict]: built from the argument
    [{ daysAhead = 1, metal = 'silver', purity = null } = {}]. *)
Definition predictParams (arg : jsval) : result params :=
  (let arg := orDefault arg (VObj []) in
   let? daysAhead := get arg "daysAhead" in
   let? metal := get arg "metal" in
   let? purity := get arg "purity" in
   let daysAhead := orDefault daysAhead (VNum (Num.ofZ 1)) in
   let metal := orDefault metal (VStr "silver") in
   let purity := orDefault purity VNull in
   let params := [("days_ahead", ToString daysAhead); ("metal", ToString metal)] in
   Val (if truthy purity then paramsSet "purity" (ToString purity) params
        else params))%result.

Definition predict (arg : jsval) : M S jsval :=
  params <- lift (predictParams arg) ;;
  res <- fetch {| method := "GET";
                  url := API_BASE +++ "/predict?" +++ paramsToString params;
                  headers := []; body := None |} ;;
  detailOrFallback res "Failed to predict".

End Api.
End Api.

(* ================================================================== *)
(** * App.jsx: state and handlers *)

Module Form.
Record t : Type := {
  date : string;
  metal : string;
  purity : string;
  unit : string;
  price : string
}.
End Form.

Module Filter.
Record t : Type := {
  metal : string;
  purity : string
}.
End Filter.

Module App.

Definition METALS : list string := ["silver"; "gold"; "platinum"].
Definition GOLD_PURITY : list string := ["18K"; "22K"; "24K"].
Definition UNITS : list string := ["1g"; "10g"; "1kg"].

(** The state of the component, one field per [useState]. *)
Record State : Type := {
  chain : jsval;
  prediction : jsval;
  form : Form.t;
  predictFilter : Filter.t;
  error : string;
  loading : bool;
  actionLoading : string
}.

Definition initial : State := {|
  chain := VNull;
  prediction := VNull;
  form := {| Form.date := ""; Form.metal := "silver"; Form.purity := "";
             Form.unit := "1g"; Form.price := "" |};
  predictFilter := {| Filter.metal := "silver"; Filter.purity := "" |};
  error := "";
  loading := false;
  actionLoading := ""
|}.

Definition withChain (v : jsval) (s : State) : State :=
  {| chain := v; prediction := prediction s; form := form s;
     predictFilter := predictFilter s; error := error s;
     loading := loading s; actionLoading := actionLoading s |}.
Definition withPrediction (v : jsval) (s : State) : State :=
  {| chain := chain s; prediction := v; form := form s;
     predictFilter := predictFilter s; error := error s;
     loading := loading s; actionLoading := actionLoading s |}.
Definition withForm (f : Form.t -> Form.t) (s : State) : State :=
  {| chain := chain s; prediction := prediction s; form := f (form s);
     predictFilter := predictFilter s; error := error s;
     loading := loading s; actionLoading := actionLoading s |}.
Definition withPredictFilter (f : Filter.t -> Filter.t) (s : State) : State :=
  {| chain := chain s; prediction := prediction s; form := form s;
     predictFilter := f (predictFilter s); error := error s;
     loading := loading s; actionLoading := actionLoading s |}.
Definition withError (m : string) (s : State) : State :=
  {| chain := chain s; prediction := prediction s; form := form s;
     predictFilter := predictFilter s; error := m;
     loading := loading s; actionLoading := actionLoading s |}.
Definition withLoading (b : bool) (s : State) : State :=
  {| chain := chain s; prediction := prediction s; form := form s;
     predictFilter := predictFilter s; error := error s;
     loading := b; actionLoading := actionLoading s |}.
Definition withActionLoading (a : string) (s : State) : State :=
  {| chain := chain s; prediction := prediction s; form := form s;
     predictFilter := predictFilter s; error := error s;
     loading := loading s; actionLoading := a |}.

(** ** The [onChange] updaters of the two forms *)

(** Metal selector of the add form:
    [{ ...p, metal: v, purity: v === 'gold' ? p.purity || '24K' : '' }]. *)
Definition formMetalChange (v : string) (p : Form.t) : Form.t :=
  {| Form.date := Form.date p;
     Form.metal := v;
     Form.purity := if String.eqb v "gold"
                    then (if Str.isEmpty (Form.purity p) then "24K" else Form.purity p)
                    else "";
     Form.unit := Form.unit p;
     Form.price := Form.price p |}.

Definition formDateChange (v : string) (p : Form.t) : Form.t :=
  {| Form.date := v; Form.metal := Form.metal p; Form.purity := Form.purity p;
     Form.unit := Form.unit p; Form.price := Form.price p |}.
Definition formPurityChange (v : string) (p : Form.t) : Form.t :=
  {| Form.date := Form.date p; Form.metal := Form.metal p; Form.purity := v;
     Form.unit := Form.unit p; Form.price := Form.price p |}.
Definition formUnitChange (v : string) (p : Form.t) : Form.t :=
  {| Form.date := Form.date p; Form.metal := Form.metal p;
     Form.purity := Form.purity p; Form.unit := v; Form.price := Form.price p |}.
Definition formPriceChange (v : string) (p : Form.t) : Form.t :=
  {| Form.date := Form.date p; Form.metal := Form.metal p;
     Form.purity := Form.purity p; Form.unit := Form.unit p; Form.price := v |}.

(** After a successful add: [{ ...prev, date: '', price: '' }]. *)
Definition formClear (p : Form.t) : Form.t :=
  {| Form.date := ""; Form.metal := Form.metal p; Form.purity := Form.purity p;
     Form.unit := Form.unit p; Form.price := "" |}.

(** Metal selector of the prediction filter. *)
Definition filterMetalChange (v : string) (p : Filter.t) : Filter.t :=
  {| Filter.metal := v;
     Filter.purity := if String.eqb v "gold"
                      then (if Str.isEmpty (Filter.purity p) then "24K"
                            else Filter.purity p)
                      else "" |}.

Definition filterPurityChange (v : string) (p : Filter.t) : Filter.t :=
  {| Filter.metal := Filter.metal p; Filter.purity := v |}.

(** The constraint validation the browser runs before it fires [submit]:
    the date and price inputs are [required], the purity select is
    [required={form.metal === 'gold'}] and its empty option is the
    placeholder. *)
Definition requiredFilled (f : Form.t) : bool :=
  negb (Str.isEmpty (Form.date f))
  && (if String.eqb (Form.metal f) "gold" then negb (Str.isEmpty (Form.purity f))
      else true)
  && negb (Str.isEmpty (Form.price f)).

(** The texts of the dialogs and of the errors they raise. *)
Definition promptDate : string := "Update date (YYYY-MM-DD):".
Definition promptUnit : string := "Update unit (1g / 10g / 1kg):".
Definition promptPurity : string := "Update gold purity (18K / 22K / 24K):".
Definition promptPrice : string := "Update price in INR for selected unit:".
Definition errorUnit : string := "Unit must be 1g, 10g, or 1kg".
Definition errorPurity : string := "Gold purity must be 18K, 22K, or 24K".
Definition errorPrice : string := "Price must be a positive number".

Section Handlers.

Context {H : Host} (E : Env).

Local Open Scope m_scope.

Definition setChain (v : jsval) : M State unit := modify (withChain v).
Definition setPrediction (v : jsval) : M State unit := modify (withPrediction v).
Definition setForm (f : Form.t -> Form.t) : M State unit := modify (withForm f).
Definition setError (m : string) : M State unit := modify (withError m).
Definition setLoading (b : bool) : M State unit := modify (withLoading b).
Definition setActionLoading (a : string) : M State unit :=
  modify (withActionLoading a).

(** The default text of [window.prompt(text, default)]: an [undefined]
    default is the empty text, any other value is converted to a string. *)
Definition promptDefault (default : jsval) : string :=
  match default with
  | VUndefined => ""
  | _ => ToString default
  end.

(** [window.prompt(text, default)]. *)
Definition prompt (text : string) (default : jsval) : M State (option string) :=
  let d := promptDefault default in
  let a := promptAnswer E text d in
  emit (Prompted text d a) ;; ret a.

(** [window.confirm(text)]. *)
Definition confirm (text : string) : M State bool :=
  let a := confirmAnswer E text in
  emit (Confirmed text a) ;; ret a.

(** [predictionPayload]. *)
Definition predictionPayload (s : State) : jsval :=
  let f := predictFilter s in
  VObj [("daysAhead", VNum (Num.ofZ 1));
        ("metal", VStr (Filter.metal f));
        ("purity", if String.eqb (Filter.metal f) "gold"
                   then VStr (Filter.purity f) else VNull)].

Definition loadData : M State unit :=
  setError "" ;;
  tryCatch
    (s <- getState ;;
     r <- promiseAll2 E (Api.getChain E) (Api.predict E (predictionPayload s)) ;;
     setChain (fst r) ;;
     setPrediction (snd r))
    (fun e => setError (message e)).

(** The object [handleSubmit] hands to [addPrice]. *)
Definition submitPayload (f : Form.t) : jsval :=
  VObj [("date", VStr (Form.date f));
        ("metal", VStr (Form.metal f));
        ("purity", if String.eqb (Form.metal f) "gold"
                   then VStr (Form.purity f) else VNull);
        ("unit", VStr (Form.unit f));
        ("price", VNum (Number (Form.price f)))].

Definition handleSubmit : M State unit :=
  setError "" ;;
  setLoading true ;;
  tryFinally
    (tryCatch
       (s <- getState ;;
        Api.addPrice E (submitPayload (form s)) ;;
        setForm formClear ;;
        loadData)
       (fun e => setError (message e)))
    (setLoading false).

(** The [submit] event of the add form: the browser fires it, and with it
    [handleSubmit], only when the [required] controls are filled. *)
Definition onSubmit : M State unit :=
  s <- getState ;;
  if requiredFilled (form s) then handleSubmit else ret tt.

Definition handleUpdate (block : jsval) : M State unit :=
  current <- lift (get block "data") ;;
  currentDate <- lift (get current "date") ;;
  newDate <- prompt promptDate currentDate ;;
  match newDate with
  | None => ret tt
  | Some newDate =>
  currentUnit <- lift (get current "unit") ;;
  newUnitInput <- prompt promptUnit currentUnit ;;
  match newUnitInput with
  | None => ret tt
  | Some newUnitInput =>
  let newUnit := toLowerCase (trim newUnitInput) in
  if negb (includes UNITS newUnit) then setError errorUnit
  else
  currentPurity <- lift (get current "purity") ;;
  currentMetal <- lift (get current "metal") ;;
  let askPrice (newPurity : jsval) : M State unit :=
    currentPrice <- lift (get current "price") ;;
    newPriceInput <- prompt promptPrice (VStr (ToString currentPrice)) ;;
    match newPriceInput with
    | None => ret tt
    | Some newPriceInput =>
    let newPrice := Number newPriceInput in
    if negb (Num.isFinite newPrice) || Num.leb newPrice Num.zero
    then setError errorPrice
    else
    setError "" ;;
    index <- lift (get block "index") ;;
    setActionLoading ("update-" +++ ToString index) ;;
    tryFinally
      (tryCatch
         (Api.updatePrice E index
            (VObj [("date", VStr newDate);
                   ("metal", currentMetal);
                   ("purity", if strictEqStr currentMetal "gold"
                              then newPurity else VNull);
                   ("unit", VStr newUnit);
                   ("price", VNum newPrice)]) ;;
          loadData)
         (fun e => setError (message e)))
      (setActionLoading "")
    end in
  if strictEqStr currentMetal "gold" then
    purityInput <- prompt promptPurity (jsOr currentPurity (VStr "24K")) ;;
    match purityInput with
    | None => ret tt
    | Some purityInput =>
    let newPurity := toUpperCase (trim purityInput) in
    if negb (includes GOLD_PURITY newPurity) then setError errorPurity
    else askPrice (VStr newPurity)
    end
  else askPrice (jsOr currentPurity VNull)
  end
  end.

(** The text of the delete confirmation. *)
Definition confirmText (block d : jsval) : result string :=
  (let? index := get block "index" in
   let? metal := get d "metal" in
   let? upper := callToUpperCase metal in
   let? purity := get d "purity" in
   let? unit := get d "unit" in
   let? price := get d "price" in
   Val ("Remove #" +++ ToString index +++ " (" +++ upper +++ " "
        +++ ToString (jsOr purity (VStr "")) +++ " " +++ ToString unit
        +++ " - Rs " +++ ToString price +++ ")?"))%result.

Definition handleDelete (block : jsval) : M State unit :=
  d <- lift (get block "data") ;;
  text <- lift (confirmText block d) ;;
  shouldDelete <- confirm text ;;
  if negb shouldDelete then ret tt
  else
  setError "" ;;
  index <- lift (get block "index") ;;
  setActionLoading ("delete-" +++ ToString index) ;;
  tryFinally
    (tryCatch
       (Api.deletePrice E index ;; loadData)
       (fun e => setError (message e)))
    (setActionLoading "").

End Handlers.
End App.

(* ================================================================== *)
(** * App.jsx: what is rendered *)

(** The element tree of the JSX: text, a value handed to React as a child
    ([{expr}]), or an element with its attributes and children; a fragment
    is an element with the empty tag.  Event handlers are not attributes
    here; they are the definitions above. *)
Inductive node : Type :=
| Text (s : string)
| Expr (v : jsval)
| Elem (tag : string) (attrs : list (string * jsval)) (children : list node).

Module View.
Section View.

Context {H : Host}.

Local Open Scope result_scope.

Fixpoint filterR {A} (p : A -> result bool) (l : list A) : result (list A) :=
  match l with
  | [] => Val []
  | x :: r =>
      let? keep := p x in
      let? rest := filterR p r in
      Val (if keep then x :: rest else rest)
  end.

Fixpoint mapR {A B} (f : A -> result B) (l : list A) : result (list B) :=
  match l with
  | [] => Val []
  | x :: r =>
      let? y := f x in
      let? rest := mapR f r in
      Val (y :: rest)
  end.

(** The prediction card (the part of the Prediction section under the two
    selectors). *)
Definition predictionCard (prediction : jsval) : result node :=
  if truthy prediction then
    let? metal := get prediction "metal" in
    let? upper := callToUpperCase metal in
    let? purity := get prediction "purity" in
    let series :=
      Elem "p" []
        [Text "Series: "; Elem "strong" [] [Text upper]; Text " ";
         if truthy purity then Elem "strong" [] [Expr purity] else Expr VNull] in
    let? can_predict := get prediction "can_predict" in
    if truthy can_predict then
      let? p1 := get prediction "predicted_price_inr_1g" in
      let? c1 := get prediction "currency" in
      let? p10 := get prediction "predicted_price_inr_10g" in
      let? c10 := get prediction "currency" in
      let? p1k := get prediction "predicted_price_inr_1kg" in
      let? c1k := get prediction "currency" in
      let estimate label p c :=
        Elem "p" []
          [Text ("Next day estimate (" +++ label +++ "): ");
           Elem "strong" [] [Text "Rs "; Expr p]; Text " "; Expr c] in
      Val (Elem "" []
             [series;
              Elem "" [] [estimate "1g" p1 c1; estimate "10g" p10 c10;
                          estimate "1kg" p1k c1k]])
    else
      let? message := get prediction "message" in
      Val (Elem "" [] [series; Elem "p" [] [Expr message]])
  else Val (Elem "p" [] [Text "No prediction yet."]).

(** The filter of the table: [(b) => b.data.price]. *)
Definition hasPrice (b : jsval) : result bool :=
  let? data := get b "data" in
  let? price := get data "price" in
  Val (truthy price).

(** One row of the table: [(b) => <tr key={b.hash}> ... </tr>]. *)
Definition tableRow (actionLoading : string) (b : jsval) : result node :=
  let? hash := get b "hash" in
  let? index := get b "index" in
  let? data := get b "data" in
  let? date := get data "date" in
  let? metal := get data "metal" in
  let? purity := get data "purity" in
  let? unit := get data "unit" in
  let? price := get data "price" in
  let? short := callSlice16 hash in
  let updating := String.eqb actionLoading ("update-" +++ ToString index) in
  let deleting := String.eqb actionLoading ("delete-" +++ ToString index) in
  Val (Elem "tr" [("key", hash)]
         [Elem "td" [] [Expr index];
          Elem "td" [] [Expr date];
          Elem "td" [] [Expr (VStr (toUpperCase (ToString (jsOr metal (VStr "")))))];
          Elem "td" [] [Expr (jsOr purity (VStr "-"))];
          Elem "td" [] [Expr unit];
          Elem "td" [] [Expr price];
          Elem "td" [("className", VStr "hash")] [Expr short; Text "..."];
          Elem "td" [("className", VStr "actions")]
            [Elem "button" [("type", VStr "button"); ("disabled", VBool updating)]
               [Text (if updating then "Updating..." else "Update")];
             Elem "button" [("type", VStr "button"); ("className", VStr "danger");
                            ("disabled", VBool deleting)]
               [Text (if deleting then "Removing..." else "Remove")]]]).

(** The rows of the table body:
    [chain.blocks.filter(...).map(...)]. *)
Definition tableRows (actionLoading : string) (chain : jsval) : result (list node) :=
  let? blocks := get chain "blocks" in
  match blocks with
  | VArr items =>
      let? kept := filterR hasPrice items in
      mapR (tableRow actionLoading) kept
  | _ => Throw (TypeError "filter")
  end.


End View.
End View.

(* ================================================================== *)
(** * The ledger engine *)

Module Ledger.

(** Modelled from the spec: the PricePoint payload of the data model; the
    server that defines it is not among the sources. *)
Record PricePoint : Type := {
  date : string;
  metal : string;
  purity : option string;
  unit : string;
  price : number
}.

(** Modelled from the spec: a Block of the data model; [payload] is [None]
    for the synthetic empty payload of the genesis block. *)
Record Block : Type := {
  index : nat;
  timestamp : Z;
  payload : option PricePoint;
  previous_hash : string;
  seal : nat;
  hash : string
}.

(** Modelled from the spec: the error taxonomy of the ledger.  A seal
    search that reaches its iteration cap is the exhaustion signal of the
    design notes. *)
Inductive error : Type :=
| ValidationError (field : string)
| NotFoundError
| SealExhausted.

Definition twoDigits (a b : ascii) : option Z :=
  if Str.isDigit a && Str.isDigit b
  then Some (10 * (Str.code a - 48) + (Str.code b - 48)) else None.

Definition leapYear (y : Z) : bool :=
  ((y mod 4 =? 0) && negb (y mod 100 =? 0)) || (y mod 400 =? 0).

Definition daysIn (y m : Z) : Z :=
  if m =? 2 then (if leapYear y then 29 else 28)
  else if (m =? 4) || (m =? 6) || (m =? 9) || (m =? 11) then 30
  else 31.

(** Modelled from the spec: "date parses as a calendar date", in the ISO
    form YYYY-MM-DD of the data model. *)
Definition isCalendarDate (s : string) : bool :=
  match Str.chars s with
  | [y1; y2; y3; y4; d1; m1; m2; d2; a1; a2] =>
      match twoDigits y1 y2, twoDigits y3 y4, twoDigits m1 m2, twoDigits a1 a2 with
      | Some yh, Some yl, Some m, Some d =>
          (Str.code d1 =? 45) && (Str.code d2 =? 45)
          && (1 <=? m) && (m <=? 12)
          && (1 <=? d) && (d <=? daysIn (100 * yh + yl) m)
      | _, _, _, _ => false
      end
  | _ => false
  end.

(** Modelled from the spec: the validation of section 4.3; the result is
    the offending field, if any. *)
Definition validate (p : PricePoint) : option string :=
  if negb (isCalendarDate (date p)) then Some "date"
  else if negb (includes App.METALS (metal p)) then Some "metal"
  else if negb (match purity p with
                | Some k => String.eqb (metal p) "gold" && includes App.GOLD_PURITY k
                | None => negb (String.eqb (metal p) "gold")
                end) then Some "purity"
  else if negb (includes App.UNITS (unit p)) then Some "unit"
  else if negb (Num.isFinite (price p) && Num.ltb Num.zero (price p)) then Some "price"
  else None.

Section Engine.

(** The Hasher, the configured difficulty prefix, the iteration cap of the
    seal search and the genesis block are parameters of the engine. *)
Variable Hasher : nat -> Z -> option PricePoint -> string -> nat -> string.
Variable difficulty_prefix : string.
Variable cap : nat.
Variable genesis : Block.

(** Modelled from the spec: the seal search of section 4.2, increasing
    values from [s], at most [fuel] of them. *)
Fixpoint search (fuel : nat) (idx : nat) (ts : Z) (p : option PricePoint)
    (prev : string) (s : nat) : option (nat * string) :=
  match fuel with
  | O => None
  | S f =>
      let h := Hasher idx ts p prev s in
      if String.prefix difficulty_prefix h then Some (s, h)
      else search f idx ts p prev (S s)
  end.

(** Modelled from the spec: sealing a candidate block. *)
Definition mine (idx : nat) (ts : Z) (p : option PricePoint) (prev : string)
    : option Block :=
  match search cap idx ts p prev 0 with
  | Some (s, h) =>
      Some {| index := idx; timestamp := ts; payload := p;
              previous_hash := prev; seal := s; hash := h |}
  | None => None
  end.

(** Modelled from the spec: the forward pass that re-seals a suffix, each
    block on the hash of its freshly sealed predecessor, indices counted
    from [idx]. *)
Fixpoint reseal (prev : string) (idx : nat) (l : list Block) : option (list Block) :=
  match l with
  | [] => Some []
  | b :: r =>
      match mine idx (timestamp b) (payload b) prev with
      | Some b' =>
          match reseal (hash b') (S idx) r with
          | Some r' => Some (b' :: r')
          | None => None
          end
      | None => None
      end
  end.

Definition tailHash (l : list Block) : string := hash (last l genesis).

Definition withPayload (p : PricePoint) (b : Block) : Block :=
  {| index := index b; timestamp := timestamp b; payload := Some p;
     previous_hash := previous_hash b; seal := seal b; hash := hash b |}.

(** Modelled from the spec: add, section 4.3. *)
Definition add (ts : Z) (p : PricePoint) (l : list Block) : list Block + error :=
  match validate p with
  | Some field => inr (ValidationError field)
  | None =>
      match mine (List.length l) ts (Some p) (tailHash l) with
      | Some b => inl (l ++ [b])
      | None => inr SealExhausted
      end
  end.

Definition found (i : nat) (l : list Block) : bool :=
  negb (Nat.eqb i 0) && Nat.ltb i (List.length l).

(** Modelled from the spec: update, section 4.4. *)
Definition update (i : nat) (p : PricePoint) (l : list Block) : list Block + error :=
  if negb (found i l) then inr NotFoundError
  else
    match validate p with
    | Some field => inr (ValidationError field)
    | None =>
        let suffix := match skipn i l with
                      | b :: r => withPayload p b :: r
                      | [] => []
                      end in
        match reseal (tailHash (firstn i l)) i suffix with
        | Some s => inl (firstn i l ++ s)
        | None => inr SealExhausted
        end
    end.

(** Modelled from the spec: delete, section 4.5. *)
Definition delete (i : nat) (l : list Block) : list Block + error :=
  if negb (found i l) then inr NotFoundError
  else
    match reseal (tailHash (firstn i l)) i (skipn (S i) l) with
    | Some s => inl (firstn i l ++ s)
    | None => inr SealExhausted
    end.

(** Modelled from the spec: the walk of the validity check, section 4.6,
    from a block whose predecessor's hash is [prev]. *)
Fixpoint validFrom (prev : string) (l : list Block) : bool :=
  match l with
  | [] => true
  | b :: r =>
      String.eqb (hash b)
        (Hasher (index b) (timestamp b) (payload b) (previous_hash b) (seal b))
      && String.prefix difficulty_prefix (hash b)
      && String.eqb (previous_hash b) prev
      && validFrom (hash b) r
  end.

(** Modelled from the spec: [is_valid], the walk from index 1 to the
    end. *)
Definition is_valid (l : list Block) : bool :=
  match l with
  | [] => true
  | g :: r => validFrom (hash g) r
  end.

(** The mutations of the ledger. *)
Inductive op : Type :=
| Add (ts : Z) (p : PricePoint)
| Update (i : nat) (p : PricePoint)
| Delete (i : nat).

Definition apply (o : op) (l : list Block) : list Block + error :=
  match o with
  | Add ts p => add ts p l
  | Update i p => update i p l
  | Delete i => delete i l
  end.

(** A sequence of operations, each of which succeeds; the first failure
    is the result. *)
Fixpoint run (ops : list op) (l : list Block) : list Block + error :=
  match ops with
  | [] => inl l
  | o :: r =>
      match apply o l with
      | inl l' => run r l'
      | inr e => inr e
      end
  end.

Definition genesisLedger : list Block := [genesis].

(** The hash a block appended after [l] links to, when the block before
    [l] has hash [prev]. *)
Definition lastHash (prev : string) (l : list Block) : string :=
  fold_left (fun _ b => hash b) l prev.

(** A chain that starts with a block and passes the validity check. *)
Definition sound (l : list Block) : Prop := l <> [] /\ is_valid l = true.

End Engine.

(** A small Hasher for running the engine: two hexadecimal bytes that
    mix every field. *)
Definition sumChars (s : string) : Z :=
  fold_right (fun c acc => Str.code c + 3 * acc) 0 (Str.chars s).

Definition hexByte (z : Z) : string :=
  Str.ofChars [Api.hexDigit (z / 16); Api.hexDigit (z mod 16)].

Definition payloadSum (p : option PricePoint) : Z :=
  match p with
  | None => 0
  | Some q =>
      sumChars (date q) + sumChars (metal q)
      + match purity q with Some k => sumChars k | None => 1 end
      + sumChars (unit q)
      + match price q with
        | S754_finite _ m e => Zpos m + e
        | _ => 0
        end
  end.

Definition toyHasher (idx : nat) (ts : Z) (p : option PricePoint)
    (prev : string) (s : nat) : string :=
  let x := 17 * Z.of_nat idx + ts + payloadSum p + sumChars prev
           + 7 * Z.of_nat s in
  hexByte (x mod 256) +++ hexByte ((x / 5 + 11 * Z.of_nat s) mod 256).

Definition toyGenesis : Block :=
  {| index := 0; timestamp := 0; payload := None; previous_hash := "0";
     seal := 0; hash := toyHasher 0 0 None "0" 0 |}.

End Ledger.

(* ================================================================== *)
(** * Vocabulary of the statements *)

(** The value of [v.k] where reading it does not throw, [undefined] where it
    does. *)
Definition prop (v : jsval) (k : string) : jsval :=
  match get v k with
  | Val x => x
  | Throw _ => VUndefined
  end.

(** The object a request carries as its body. *)
Definition payloadOf (r : request) : jsval :=
  match body r with
  | Some v => v
  | None => VUndefined
  end.

(** A field of a payload is present when it is neither [null] (or missing)
    nor the empty string. *)
Definition present (v : jsval) : bool :=
  match v with
  | VUndefined | VNull => false
  | VStr s => negb (Str.isEmpty s)
  | _ => true
  end.

(** A price that passes the check of the update dialog: finite and above
    zero. *)
Definition positivePrice (v : jsval) : bool :=
  match v with
  | VNum n => Num.isFinite n && Num.ltb Num.zero n
  | _ => false
  end.

(** A string that is one of [l]. *)
Definition memberOf (l : list string) (v : jsval) : bool :=
  match v with
  | VStr s => includes l s
  | _ => false
  end.

(** A string that parses as a calendar date. *)
Definition calendarDate (v : jsval) : bool :=
  match v with
  | VStr s => Ledger.isCalendarDate s
  | _ => false
  end.

(** The error the update dialog raises on an entry of the prompt [text],
    if it raises one. *)
Definition entryError {H : Host} (text entry : string) : option string :=
  if String.eqb text App.promptUnit then
    if includes App.UNITS (toLowerCase (trim entry)) then None
    else Some App.errorUnit
  else if String.eqb text App.promptPurity then
    if includes App.GOLD_PURITY (toUpperCase (trim entry)) then None
    else Some App.errorPurity
  else if String.eqb text App.promptPrice then
    if negb (Num.isFinite (Number entry)) || Num.leb (Number entry) Num.zero
    then Some App.errorPrice else None
  else None.

(** The five functions api.js exports, as calls. *)
Inductive call : Type :=
| GetChain
| AddPrice (payload : jsval)
| UpdatePrice (blockIndex payload : jsval)
| DeletePrice (blockIndex : jsval)
| Predict (arg : jsval).

Definition invoke {H : Host} (E : Env) {S : Type} (c : call) : M S jsval :=
  match c with
  | GetChain => Api.getChain E
  | AddPrice p => Api.addPrice E p
  | UpdatePrice i p => Api.updatePrice E i p
  | DeletePrice i => Api.deletePrice E i
  | Predict a => Api.predict E a
  end.

(** The fallback message of a call. *)
Definition fallbackOf (c : call) : string :=
  match c with
  | GetChain => "Failed to fetch chain"
  | AddPrice _ => "Failed to add price"
  | UpdatePrice _ _ => "Failed to update price"
  | DeletePrice _ => "Failed to delete price"
  | Predict _ => "Failed to predict"
  end.

(** The server's reason in an error body, or the fallback of the call when
    the body has none. *)
Definition detailOr {H : Host} (c : call) (error : jsval) : string :=
  if truthy (prop error "detail") then ToString (prop error "detail")
  else fallbackOf c.

(** The message of the [Error] a call throws on a response that is not ok
    and whose body is the JSON value [error]: [getChain] does not read the
    body. *)
Definition failureMessage {H : Host} (c : call) (error : jsval) : string :=
  match c with
  | GetChain => "Failed to fetch chain"
  | _ => detailOr c error
  end.

(** The two requests of [loadData]. *)
Definition chainRequest : request :=
  {| method := "GET"; url := "http://localhost:8000/chain";
     headers := []; body := None |}.

Definition predictRequest (ps : Api.params) : request :=
  {| method := "GET";
     url := "http://localhost:8000/predict?" +++ Api.paramsToString ps;
     headers := []; body := None |}.

(** The requests of the three mutations. *)
Definition addRequest (p : jsval) : request :=
  {| method := "POST"; url := "http://localhost:8000/prices";
     headers := [("Content-Type", "application/json")]; body := Some p |}.

Definition updateRequest {H : Host} (i p : jsval) : request :=
  {| method := "PUT"; url := "http://localhost:8000/prices/" +++ ToString i;
     headers := [("Content-Type", "application/json")]; body := Some p |}.

Definition deleteRequest {H : Host} (i : jsval) : request :=
  {| method := "DELETE"; url := "http://localhost:8000/prices/" +++ ToString i;
     headers := []; body := None |}.

(** The request of a call; [predict] throws before it sends anything when
    its argument cannot be destructured. *)
Definition requestOf {H : Host} (c : call) : result request :=
  match c with
  | GetChain => Val chainRequest
  | AddPrice p => Val (addRequest p)
  | UpdatePrice i p => Val (updateRequest i p)
  | DeletePrice i => Val (deleteRequest i)
  | Predict a => rbind (Api.predictParams a) (fun ps => Val (predictRequest ps))
  end.

(** How a call settles on an outcome of its request. *)
Definition settle {H : Host} (c : call) (out : outcome) : result jsval :=
  match out with
  | Rejected => Throw FetchFailure
  | Responded res =>
      if ok res then
        match json res with
        | Some v => Val v
        | None => Throw SyntaxError
        end
      else
        match c, json res with
        | GetChain, _ => Throw (Error "Failed to fetch chain")
        | _, None => Throw SyntaxError
        | _, Some error =>
            match get error "detail" with
            | Val _ => Throw (Error (failureMessage c error))
            | Throw e => Throw e
            end
        end
  end.

(** The parameters of the predict request of the application, by the
    state of the prediction filter. *)
Definition filterParams {H : Host} (f : Filter.t) : Api.params :=
  [("days_ahead", numberToString (Num.ofZ 1)); ("metal", Filter.metal f)]
  ++ (if String.eqb (Filter.metal f) "gold" && negb (Str.isEmpty (Filter.purity f))
      then [("purity", Filter.purity f)] else []).

(** The events of a reload: the chain request and the predict request of
    the current filter, each with its outcome. *)
Definition reloadTrace {H : Host} (E : Env) (s : App.State) : list event :=
  let pr := predictRequest (filterParams (App.predictFilter s)) in
  [Fetched chainRequest (serve E chainRequest); Fetched pr (serve E pr)].

(** An answered prompt whose entry passes its check, a dismissed prompt, and
    an answered prompt whose entry raises [msg]. *)
Definition accepted {H : Host} (e : event) : Prop :=
  match e with
  | Prompted text _ (Some entry) => entryError text entry = None
  | _ => False
  end.

Definition dismissed (e : event) : Prop :=
  match e with
  | Prompted _ _ None => True
  | _ => False
  end.

Definition refused {H : Host} (msg : string) (e : event) : Prop :=
  match e with
  | Prompted text _ (Some entry) => entryError text entry = Some msg
  | _ => False
  end.

(** The replacement payload of a completed update dialog on a block whose
    payload is [data]. *)
Definition replacement (data : jsval) (newDate newUnit : string) (newPurity : jsval)
    (newPrice : number) : jsval :=
  VObj [("date", VStr newDate);
        ("metal", prop data "metal");
        ("purity", newPurity);
        ("unit", VStr newUnit);
        ("price", VNum newPrice)].

(** The four ways a run of the update dialog ends: the block has no
    payload to read, a prompt is dismissed, an entry is refused, or the
    replacement is sent (and the data reloaded when the server accepts). *)
Inductive updateRun {H : Host} (E : Env) (block : jsval) (s : App.State)
    : result unit * App.State * list event -> Prop :=
| UpdateCrashed (e : exn) :
    updateRun E block s (Throw e, s, [])
| UpdateCancelled (t : list event) (e : event) :
    Forall accepted t -> dismissed e ->
    updateRun E block s (Val tt, s, t ++ [e])
| UpdateRefused (t : list event) (e : event) (msg : string) :
    Forall accepted t -> refused msg e ->
    updateRun E block s (Val tt, App.withError msg s, t ++ [e])
| UpdateSent (t : list event) (data : jsval) (newDate newUnit : string)
    (newPurity : jsval) (newPrice : number) (s' : App.State) (rest : list event) :
    Forall accepted t ->
    get block "data" = Val data ->
    includes App.UNITS newUnit = true ->
    (if strictEqStr (prop data "metal") "gold"
     then memberOf App.GOLD_PURITY newPurity = true
     else newPurity = VNull) ->
    Num.isFinite newPrice && Num.ltb Num.zero newPrice = true ->
    rest = reloadTrace E s \/ rest = [] ->
    let req := updateRequest (prop block "index")
                 (replacement data newDate newUnit newPurity newPrice) in
    updateRun E block s (Val tt, s', t ++ Fetched req (serve E req) :: rest).


(** The block has a payload with a price. *)
Definition priced (b : jsval) : bool := truthy (prop (prop b "data") "price").

(** The six data cells of a row, as the table shows them: index, date,
    metal in upper case, purity or a dash, unit, price. *)
Definition dataCells {H : Host} (b : jsval) : list (list node) :=
  let data := prop b "data" in
  [[Expr (prop b "index")];
   [Expr (prop data "date")];
   [Expr (VStr (toUpperCase (ToString (jsOr (prop data "metal") (VStr "")))))];
   [Expr (jsOr (prop data "purity") (VStr "-"))];
   [Expr (prop data "unit")];
   [Expr (prop data "price")]].



(** The series line of the prediction card. *)
Definition seriesLine {H : Host} (metal : string) (purity : jsval) : node :=
  Elem "p" []
    [Text "Series: "; Elem "strong" [] [Text (toUpperCase metal)]; Text " ";
     if truthy purity then Elem "strong" [] [Expr purity] else Expr VNull].

(** One estimate line of the prediction card. *)
Definition estimateLine (label : string) (price currency : jsval) : node :=
  Elem "p" []
    [Text ("Next day estimate (" +++ label +++ "): ");
     Elem "strong" [] [Text "Rs "; Expr price]; Text " "; Expr currency].

(** The values handed to React anywhere in a tree, in order. *)
Fixpoint shown (n : node) : list jsval :=
  match n with
  | Text _ => []
  | Expr v => [v]
  | Elem _ _ children => flat_map shown children
  end.

(* ================================================================== *)
(** * Reading a query back *)

(** How the receiving side reads the query of a URL, the
    application/x-www-form-urlencoded parser: the text after the first [?]
    is cut at every [&], empty pieces are dropped, a piece is cut at its
    first [=] into a name and a value, and in both [+] is a space and [%XX]
    the byte [XX]. *)
Fixpoint breakAt (sep : ascii) (l : list ascii) : list ascii * list ascii :=
  match l with
  | [] => ([], [])
  | c :: r =>
      if Ascii.eqb c sep then ([], r)
      else let '(a, b) := breakAt sep r in (c :: a, b)
  end.

Fixpoint pieces (sep : ascii) (l : list ascii) : list (list ascii) :=
  match l with
  | [] => [[]]
  | c :: r =>
      if Ascii.eqb c sep then [] :: pieces sep r
      else match pieces sep r with
           | p :: ps => (c :: p) :: ps
           | [] => [[c]]
           end
  end.

(** Percent-decoding: a [%] that two hex digits do not follow stays. *)
Fixpoint unescape (l : list ascii) : list ascii :=
  match l with
  | [] => []
  | c :: r =>
      let plain := (if Ascii.eqb c "+" then " "%char else c) :: unescape r in
      if Ascii.eqb c "%" then
        match r with
        | a :: b :: r' =>
            match Str.digitValue a, Str.digitValue b with
            | Some x, Some y => Str.char (16 * x + y) :: unescape r'
            | _, _ => plain
            end
        | _ => plain
        end
      else plain
  end.

Definition parsePiece (p : list ascii) : string * string :=
  let '(n, v) := breakAt "=" p in
  (Str.ofChars (unescape n), Str.ofChars (unescape v)).

Definition parseQuery (q : string) : Api.params :=
  map parsePiece
    (filter (fun p => match p with [] => false | _ => true end)
       (pieces "&" (Str.chars q))).

(** The query of a URL: what follows its first [?]. *)
Definition queryOf (u : string) : string :=
  Str.ofChars (snd (breakAt "?" (Str.chars u))).

(** The parameters a URL carries in its query. *)
Definition queryParams (u : string) : Api.params := parseQuery (queryOf u).

(** No character of the text is the separator. *)
Definition without (sep : ascii) (l : list ascii) : bool :=
  forallb (fun c => negb (Ascii.eqb c sep)) l.

(** One pair, as [paramsToString] writes it. *)
Definition written (n v : string) : list ascii :=
  flat_map Api.encodeByte (Str.chars n) ++ "="%char :: flat_map Api.encodeByte (Str.chars v).

(* ================================================================== *)
(** * Sample inputs *)

Definition goldBlock : jsval :=
  VObj [("index", VNum (Num.ofZ 3));
        ("data", VObj [("date", VStr "2026-02-21"); ("metal", VStr "gold");
                       ("purity", VStr "22K"); ("unit", VStr "10g");
                       ("price", VNum (Num.ofZ 64200))]);
        ("hash", VStr "00c4a1f09b7e2d5588aa31f0")].

Definition silverBlock : jsval :=
  VObj [("index", VNum (Num.ofZ 1));
        ("data", VObj [("date", VStr "2026-02-20"); ("metal", VStr "silver");
                       ("purity", VNull); ("unit", VStr "1g");
                       ("price", VNum (Num.ofDecimal false 925 (-1)))]);
        ("hash", VStr "00ab5d3e77c1904f2e6b88d1")].

(** A server that accepts every request and answers with an empty object. *)
Definition acceptAll (r : request) : outcome :=
  Responded {| ok := true; json := Some (VObj []) |}.

(** A user who keeps every default, and one who also confirms. *)
Definition keepDefaults : Env :=
  {| promptAnswer := fun _ d => Some d; confirmAnswer := fun _ => true;
     serve := acceptAll; secondSettlesFirst := false |}.

(** A user who dismisses the price prompt and declines the confirmation. *)
Definition cancelAtPrice : Env :=
  {| promptAnswer := fun text d =>
       if String.eqb text App.promptPrice then None else Some d;
     confirmAnswer := fun _ => false;
     serve := acceptAll; secondSettlesFirst := false |}.

(** A user who types a word for the date and keeps the other defaults. *)
Definition typesYesterday : Env :=
  {| promptAnswer := fun text d =>
       if String.eqb text App.promptDate then Some "yesterday" else Some d;
     confirmAnswer := fun _ => true;
     serve := acceptAll; secondSettlesFirst := false |}.

(** A user who types a unit that is not offered. *)
Definition typesOunce : Env :=
  {| promptAnswer := fun text d =>
       if String.eqb text App.promptUnit then Some "1oz" else Some d;
     confirmAnswer := fun _ => true;
     serve := acceptAll; secondSettlesFirst := false |}.

(** A filled add form for gold, and the state that holds it. *)
Definition goldForm : Form.t :=
  {| Form.date := "2026-02-21"; Form.metal := "gold"; Form.purity := "22K";
     Form.unit := "10g"; Form.price := "64200" |}.

Definition goldFormState : App.State := App.withForm (fun _ => goldForm) App.initial.

(** The add form after gold was selected and the purity put back on its
    placeholder. *)
Definition noPurityForm : Form.t :=
  {| Form.date := "2026-02-21"; Form.metal := "gold"; Form.purity := "";
     Form.unit := "10g"; Form.price := "64200" |}.

(** A server that refuses every request with a reason. *)
Definition refuseAll : Env :=
  {| promptAnswer := fun _ d => Some d; confirmAnswer := fun _ => true;
     serve := fun _ => Responded {| ok := false;
                json := Some (VObj [("detail", VStr "ledger store offline")]) |};
     secondSettlesFirst := false |}.

(** A chain response in the nested shape the table reads: the genesis block
    with an empty payload, then the two sample blocks. *)
Definition nestedGenesis : jsval :=
  VObj [("index", VNum (Num.ofZ 0)); ("data", VObj []);
        ("hash", VStr "00f1e2d3c4b5a697887766aa")].

Definition nestedChain : jsval :=
  VObj [("length", VNum (Num.ofZ 3)); ("is_valid", VBool true);
        ("difficulty_prefix", VStr "00");
        ("blocks", VArr [nestedGenesis; silverBlock; goldBlock])].




(** Two forecast results: one with estimates, one without. *)
Definition forecastGold : jsval :=
  VObj [("metal", VStr "gold"); ("purity", VStr "24K"); ("can_predict", VBool true);
        ("predicted_price_inr_1g", VNum (Num.ofZ 6500));
        ("predicted_price_inr_10g", VNum (Num.ofZ 65000));
        ("predicted_price_inr_1kg", VNum (Num.ofZ 6500000));
        ("currency", VStr "INR")].

Definition forecastNone : jsval :=
  VObj [("metal", VStr "silver"); ("purity", VNull); ("can_predict", VBool false);
        ("message", VStr "Need at least 2 data points"); ("currency", VStr "INR")].

(** Three valid payloads and a sequence of mutations over them. *)
Definition silverPoint : Ledger.PricePoint :=
  {| Ledger.date := "2026-02-20"; Ledger.metal := "silver"; Ledger.purity := None;
     Ledger.unit := "1g"; Ledger.price := Num.ofDecimal false 925 (-1) |}.

Definition goldPoint : Ledger.PricePoint :=
  {| Ledger.date := "2026-02-21"; Ledger.metal := "gold"; Ledger.purity := Some "22K";
     Ledger.unit := "10g"; Ledger.price := Num.ofZ 64200 |}.

Definition platinumPoint : Ledger.PricePoint :=
  {| Ledger.date := "2024-02-29"; Ledger.metal := "platinum"; Ledger.purity := None;
     Ledger.unit := "1kg"; Ledger.price := Num.ofZ 3100000 |}.

Definition sampleOps : list Ledger.op :=
  [Ledger.Add 100 silverPoint; Ledger.Add 200 goldPoint; Ledger.Add 300 platinumPoint;
   Ledger.Update 1 platinumPoint; Ledger.Delete 2; Ledger.Add 400 silverPoint].

Definition sampleLedger : list Ledger.Block :=
  Eval vm_compute in
    match Ledger.run Ledger.toyHasher "0" 64 Ledger.toyGenesis sampleOps
            (Ledger.genesisLedger Ledger.toyGenesis) with
    | inl l => l
    | inr _ => []
    end.

(* ================================================================== *)
(** * App.jsx: the controls, the banner and the effect *)

(** A [<select>] as the JSX gives it: the values of its options, and whether
    it is disabled.  A change event of a select carries the value of one of
    its options, and a disabled select raises none. *)
Record select : Type := {
  options : list string;
  disabled : bool
}.

Definition choices (c : select) : list string :=
  if disabled c then [] else options c.

(** The three selects of the add form and the two of the prediction filter.
    The purity selects start with the placeholder option of value [""], and
    are disabled unless the metal is gold. *)
Definition metalSelect : select :=
  {| options := App.METALS; disabled := false |}.

Definition puritySelect (f : Form.t) : select :=
  {| options := "" :: App.GOLD_PURITY;
     disabled := negb (String.eqb (Form.metal f) "gold") |}.

Definition unitSelect : select :=
  {| options := App.UNITS; disabled := false |}.

Definition filterMetalSelect : select :=
  {| options := App.METALS; disabled := false |}.

Definition filterPuritySelect (p : Filter.t) : select :=
  {| options := "" :: App.GOLD_PURITY;
     disabled := negb (String.eqb (Filter.metal p) "gold") |}.

(** [{error && <div className="error">{error}</div>}]: the empty string is
    rendered as it is (React shows nothing for it). *)
Definition errorBanner (error : string) : node :=
  if Str.isEmpty error then Expr (VStr error)
  else Elem "div" [("className", VStr "error")] [Expr (VStr error)].

(** The submit button of the add form. *)
Definition submitButton (loading : bool) : node :=
  Elem "button" [("type", VStr "submit"); ("disabled", VBool loading)]
    [Text (if loading then "Saving..." else "Commit to Chain")].

(** [Object.is] on the values an effect's dependencies take here:
    primitives.  Two arrays or two objects are never the same value. *)
Definition objectIs (a b : jsval) : bool :=
  match a, b with
  | VUndefined, VUndefined => true
  | VNull, VNull => true
  | VBool x, VBool y => Bool.eqb x y
  | VNum x, VNum y => Num.same x y
  | VStr x, VStr y => String.eqb x y
  | _, _ => false
  end.

(** The dependencies of the effect that loads the data:
    [[predictionPayload.metal, predictionPayload.purity]]. *)
Definition effectDeps {H : Host} (s : App.State) : list jsval :=
  [prop (App.predictionPayload s) "metal"; prop (App.predictionPayload s) "purity"].

Fixpoint sameDeps (a b : list jsval) : bool :=
  match a, b with
  | [], [] => true
  | x :: a', y :: b' => objectIs x y && sameDeps a' b'
  | _, _ => false
  end.

(** The effect runs again after a render whose dependencies differ from
    those of the render before. *)
Definition effectFires {H : Host} (before now : App.State) : bool :=
  negb (sameDeps (effectDeps before) (effectDeps now)).

(** What happens to the component between two renders: an input or a select
    of the add form or of the filter changes, the form is submitted, a row's
    Update or Remove button is pressed, or the component mounts. *)
Inductive action : Type :=
| FormDate (v : string)
| FormMetal (v : string)
| FormPurity (v : string)
| FormUnit (v : string)
| FormPrice (v : string)
| FilterMetal (v : string)
| FilterPurity (v : string)
| Submit
| Update (block : jsval)
| Remove (block : jsval)
| Mount.

(** The controls allow the action in the state. *)
Definition permitted (s : App.State) (a : action) : bool :=
  match a with
  | FormMetal v => includes (choices metalSelect) v
  | FormPurity v => includes (choices (puritySelect (App.form s))) v
  | FormUnit v => includes (choices unitSelect) v
  | FilterMetal v => includes (choices filterMetalSelect) v
  | FilterPurity v => includes (choices (filterPuritySelect (App.predictFilter s))) v
  | Submit => negb (App.loading s)
  | _ => true
  end.

(** A change of the filter, and the effect after it when its dependencies
    changed. *)
Definition filterChange {H : Host} (E : Env) (f : Filter.t -> Filter.t)
    (s : App.State) : result unit * App.State * list event :=
  let s' := App.withPredictFilter f s in
  if effectFires s s' then App.loadData E s' else (Val tt, s', []).

(** One action, run to its end in the environment [E]. *)
Definition perform {H : Host} (E : Env) (a : action) (s : App.State)
    : result unit * App.State * list event :=
  match a with
  | FormDate v => (Val tt, App.withForm (App.formDateChange v) s, [])
  | FormMetal v => (Val tt, App.withForm (App.formMetalChange v) s, [])
  | FormPurity v => (Val tt, App.withForm (App.formPurityChange v) s, [])
  | FormUnit v => (Val tt, App.withForm (App.formUnitChange v) s, [])
  | FormPrice v => (Val tt, App.withForm (App.formPriceChange v) s, [])
  | FilterMetal v => filterChange E (App.filterMetalChange v) s
  | FilterPurity v => filterChange E (App.filterPurityChange v) s
  | Submit => App.onSubmit E s
  | Update b => App.handleUpdate E b s
  | Remove b => App.handleDelete E b s
  | Mount => App.loadData E s
  end.

(** A session: permitted actions, each in an environment of its own and
    run to its end, from a state on.  [None] when an action is not
    permitted.  A session does not look at what is rendered: it goes on
    after a state whose page cannot be built, so the states it reaches
    include every state the page is shown in, and more. *)
Fixpoint session {H : Host} (script : list (Env * action)) (s : App.State)
    : option (App.State * list event) :=
  match script with
  | [] => Some (s, [])
  | (E, a) :: rest =>
      if permitted s a then
        let x := perform E a s in
        match session rest (stateOf x) with
        | Some (s', t) => Some (s', traceOf x ++ t)
        | None => None
        end
      else None
  end.

(** The states a session reaches from the initial state. *)
Definition reachable {H : Host} (s : App.State) : Prop :=
  exists script t, session script App.initial = Some (s, t).

(** The inputs of the add form and of the filter are in range: the metal
    and the unit are offered ones, the purity is a grade or empty for gold
    and empty for any other metal. *)
Definition formInRange (f : Form.t) : bool :=
  includes App.METALS (Form.metal f)
  && includes App.UNITS (Form.unit f)
  && (if String.eqb (Form.metal f) "gold"
      then includes ("" :: App.GOLD_PURITY) (Form.purity f)
      else Str.isEmpty (Form.purity f)).

Definition filterInRange (p : Filter.t) : bool :=
  includes App.METALS (Filter.metal p)
  && (if String.eqb (Filter.metal p) "gold"
      then includes ("" :: App.GOLD_PURITY) (Filter.purity p)
      else Str.isEmpty (Filter.purity p)).

Definition inputsInRange (s : App.State) : Prop :=
  formInRange (App.form s) = true /\ filterInRange (App.predictFilter s) = true.

(** A program keeps a property of the state. *)
Definition preserves {A} (P : App.State -> Prop) (m : M App.State A) : Prop :=
  forall s, P s -> P (stateOf (m s)).

(** A property of the state that what a reload or a row action displays
    does not bear on: the chain, the prediction, the error and the mark of
    the row in progress. *)
Definition displayBlind (P : App.State -> Prop) : Prop :=
  forall s, P s ->
    (forall v, P (App.withChain v s))
    /\ (forall v, P (App.withPrediction v s))
    /\ (forall m, P (App.withError m s))
    /\ (forall a, P (App.withActionLoading a s)).

(** The state after a call that settled with [r]: the reloaded state when
    it returned, the error shown when it threw. *)
Definition afterCall {H : Host} (E : Env) (r : result jsval) (s : App.State) : App.State :=
  match r with
  | Val _ => stateOf (App.loadData E s)
  | Throw e => App.withError (message e) s
  end.

(** The events after a call that settled with [r]: those of the reload when
    it returned, none when it threw. *)
Definition reloadAfter {H : Host} (E : Env) (r : result jsval) (s : App.State)
    : list event :=
  match r with
  | Val _ => reloadTrace E s
  | Throw _ => []
  end.

(** [undefined] or [null]: the values a property read throws on. *)
Definition nullish (v : jsval) : bool :=
  match v with
  | VUndefined | VNull => true
  | _ => false
  end.

Definition isString (v : jsval) : bool :=
  match v with
  | VStr _ => true
  | _ => false
  end.




(** The component is idle: no submit and no row action is in progress. *)
Definition idle (s : App.State) : Prop :=
  App.loading s = false /\ App.actionLoading s = "".

(** The [disabled] attribute of the [n]-th button of a row's actions cell. *)
Definition buttonDisabled (row : node) (n : nat) : jsval :=
  match row with
  | Elem _ _ cells =>
      match nth 7 cells (Text "") with
      | Elem _ _ buttons =>
          match nth n buttons (Text "") with
          | Elem _ attrs _ => lookup "disabled" attrs
          | _ => VUndefined
          end
      | _ => VUndefined
      end
  | _ => VUndefined
  end.

(** A session that fills the add form for gold, field by field. *)
Definition fillGoldForm : list (Env * action) :=
  [(keepDefaults, Mount);
   (keepDefaults, FormMetal "gold");
   (keepDefaults, FormPurity "22K");
   (keepDefaults, FormUnit "10g");
   (keepDefaults, FormDate "2026-02-21");
   (keepDefaults, FormPrice "64200")].

(** The state that session reaches. *)
Definition filledGold : App.State :=
  App.withForm (fun _ => goldForm)
    (App.withPrediction (VObj []) (App.withChain (VObj []) App.initial)).

(** A session that asks for the forecast of 22K gold. *)
Definition askGold22 : list (Env * action) :=
  [(keepDefaults, Mount); (keepDefaults, FilterMetal "gold");
   (keepDefaults, FilterPurity "22K")].

(** A predict request of a query whose metal is offered and whose purity,
    if it has one, goes with gold and is a grade. *)
Definition predictInRange (r : request) : Prop :=
  exists ps m,
    r = predictRequest ps
    /\ Api.paramsGet "metal" ps = Some m
    /\ includes App.METALS m = true
    /\ (forall k, Api.paramsGet "purity" ps = Some k ->
          m = "gold" /\ includes App.GOLD_PURITY k = true).

(** The replacement the update dialog sends for the gold block when every
    default is kept, and its request. *)
Definition goldReplacement : jsval :=
  VObj [("date", VStr "2026-02-21"); ("metal", VStr "gold"); ("purity", VStr "22K");
        ("unit", VStr "10g"); ("price", VNum (Num.ofZ 64200))].

Definition goldPut : request :=
  updateRequest (H:=asciiHost) (VNum (Num.ofZ 3)) goldReplacement.

(** The predict request for 22K gold. *)
Definition gold22Request : request :=
  predictRequest [("days_ahead", "1"); ("metal", "gold"); ("purity", "22K")].

(** A server that answers every request with the same response, a refusal
    with a given body, and the body of a validation report as a web
    framework lists it: [detail] is a list of objects. *)
Definition answering (res : response) : Env :=
  {| promptAnswer := fun _ d => Some d; confirmAnswer := fun _ => true;
     serve := fun _ => Responded res; secondSettlesFirst := false |}.

Definition refusal (body : option jsval) : response :=
  {| ok := false; json := body |}.

Definition validationReport : jsval :=
  VObj [("detail",
         VArr [VObj [("type", VStr "missing");
                     ("loc", VArr [VStr "body"; VStr "date"]);
                     ("msg", VStr "Field required")]])].

(** A server that shows the sample chain and a forecast and refuses every
    change, a session that loads the page and then tries to update the gold
    block, and the state that session ends in. *)
Definition readOnlyLedger : Env :=
  {| promptAnswer := fun _ d => Some d; confirmAnswer := fun _ => true;
     serve := fun r =>
       if String.eqb (url r) (url chainRequest)
       then Responded {| ok := true; json := Some nestedChain |}
       else if String.eqb (method r) "GET"
       then Responded {| ok := true; json := Some forecastNone |}
       else Responded (refusal (Some (VObj [("detail", VStr "ledger store offline")])));
     secondSettlesFirst := false |}.

Definition refusedUpdate : list (Env * action) :=
  [(readOnlyLedger, Mount); (readOnlyLedger, Update goldBlock)].

Definition afterRefusedUpdate : App.State :=
  App.withError "ledger store offline"
    (App.withPrediction forecastNone (App.withChain nestedChain App.initial)).

(** The state in which the filter asks for 22K gold, and the URL of its
    predict request. *)
Definition gold22State : App.State :=
  App.withPredictFilter
    (fun _ => {| Filter.metal := "gold"; Filter.purity := "22K" |}) App.initial.

Definition gold22Url : string :=
  "http://localhost:8000/predict?days_ahead=1&metal=gold&purity=22K".

(* ================================================================== *)
(** * How the programs run *)

Lemma isEmpty_spec (s : string) : Str.isEmpty s = true <-> s = "".
Proof. destruct s; simpl; split; congruence. Qed.

Section Runs.
Context {H : Host} (E : Env).

Lemma fetch_run {S} (req : request) (s : S) :
  Api.fetch E req s
  = (match serve E req with
     | Rejected => Throw FetchFailure
     | Responded res => Val res
     end, s, [Fetched req (serve E req)]).
Proof.
  unfold Api.fetch, bind, emit, throw, ret.
  destruct (serve E req); reflexivity.
Qed.

Lemma get_prop (v : jsval) (k : string) (x : jsval) :
  get v k = Val x -> x = prop v k.
Proof. unfold prop. intros ->. reflexivity. Qed.

Lemma get_total (v : jsval) (k k' : string) (x : jsval) :
  get v k = Val x -> get v k' = Val (prop v k').
Proof. unfold prop. destruct v; cbn; try discriminate; reflexivity. Qed.

Lemma jsOr_message (d : jsval) (fb : string) :
  ToString (jsOr d (VStr fb)) = if truthy d then ToString d else fb.
Proof. unfold jsOr. destruct (truthy d); reflexivity. Qed.

Lemma detailOrFallback_run {S} (c : call) (res : response) (s : S) :
  c <> GetChain ->
  Api.detailOrFallback res (fallbackOf c) s = (settle c (Responded res), s, []).
Proof.
  intros Hc.
  assert (Hfb : forall error, failureMessage c error
     = if truthy (prop error "detail") then ToString (prop error "detail")
       else fallbackOf c) by (intros error; destruct c; [congruence|reflexivity..]). unfold Api.detailOrFallback, Api.resJson, settle, bind, lift, throw, ret.
  destruct (ok res); simpl.
  - destruct (json res); reflexivity.
  - destruct (json res) as [error|]; simpl.
    + destruct (get error "detail") as [d|e] eqn:Hd; simpl.
      * apply get_prop in Hd. subst d. rewrite jsOr_message, Hfb.
        destruct c; congruence.
      * destruct c; congruence.
    + destruct c; congruence.
Qed.

Lemma invoke_run {S} (c : call) (s : S) :
  invoke E c s
  = match requestOf c with
    | Val req => (settle c (serve E req), s, [Fetched req (serve E req)])
    | Throw e => (Throw e, s, [])
    end.
Proof.
  destruct c; simpl.
  - unfold Api.getChain, bind. rewrite fetch_run. unfold chainRequest. simpl.
    destruct (serve E _) as [|res]; simpl; [reflexivity|].
    unfold Api.resJson, throw, ret. destruct (ok res); simpl; [|reflexivity].
    destruct (json res); reflexivity.
  - unfold Api.addPrice, bind. rewrite fetch_run. simpl.
    destruct (serve E _) as [|res]; simpl; [reflexivity|].
    pose proof (detailOrFallback_run (AddPrice payload) res s) as Hd. cbn [fallbackOf] in Hd.
    rewrite Hd; [reflexivity|discriminate].
  - unfold Api.updatePrice, bind. rewrite fetch_run. simpl.
    destruct (serve E _) as [|res]; simpl; [reflexivity|].
    pose proof (detailOrFallback_run (UpdatePrice blockIndex payload) res s) as Hd. cbn [fallbackOf] in Hd.
    rewrite Hd; [reflexivity|discriminate].
  - unfold Api.deletePrice, bind. rewrite fetch_run. simpl.
    destruct (serve E _) as [|res]; simpl; [reflexivity|].
    pose proof (detailOrFallback_run (DeletePrice blockIndex) res s) as Hd. cbn [fallbackOf] in Hd.
    rewrite Hd; [reflexivity|discriminate].
  - unfold Api.predict, bind, lift.
    destruct (Api.predictParams arg) as [ps|e]; simpl; [|reflexivity].
    rewrite fetch_run. unfold predictRequest. simpl.
    destruct (serve E _) as [|res]; simpl; [reflexivity|].
    pose proof (detailOrFallback_run (Predict arg) res s) as Hd. cbn [fallbackOf] in Hd.
    rewrite Hd; [reflexivity|discriminate].
Qed.
End Runs.

Section Handlers.
Context {H : Host} (E : Env).

Lemma predictParams_payload (s : App.State) :
  Api.predictParams (App.predictionPayload s) = Val (filterParams (App.predictFilter s)).
Proof.
  unfold Api.predictParams, App.predictionPayload, filterParams.
  destruct (App.predictFilter s) as [m p]; simpl.
  destruct (String.eqb m "gold"); simpl; [|reflexivity].
  destruct p; reflexivity.
Qed.

Lemma loadData_run (s : App.State) :
  exists s', App.loadData E s = (Val tt, s', reloadTrace E s)
             /\ App.predictFilter s' = App.predictFilter s.
Proof.
  unfold App.loadData, tryCatch, bind, App.setError, App.setChain, App.setPrediction,
    modify, getState, promiseAll2.
  change (Api.getChain E) with (invoke E (S:=App.State) GetChain).
  change (Api.predict E ?a) with (invoke E (S:=App.State) (Predict a)).
  rewrite invoke_run. cbn [requestOf]. rewrite invoke_run. cbn [requestOf].
  rewrite predictParams_payload. cbn [rbind App.withError App.predictFilter].
  unfold reloadTrace.
  destruct (settle GetChain _); destruct (settle (Predict _) _); cbn;
    eexists; split; reflexivity.
Qed.
End Handlers.

Section Steps.
Context {H : Host} (E : Env).

Lemma after_nil {S A} (x : result A * S * list event) : after [] x = x.
Proof. destruct x as [[r s] t]; reflexivity. Qed.

Lemma resultOf_after {S A} t (x : result A * S * list event) :
  resultOf (after t x) = resultOf x.
Proof. destruct x as [[r s] u]; reflexivity. Qed.

Lemma stateOf_after {S A} t (x : result A * S * list event) :
  stateOf (after t x) = stateOf x.
Proof. destruct x as [[r s] u]; reflexivity. Qed.

Lemma traceOf_after {S A} t (x : result A * S * list event) :
  traceOf (after t x) = t ++ traceOf x.
Proof. destruct x as [[r s] u]; reflexivity. Qed.

Lemma requests_app (t u : list event) : requests (t ++ u) = requests t ++ requests u.
Proof.
  induction t as [|e t IH]; simpl; [reflexivity|].
  destruct e; simpl; rewrite ?IH; reflexivity.
Qed.

Lemma bind_lift {S A B} (r : result A) (k : A -> M S B) (s : S) :
  bind (lift r) k s = match r with Val a => k a s | Throw e => (Throw e, s, []) end.
Proof. unfold bind, lift. destruct r; [apply after_nil|reflexivity]. Qed.

Lemma bind_modify {S B} (f : S -> S) (k : unit -> M S B) (s : S) :
  bind (modify f) k s = k tt (f s).
Proof. unfold bind, modify. apply after_nil. Qed.

Lemma bind_getState {S B} (k : S -> M S B) (s : S) : bind getState k s = k s s.
Proof. unfold bind, getState. apply after_nil. Qed.

Lemma bind_prompt {B} text d (k : option string -> M App.State B) s :
  bind (App.prompt E text d) k s
  = after [Prompted text (App.promptDefault d) (promptAnswer E text (App.promptDefault d))]
      (k (promptAnswer E text (App.promptDefault d)) s).
Proof.
  unfold App.prompt, bind, emit, ret. cbn.
  destruct (k _ s) as [[r s'] t]. reflexivity.
Qed.

Lemma bind_confirm {B} text (k : bool -> M App.State B) s :
  bind (App.confirm E text) k s
  = after [Confirmed text (confirmAnswer E text)] (k (confirmAnswer E text) s).
Proof.
  unfold App.confirm, bind, emit, ret. cbn.
  destruct (k _ s) as [[r s'] t]. reflexivity.
Qed.

Lemma bind_setError {B} m (k : unit -> M App.State B) s :
  bind (App.setError m) k s = k tt (App.withError m s).
Proof. apply bind_modify. Qed.

Lemma bind_setActionLoading {B} a (k : unit -> M App.State B) s :
  bind (App.setActionLoading a) k s = k tt (App.withActionLoading a s).
Proof. apply bind_modify. Qed.

Lemma bind_setLoading {B} a (k : unit -> M App.State B) s :
  bind (App.setLoading a) k s = k tt (App.withLoading a s).
Proof. apply bind_modify. Qed.

(** A call followed by a reload, inside [try]/[catch]/[finally]. *)
Lemma guarded_run (c : call) (req : request) (g : App.State -> App.State) (s : App.State) :
  requestOf c = Val req ->
  exists s',
    tryFinally
      (tryCatch (bind (invoke E c) (fun _ => App.loadData E))
         (fun e => App.setError (message e)))
      (modify g) s
    = (Val tt, s',
       Fetched req (serve E req)
       :: match settle c (serve E req) with
          | Val _ => reloadTrace E s
          | Throw _ => []
          end).
Proof.
  intros Hreq. unfold tryFinally, tryCatch, bind. rewrite invoke_run, Hreq.
  destruct (settle c (serve E req)) as [v|e].
  - destruct (loadData_run E s) as [s' [Hs' _]]. rewrite Hs'. cbn.
    eexists; reflexivity.
  - cbn. eexists; reflexivity.
Qed.

Lemma update_run (i p : jsval) (s : App.State) :
  exists s',
    tryFinally
      (tryCatch (bind (Api.updatePrice E i p) (fun _ => App.loadData E))
         (fun e => App.setError (message e)))
      (App.setActionLoading "") s
    = (Val tt, s',
       Fetched (updateRequest i p) (serve E (updateRequest i p))
       :: match settle (UpdatePrice i p) (serve E (updateRequest i p)) with
          | Val _ => reloadTrace E s
          | Throw _ => []
          end).
Proof. exact (guarded_run (UpdatePrice i p) _ _ s eq_refl). Qed.

Lemma delete_run (i : jsval) (s : App.State) :
  exists s',
    tryFinally
      (tryCatch (bind (Api.deletePrice E i) (fun _ => App.loadData E))
         (fun e => App.setError (message e)))
      (App.setActionLoading "") s
    = (Val tt, s',
       Fetched (deleteRequest i) (serve E (deleteRequest i))
       :: match settle (DeletePrice i) (serve E (deleteRequest i)) with
          | Val _ => reloadTrace E s
          | Throw _ => []
          end).
Proof. exact (guarded_run (DeletePrice i) _ _ s eq_refl). Qed.

End Steps.

Ltac destruct_match :=
match goal with
| |- context [match ?x with _ => _ end] =>
    lazymatch x with
    | context [match _ with _ => _ end] => fail
    | _ => destruct x eqn:?
    end
end.

Ltac step E :=
match goal with
| |- context [bind (lift ?r) ?k ?s] => rewrite (bind_lift r k s)
| |- context [bind (App.prompt E ?t ?d) ?k ?s] => rewrite (bind_prompt E t d k s)
| |- context [bind (App.confirm E ?t) ?k ?s] => rewrite (bind_confirm E t k s)
| |- context [bind (App.setError ?m) ?k ?s] => rewrite (bind_setError m k s)
| |- context [bind (App.setActionLoading ?m) ?k ?s] =>
    rewrite (bind_setActionLoading m k s)
| |- context [bind (App.setLoading ?m) ?k ?s] => rewrite (bind_setLoading m k s)
| |- context [bind getState ?k ?s] => rewrite (bind_getState k s)
| |- context [tryFinally (tryCatch (bind (Api.updatePrice E ?i ?p) _) _) _ ?st] =>
    let Hrun := fresh "Hrun" in
    destruct (update_run E i p st) as [? Hrun]; rewrite Hrun; clear Hrun
| Hg : get ?v ?k = Val _ |- context [get ?v ?k'] =>
    rewrite (get_total v k k' _ Hg)
| _ => progress cbv beta iota zeta
| _ => destruct_match
end.


Section Dialog.
Context {H : Host} (E : Env).

Lemma entryError_date a : entryError App.promptDate a = None.
Proof. reflexivity. Qed.

Lemma entryError_unit a :
  entryError App.promptUnit a
  = if includes App.UNITS (toLowerCase (trim a)) then None else Some App.errorUnit.
Proof. reflexivity. Qed.

Lemma entryError_purity a :
  entryError App.promptPurity a
  = if includes App.GOLD_PURITY (toUpperCase (trim a)) then None
    else Some App.errorPurity.
Proof. reflexivity. Qed.

Lemma entryError_price a :
  entryError App.promptPrice a
  = if negb (Num.isFinite (Number a)) || Num.leb (Number a) Num.zero
    then Some App.errorPrice else None.
Proof. reflexivity. Qed.

Lemma positive_of_check (n : number) :
  negb (Num.isFinite n) || Num.leb n Num.zero = false ->
  Num.isFinite n && Num.ltb Num.zero n = true.
Proof. destruct n as [[]|[]| |[] m e]; cbn; congruence. Qed.

Ltac entry :=
  cbn [accepted refused];
  rewrite ?entryError_unit, ?entryError_purity, ?entryError_price;
  match goal with
  | Hb : ?b = _ |- context [if ?b then _ else _] => rewrite Hb; reflexivity
  end.

Ltac props :=
  repeat match goal with
    | Hg : get ?v ?k = Val ?x |- _ =>
        is_var x; pose proof (get_prop v k x Hg); subst x
    end.

Lemma handleUpdate_run (block : jsval) (s : App.State) :
  updateRun E block s (App.handleUpdate E block s).
Proof.
  unfold App.handleUpdate.
  repeat step E.
  all: unfold ret, App.setError, modify.
  all: cbn [after app].
  all: props.
  all: repeat match goal with
         | Hb : negb _ = false |- _ => apply negb_false_iff in Hb
         | Hb : negb _ = true |- _ => apply negb_true_iff in Hb
         end.
  all: try apply UpdateCrashed.
  all: try (first [ apply (UpdateCancelled E block s [])
                  | apply (UpdateCancelled E block s [_])
                  | apply (UpdateCancelled E block s [_; _])
                  | apply (UpdateCancelled E block s [_; _; _]) ];
            [ repeat constructor | exact I ]).
  all: try (first [ apply (UpdateRefused E block s [_])
                  | apply (UpdateRefused E block s [_; _])
                  | apply (UpdateRefused E block s [_; _; _]) ];
            [ repeat constructor | ]).
  all: try entry.
  all: first [ eapply (UpdateSent E block s [_; _; _; _])
             | eapply (UpdateSent E block s [_; _; _]) ].
  all: try eassumption.
  all: try (repeat constructor; entry).
  all: try (left; reflexivity).
  all: try (right; reflexivity).
  all: try (apply positive_of_check; assumption).
  all: match goal with
       | Hm : strictEqStr _ "gold" = _ |- _ => rewrite Hm; assumption
       end.
Qed.
End Dialog.


Section OtherHandlers.
Context {H : Host} (E : Env).


Lemma handleDelete_run (block : jsval) (s : App.State) :
  (exists e, App.handleDelete E block s = (Throw e, s, []))
  \/ (exists text, App.handleDelete E block s = (Val tt, s, [Confirmed text false]))
  \/ (exists text s' rest,
        let req := deleteRequest (prop block "index") in
        App.handleDelete E block s
        = (Val tt, s', Confirmed text true :: Fetched req (serve E req) :: rest)
        /\ (rest = reloadTrace E s \/ rest = [])).
Proof.
  unfold App.handleDelete.
  repeat first
    [ step E
    | match goal with
      | |- context [tryFinally (tryCatch (bind (Api.deletePrice E ?i) _) _) _ ?st] =>
          let Hrun := fresh "Hrun" in
          destruct (delete_run E i st) as [? Hrun]; rewrite Hrun; clear Hrun
      end ].
  all: unfold ret; cbn [after app].
  all: repeat match goal with
         | Hb : negb _ = true |- _ => apply negb_true_iff in Hb; rewrite Hb
         | Hb : negb _ = false |- _ => apply negb_false_iff in Hb; rewrite Hb
         end.
  all: try (left; eexists; reflexivity).
  all: try (right; left; eexists; reflexivity).
  all: right; right; do 3 eexists; cbv zeta; split; [reflexivity|].
  all: first [left; reflexivity | right; reflexivity].
Qed.

Lemma handleSubmit_run (s : App.State) :
  exists s' rest,
    let req := addRequest (App.submitPayload (App.form s)) in
    App.handleSubmit E s = (Val tt, s', Fetched req (serve E req) :: rest)
    /\ (rest = reloadTrace E s \/ rest = []).
Proof.
  unfold App.handleSubmit.
  rewrite bind_setError, bind_setLoading.
  unfold tryFinally, tryCatch.
  rewrite bind_getState.
  change (Api.addPrice E ?p) with (invoke E (S:=App.State) (AddPrice p)).
  unfold bind at 1. rewrite invoke_run. cbn [requestOf].
  destruct (settle _ _) as [v|e].
  - unfold App.setForm. rewrite bind_modify.
    match goal with
    | |- context [App.loadData E ?st] =>
        destruct (loadData_run E st) as [s1 [Hrun _]]; rewrite Hrun
    end.
    cbn. do 2 eexists. split; [reflexivity|]. left. reflexivity.
  - cbn. do 2 eexists. split; [reflexivity|]. right. reflexivity.
Qed.
End OtherHandlers.

(* ================================================================== *)
(** * Properties of the client and of the ledger *)

Section CancelProperties.
Context {H : Host} (E : Env).

Lemma accepted_prompt (e : event) :
  accepted e -> exists text d entry, e = Prompted text d (Some entry)
                                  /\ entryError text entry = None.
Proof.
  destruct e as [text d [entry|]| |]; simpl; try contradiction.
  intros He. exists text, d, entry. split; [reflexivity|assumption].
Qed.

Lemma accepted_requests (t : list event) : Forall accepted t -> requests t = [].
Proof.
  induction 1 as [|e t He _ IH]; [reflexivity|].
  destruct (accepted_prompt e He) as (text & d & entry & -> & _). exact IH.
Qed.

Lemma reload_requests (s : App.State) (rest : list event) :
  rest = reloadTrace E s \/ rest = [] ->
  forall r, In r (requests rest) -> method r = "GET".
Proof.
  intros [->| ->] r; simpl; [|contradiction].
  intros [<-|[<-|[]]]; reflexivity.
Qed.

Lemma reload_events (s : App.State) (rest : list event) :
  rest = reloadTrace E s \/ rest = [] ->
  forall e, In e rest -> exists r out, e = Fetched r out.
Proof.
  intros [->| ->] e; simpl; [|contradiction].
  intros [<-|[<-|[]]]; do 2 eexists; reflexivity.
Qed.

(** C9.  Cancelling sends nothing: when a prompt of the update dialog is
    dismissed (its answer is [null]), or the delete confirmation is answered
    negatively, the handler issues no HTTP request and leaves the state of
    the interface as it was. *)
Theorem cancel_sends_nothing (block : jsval) (s : App.State) :
  (forall text d,
      In (Prompted text d None) (traceOf (App.handleUpdate E block s)) ->
      requests (traceOf (App.handleUpdate E block s)) = []
      /\ stateOf (App.handleUpdate E block s) = s)
  /\ (forall text,
      In (Confirmed text false) (traceOf (App.handleDelete E block s)) ->
      requests (traceOf (App.handleDelete E block s)) = []
      /\ stateOf (App.handleDelete E block s) = s).
Proof.
  split.
  - intros text d. pose proof (handleUpdate_run E block s) as Hrun.
    remember (App.handleUpdate E block s) as x eqn:Hx. clear Hx.
    destruct Hrun as [e | t e Ht He | t e msg Ht He
                     | t data nd nu np npr s' rest Ht _ _ _ _ Hrest req];
      cbn [traceOf stateOf fst snd]; intros Hin.
    + contradiction.
    + split; [|reflexivity]. rewrite requests_app, (accepted_requests t Ht).
      destruct e as [? ? [?|]| |]; try contradiction. reflexivity.
    + exfalso. apply in_app_or in Hin. destruct Hin as [Hin|[Hin|[]]].
      * rewrite Forall_forall in Ht. apply Ht in Hin. exact Hin.
      * subst e. exact He.
    + exfalso. apply in_app_or in Hin. destruct Hin as [Hin|[Hin|Hin]].
      * rewrite Forall_forall in Ht. apply Ht in Hin. exact Hin.
      * discriminate Hin.
      * destruct (reload_events s rest Hrest _ Hin) as (r & out & Hr). discriminate Hr.
  - intros text.
    destruct (handleDelete_run E block s)
      as [[e Hrun]|[[text' Hrun]|(text' & s' & rest & Hrun & Hrest)]];
      rewrite Hrun; cbn [traceOf stateOf fst snd]; intros Hin.
    + contradiction.
    + split; reflexivity.
    + exfalso. destruct Hin as [Hin|[Hin|Hin]]; try discriminate Hin.
      destruct (reload_events s rest Hrest _ Hin) as (r & out & Hr). discriminate Hr.
Qed.

End CancelProperties.

Lemma cancel_sends_nothing_witness :
  (requests (traceOf (App.handleUpdate (H:=asciiHost) cancelAtPrice goldBlock App.initial)) = []
   /\ stateOf (App.handleUpdate (H:=asciiHost) cancelAtPrice goldBlock App.initial) = App.initial)
  /\ (requests (traceOf (App.handleDelete (H:=asciiHost) cancelAtPrice goldBlock App.initial)) = []
      /\ stateOf (App.handleDelete (H:=asciiHost) cancelAtPrice goldBlock App.initial) = App.initial).
Proof.
  split.
  - apply (proj1 (@cancel_sends_nothing asciiHost cancelAtPrice goldBlock App.initial)
             App.promptPrice "64200").
    vm_compute. tauto.
  - apply (proj2 (@cancel_sends_nothing asciiHost cancelAtPrice goldBlock App.initial)
             "Remove #3 (GOLD 22K 10g - Rs 64200)?").
    vm_compute. tauto.
Defined.

Section ReplacementProperties.
Context {H : Host} (E : Env).

(** What an update run sends: nothing, or one PUT whose payload is a checked
    replacement, and then only GET requests. *)
Lemma update_requests (block : jsval) (s : App.State) (r : request) :
  In r (requests (traceOf (App.handleUpdate E block s))) ->
  method r = "PUT" ->
  exists data newDate newUnit newPurity newPrice,
    get block "data" = Val data
    /\ r = updateRequest (prop block "index")
             (replacement data newDate newUnit newPurity newPrice)
    /\ includes App.UNITS newUnit = true
    /\ (if strictEqStr (prop data "metal") "gold"
        then memberOf App.GOLD_PURITY newPurity = true
        else newPurity = VNull)
    /\ Num.isFinite newPrice && Num.ltb Num.zero newPrice = true.
Proof.
  pose proof (handleUpdate_run E block s) as Hrun.
  remember (App.handleUpdate E block s) as x eqn:Hx. clear Hx.
  destruct Hrun as [e | t e Ht He | t e msg Ht He
                   | t data nd nu np npr s' rest Ht Hd Hu Hp Hpr Hrest req];
    cbn [traceOf stateOf fst snd]; intros Hin Hput.
  - contradiction.
  - rewrite requests_app, (accepted_requests t Ht) in Hin.
    destruct e as [? ? [?|]| |]; contradiction.
  - rewrite requests_app, (accepted_requests t Ht) in Hin.
    destruct e as [? ? [?|]| |]; contradiction.
  - rewrite requests_app, (accepted_requests t Ht) in Hin.
    destruct Hin as [<-|Hin].
    + exists data, nd, nu, np, npr. repeat split; assumption.
    + apply (reload_requests E s rest Hrest) in Hin. rewrite Hin in Hput.
      discriminate Hput.
Qed.

(** C8.  Every PUT request of the update dialog carries, as the [metal] of
    its replacement payload, the [metal] of the block's current payload: the
    dialog never changes a block's metal. *)
Theorem update_keeps_metal (block : jsval) (s : App.State) (r : request) :
  In r (requests (traceOf (App.handleUpdate E block s))) ->
  method r = "PUT" ->
  exists data,
    get block "data" = Val data
    /\ prop (payloadOf r) "metal" = prop data "metal".
Proof.
  intros Hin Hput.
  destruct (update_requests block s r Hin Hput)
    as (data & nd & nu & np & npr & Hd & -> & _).
  exists data. split; [exact Hd|reflexivity].
Qed.

(** C3, amended.  Every PUT request of the update dialog carries a unit
    that is one of 1g, 10g, 1kg, a purity that is one of 18K, 22K, 24K when
    the block's metal is gold and [null] otherwise, and a price that is a
    finite number above zero; and when the entered unit, purity or price
    fails its check, no request is issued and the error of that check is
    shown. *)
Theorem update_validated (block : jsval) (s : App.State) :
  (forall r,
      In r (requests (traceOf (App.handleUpdate E block s))) ->
      method r = "PUT" ->
      exists data,
        get block "data" = Val data
        /\ memberOf App.UNITS (prop (payloadOf r) "unit") = true
        /\ (if strictEqStr (prop data "metal") "gold"
            then memberOf App.GOLD_PURITY (prop (payloadOf r) "purity") = true
            else prop (payloadOf r) "purity" = VNull)
        /\ positivePrice (prop (payloadOf r) "price") = true)
  /\ (forall text d entry msg,
      In (Prompted text d (Some entry)) (traceOf (App.handleUpdate E block s)) ->
      entryError text entry = Some msg ->
      requests (traceOf (App.handleUpdate E block s)) = []
      /\ App.error (stateOf (App.handleUpdate E block s)) = msg
      /\ Str.isEmpty msg = false).
Proof.
  split.
  - intros r Hin Hput.
    destruct (update_requests block s r Hin Hput)
      as (data & nd & nu & np & npr & Hd & -> & Hu & Hp & Hpr).
    exists data. cbn. repeat split; assumption.
  - intros text d entry msg.
    pose proof (handleUpdate_run E block s) as Hrun.
    remember (App.handleUpdate E block s) as x eqn:Hx. clear Hx.
    assert (Hacc : forall t, Forall accepted t ->
              In (Prompted text d (Some entry)) t ->
              entryError text entry = Some msg -> False).
    { intros t Ht Hin Hmsg. rewrite Forall_forall in Ht. apply Ht in Hin.
      simpl in Hin. congruence. }
    destruct Hrun as [e | t e Ht He | t e msg' Ht He
                     | t data nd nu np npr s' rest Ht _ _ _ _ Hrest req];
      cbn [traceOf stateOf fst snd]; intros Hin Hmsg.
    + contradiction.
    + exfalso. apply in_app_or in Hin. destruct Hin as [Hin|[Hin|[]]].
      * exact (Hacc t Ht Hin Hmsg).
      * subst e. exact He.
    + apply in_app_or in Hin. destruct Hin as [Hin|[Hin|[]]].
      * exfalso. exact (Hacc t Ht Hin Hmsg).
      * subst e. simpl in He. rewrite Hmsg in He. injection He as <-.
        rewrite requests_app, (accepted_requests t Ht). repeat split.
        unfold entryError in Hmsg.
        repeat match type of Hmsg with
               | (if ?c then _ else _) = _ => destruct c
               end; try discriminate Hmsg; injection Hmsg as <-; reflexivity.
    + exfalso. apply in_app_or in Hin. destruct Hin as [Hin|[Hin|Hin]].
      * exact (Hacc t Ht Hin Hmsg).
      * discriminate Hin.
      * destruct (reload_events E s rest Hrest _ Hin) as (r & out & Hr). discriminate Hr.
Qed.

End ReplacementProperties.

Lemma update_keeps_metal_witness :
  exists data,
    get goldBlock "data" = Val data
    /\ prop (payloadOf (updateRequest (H:=asciiHost) (prop goldBlock "index")
                 (replacement (prop goldBlock "data") "2026-02-21" "10g" (VStr "22K")
                    (Num.ofZ 64200)))) "metal"
       = prop data "metal".
Proof.
  apply (@update_keeps_metal asciiHost keepDefaults goldBlock App.initial).
  - vm_compute. left. reflexivity.
  - reflexivity.
Defined.

Lemma update_validated_witness :
  (exists data,
      get goldBlock "data" = Val data
      /\ memberOf App.UNITS (VStr "10g") = true
      /\ (if strictEqStr (prop data "metal") "gold"
          then memberOf App.GOLD_PURITY (VStr "22K") = true
          else VStr "22K" = VNull)
      /\ positivePrice (VNum (Num.ofZ 64200)) = true)
  /\ (requests (traceOf (App.handleUpdate (H:=asciiHost) typesOunce goldBlock App.initial)) = []
      /\ App.error (stateOf (App.handleUpdate (H:=asciiHost) typesOunce goldBlock App.initial))
         = App.errorUnit
      /\ Str.isEmpty App.errorUnit = false).
Proof.
  split.
  - apply (proj1 (@update_validated asciiHost keepDefaults goldBlock App.initial)
             (updateRequest (H:=asciiHost) (prop goldBlock "index")
                (replacement (prop goldBlock "data") "2026-02-21" "10g" (VStr "22K")
                   (Num.ofZ 64200)))).
    + vm_compute. left. reflexivity.
    + reflexivity.
  - apply (proj2 (@update_validated asciiHost typesOunce goldBlock App.initial)
             App.promptUnit "10g" "1oz").
    + vm_compute. tauto.
    + reflexivity.
Defined.

(** The update dialog on the gold block, every default kept: one PUT with the
    block's own values, then the reload. *)
Example update_dialog_run :
  requests (traceOf (App.handleUpdate (H:=asciiHost) keepDefaults goldBlock App.initial))
  = [{| method := "PUT"; url := "http://localhost:8000/prices/3";
        headers := [("Content-Type", "application/json")];
        body := Some (VObj [("date", VStr "2026-02-21"); ("metal", VStr "gold");
                            ("purity", VStr "22K"); ("unit", VStr "10g");
                            ("price", VNum (Num.ofZ 64200))]) |};
     {| method := "GET"; url := "http://localhost:8000/chain";
        headers := []; body := None |};
     {| method := "GET"; url := "http://localhost:8000/predict?days_ahead=1&metal=silver";
        headers := []; body := None |}].
Proof. reflexivity. Qed.

(** C3 as stated fails on the date: the user types a word into the date
    prompt and keeps the other defaults, and the PUT request carries the
    word as its date, which is no calendar date. *)
Lemma update_sends_unchecked_date :
  exists r,
    In r (requests (traceOf (App.handleUpdate (H:=asciiHost) typesYesterday silverBlock App.initial)))
    /\ method r = "PUT"
    /\ prop (payloadOf r) "date" = VStr "yesterday"
    /\ calendarDate (prop (payloadOf r) "date") = false.
Proof.
  eexists. split; [vm_compute; left; reflexivity|].
  repeat split.
Qed.

Section SubmitProperties.
Context {H : Host} (E : Env).

Lemma onSubmit_requests (s : App.State) (r : request) :
  In r (requests (traceOf (App.onSubmit E s))) ->
  method r = "POST" ->
  App.requiredFilled (App.form s) = true
  /\ r = addRequest (App.submitPayload (App.form s)).
Proof.
  unfold App.onSubmit. rewrite bind_getState.
  destruct (App.requiredFilled (App.form s)) eqn:Hreq.
  - destruct (handleSubmit_run E s) as (s' & rest & Hrun & Hrest).
    cbv zeta in Hrun. rewrite Hrun. cbn [traceOf snd requests].
    intros [<-|Hin] Hpost; [split; reflexivity|].
    apply (reload_requests E s rest Hrest) in Hin. rewrite Hin in Hpost.
    discriminate Hpost.
  - cbn. contradiction.
Qed.

(** C2.  The body of every POST /prices request that a submit of the add
    form sends has a present purity (neither [null] nor empty) if and only
    if its metal is gold, and a [null] purity for any other metal. *)
Theorem submit_purity_iff_gold (s : App.State) (r : request) :
  In r (requests (traceOf (App.onSubmit E s))) ->
  method r = "POST" ->
  prop (payloadOf r) "metal" = VStr (Form.metal (App.form s))
  /\ (present (prop (payloadOf r) "purity") = true
      <-> prop (payloadOf r) "metal" = VStr "gold")
  /\ (Form.metal (App.form s) <> "gold" -> prop (payloadOf r) "purity" = VNull).
Proof.
  intros Hin Hpost.
  destruct (onSubmit_requests s r Hin Hpost) as [Hreq ->].
  unfold App.requiredFilled in Hreq. cbn.
  destruct (String.eqb_spec (Form.metal (App.form s)) "gold") as [Hg|Hg].
  - apply andb_true_iff in Hreq. destruct Hreq as [Hreq _].
    apply andb_true_iff in Hreq. destruct Hreq as [_ Hp].
    split; [reflexivity|]. split; [|contradiction].
    rewrite Hg. cbn. split; intros _; [reflexivity|exact Hp].
  - split; [reflexivity|]. split; [|reflexivity].
    cbn. split; [discriminate|]. intros Heq. injection Heq as Heq. contradiction.
Qed.

End SubmitProperties.

Lemma submit_purity_iff_gold_witness :
  prop (payloadOf (addRequest (App.submitPayload (H:=asciiHost) goldForm))) "metal"
  = VStr "gold"
  /\ (present (prop (payloadOf (addRequest (App.submitPayload (H:=asciiHost) goldForm))) "purity")
      = true
      <-> prop (payloadOf (addRequest (App.submitPayload (H:=asciiHost) goldForm))) "metal"
          = VStr "gold")
  /\ ("gold" <> "gold"
      -> prop (payloadOf (addRequest (App.submitPayload (H:=asciiHost) goldForm))) "purity"
         = VNull).
Proof.
  apply (@submit_purity_iff_gold asciiHost keepDefaults goldFormState).
  - vm_compute. left. reflexivity.
  - reflexivity.
Defined.

(** [handleSubmit] on its own would send an empty purity for gold; the
    [required] purity select keeps the browser from firing [submit] on such
    a form. *)
Example handleSubmit_alone_sends_empty_purity :
  prop (App.submitPayload (H:=asciiHost) noPurityForm) "purity" = VStr ""
  /\ App.requiredFilled noPurityForm = false.
Proof. split; reflexivity. Qed.

Section QueryReadBack.

Lemma chars_app (a b : string) : Str.chars (a +++ b) = Str.chars a ++ Str.chars b.
Proof.
  unfold Str.chars. induction a as [|c a IH]; [reflexivity|].
  cbn [String.append list_ascii_of_string app]. rewrite IH. reflexivity.
Qed.

Lemma chars_ofChars (l : list ascii) : Str.chars (Str.ofChars l) = l.
Proof. apply list_ascii_of_string_of_list_ascii. Qed.

Lemma ofChars_chars (s : string) : Str.ofChars (Str.chars s) = s.
Proof. apply string_of_list_ascii_of_string. Qed.

Lemma chars_encode (s : string) :
  Str.chars (Api.encode s) = flat_map Api.encodeByte (Str.chars s).
Proof. apply chars_ofChars. Qed.

(** What [encodeByte] writes for a byte holds no separator and reads back
    as the byte. *)
Lemma encodeByte_without (c : ascii) :
  without "&" (Api.encodeByte c) = true /\ without "=" (Api.encodeByte c) = true.
Proof. destruct c as [[] [] [] [] [] [] [] []]; split; reflexivity. Qed.

Lemma unescape_encodeByte (c : ascii) (rest : list ascii) :
  unescape (Api.encodeByte c ++ rest) = c :: unescape rest.
Proof. destruct c as [[] [] [] [] [] [] [] []]; reflexivity. Qed.

Lemma without_app sep (a b : list ascii) :
  without sep (a ++ b) = without sep a && without sep b.
Proof. apply forallb_app. Qed.

Lemma encoded_without (l : list ascii) :
  without "&" (flat_map Api.encodeByte l) = true
  /\ without "=" (flat_map Api.encodeByte l) = true.
Proof.
  induction l as [|c l [IH1 IH2]]; [split; reflexivity|].
  cbn [flat_map]. rewrite !without_app, IH1, IH2.
  destruct (encodeByte_without c) as [-> ->]. split; reflexivity.
Qed.

Lemma unescape_encoded (l : list ascii) : unescape (flat_map Api.encodeByte l) = l.
Proof.
  induction l as [|c l IH]; [reflexivity|].
  cbn [flat_map]. rewrite unescape_encodeByte, IH. reflexivity.
Qed.

Lemma breakAt_without sep (x : list ascii) :
  without sep x = true -> breakAt sep x = (x, []).
Proof.
  induction x as [|c x IH]; [reflexivity|]. cbn [without forallb breakAt].
  intros Hx. apply andb_true_iff in Hx. destruct Hx as [Hc Hx].
  apply negb_true_iff in Hc. rewrite Hc, (IH Hx). reflexivity.
Qed.

Lemma breakAt_at sep (x r : list ascii) :
  without sep x = true -> breakAt sep (x ++ sep :: r) = (x, r).
Proof.
  induction x as [|c x IH]; cbn [without forallb breakAt app].
  - intros _. rewrite Ascii.eqb_refl. reflexivity.
  - intros Hx. apply andb_true_iff in Hx. destruct Hx as [Hc Hx].
    apply negb_true_iff in Hc. rewrite Hc, (IH Hx). reflexivity.
Qed.

Lemma pieces_without sep (x : list ascii) : without sep x = true -> pieces sep x = [x].
Proof.
  induction x as [|c x IH]; [reflexivity|]. cbn [without forallb pieces].
  intros Hx. apply andb_true_iff in Hx. destruct Hx as [Hc Hx].
  apply negb_true_iff in Hc. rewrite Hc, (IH Hx). reflexivity.
Qed.

Lemma pieces_at sep (x r : list ascii) :
  without sep x = true -> pieces sep (x ++ sep :: r) = x :: pieces sep r.
Proof.
  induction x as [|c x IH]; cbn [without forallb pieces app].
  - intros _. rewrite Ascii.eqb_refl. reflexivity.
  - intros Hx. apply andb_true_iff in Hx. destruct Hx as [Hc Hx].
    apply negb_true_iff in Hc. rewrite Hc, (IH Hx). reflexivity.
Qed.

Lemma written_without (n v : string) : without "&" (written n v) = true.
Proof.
  unfold written. rewrite without_app. cbn [without forallb].
  change (forallb (fun c => negb (Ascii.eqb c "&")) ?l) with (without "&" l).
  rewrite (proj1 (encoded_without (Str.chars n))), (proj1 (encoded_without (Str.chars v))).
  reflexivity.
Qed.

Lemma written_kept (n v : string) :
  match written n v with [] => false | _ :: _ => true end = true.
Proof.
  unfold written. destruct (flat_map _ _ ++ _) eqn:Hw; [|reflexivity].
  apply app_eq_nil in Hw. destruct Hw as [_ Hw]. discriminate Hw.
Qed.

Lemma parsePiece_written (n v : string) : parsePiece (written n v) = (n, v).
Proof.
  unfold parsePiece, written.
  rewrite (breakAt_at "=" _ _ (proj2 (encoded_without (Str.chars n)))).
  rewrite !unescape_encoded, !ofChars_chars. reflexivity.
Qed.

Lemma chars_paramsToString (n v : string) (r : Api.params) :
  Str.chars (Api.paramsToString ((n, v) :: r))
  = match r with
    | [] => written n v
    | _ :: _ => written n v ++ "&"%char :: Str.chars (Api.paramsToString r)
    end.
Proof.
  unfold written. cbn [Api.paramsToString].
  destruct r as [|[n' v'] r']; rewrite !chars_app, !chars_encode; cbn [Str.chars list_ascii_of_string app];
    rewrite <- ?app_assoc; reflexivity.
Qed.

(** The query that [paramsToString] writes reads back as the parameters. *)
Lemma parseQuery_paramsToString (ps : Api.params) :
  parseQuery (Api.paramsToString ps) = ps.
Proof.
  unfold parseQuery. induction ps as [|[n v] r IH]; [reflexivity|].
  rewrite chars_paramsToString. destruct r as [|nv r'].
  - rewrite (pieces_without "&" _ (written_without n v)). cbn [filter].
    rewrite written_kept. cbn [map]. rewrite parsePiece_written. reflexivity.
  - rewrite (pieces_at "&" _ _ (written_without n v)). cbn [filter].
    rewrite written_kept. cbn [map]. rewrite IH, parsePiece_written. reflexivity.
Qed.

Lemma queryParams_predictRequest (ps : Api.params) :
  queryParams (url (predictRequest ps)) = ps.
Proof.
  unfold queryParams, queryOf, predictRequest. cbn [url].
  rewrite chars_app. cbn. rewrite ofChars_chars. apply parseQuery_paramsToString.
Qed.

End QueryReadBack.

Section PredictProperties.
Context {H : Host} (E : Env).

Lemma loadData_requests (s : App.State) :
  requests (traceOf (App.loadData E s))
  = [chainRequest; predictRequest (filterParams (App.predictFilter s))].
Proof.
  destruct (loadData_run E s) as (s' & Hrun & _). rewrite Hrun. reflexivity.
Qed.

Lemma truthy_orDefault_null (v : jsval) : truthy (Api.orDefault v VNull) = truthy v.
Proof. destruct v; reflexivity. Qed.

(** The parameters [predict] builds from its argument. *)
Lemma predictParams_val (arg : jsval) (ps : Api.params) :
  Api.predictParams arg = Val ps ->
  let a := Api.orDefault arg (VObj []) in
  ps = [("days_ahead", ToString (Api.orDefault (prop a "daysAhead") (VNum (Num.ofZ 1))));
        ("metal", ToString (Api.orDefault (prop a "metal") (VStr "silver")))]
       ++ (if truthy (prop a "purity") then [("purity", ToString (prop a "purity"))]
           else []).
Proof.
  unfold Api.predictParams. cbv zeta.
  set (a := Api.orDefault arg (VObj [])).
  destruct (get a "daysAhead") as [d|e] eqn:Hd; [|discriminate].
  rewrite (get_total a "daysAhead" "metal" d Hd), (get_total a "daysAhead" "purity" d Hd).
  rewrite (get_prop a "daysAhead" d Hd).
  cbn [rbind]. rewrite truthy_orDefault_null.
  intros Hps. injection Hps as <-.
  destruct (prop a "purity") as [| |b|n|p|l|o]; cbn [truthy Api.orDefault];
    try reflexivity.
  - destruct b; reflexivity.
  - destruct (Num.truthy n); reflexivity.
  - destruct (negb (Str.isEmpty p)); reflexivity.
Qed.

(** C4.  A load issues the chain request and one predict request.  The
    query string of that request, read back the way a server reads it, holds
    [days_ahead] = 1, the selected [metal], and [purity] exactly when the
    selected metal is gold and the purity is not empty, so never for another
    metal.  For any argument, the query string of the request [predict]
    sends holds [days_ahead] (1 when the argument has none), [metal] (silver
    when it has none), and [purity] exactly when the supplied purity is
    truthy (for a string: not empty). *)
Theorem predict_query (s : App.State) :
  let f := App.predictFilter s in
  (exists r,
      requests (traceOf (App.loadData E s)) = [chainRequest; r]
      /\ r = predictRequest (filterParams f)
      /\ Api.predictParams (App.predictionPayload s) = Val (queryParams (url r))
      /\ Api.paramsGet "days_ahead" (queryParams (url r))
         = Some (numberToString (Num.ofZ 1))
      /\ Api.paramsGet "metal" (queryParams (url r)) = Some (Filter.metal f)
      /\ Api.paramsGet "purity" (queryParams (url r))
         = (if String.eqb (Filter.metal f) "gold" && negb (Str.isEmpty (Filter.purity f))
            then Some (Filter.purity f) else None)
      /\ (Filter.metal f <> "gold" ->
            Api.paramsHas "purity" (queryParams (url r)) = false))
  /\ (forall (S : Type) (s0 : S) (arg : jsval) (r : request) (out : outcome),
        In (Fetched r out) (traceOf (Api.predict E arg s0)) ->
        let a := Api.orDefault arg (VObj []) in
        Api.paramsGet "days_ahead" (queryParams (url r))
        = Some (ToString (Api.orDefault (prop a "daysAhead") (VNum (Num.ofZ 1))))
        /\ Api.paramsGet "metal" (queryParams (url r))
           = Some (ToString (Api.orDefault (prop a "metal") (VStr "silver")))
        /\ Api.paramsGet "purity" (queryParams (url r))
           = (if truthy (prop a "purity") then Some (ToString (prop a "purity"))
              else None)
        /\ Api.paramsHas "purity" (queryParams (url r)) = truthy (prop a "purity"))
  /\ (forall (S : Type) (s0 : S),
        exists r,
          traceOf (Api.predict E VUndefined s0) = [Fetched r (serve E r)]
          /\ queryParams (url r)
             = [("days_ahead", numberToString (Num.ofZ 1)); ("metal", "silver")]).
Proof.
  cbv zeta. split; [|split].
  - exists (predictRequest (filterParams (App.predictFilter s))).
    rewrite queryParams_predictRequest.
    split; [apply loadData_requests|]. split; [reflexivity|].
    split; [apply predictParams_payload|].
    unfold filterParams.
    destruct (String.eqb_spec (Filter.metal (App.predictFilter s)) "gold") as [Hg|Hg];
      destruct (Str.isEmpty (Filter.purity (App.predictFilter s)));
      cbn; repeat split; try reflexivity; try contradiction.
  - intros S s0 arg r out.
    change (Api.predict E arg) with (invoke E (S:=S) (Predict arg)).
    rewrite invoke_run. cbn [requestOf].
    destruct (Api.predictParams arg) as [ps|e] eqn:Hps; cbn [rbind traceOf snd];
      [|contradiction].
    intros [Heq|[]]. injection Heq as <- _.
    rewrite queryParams_predictRequest.
    rewrite (predictParams_val arg ps Hps).
    destruct (truthy (prop (Api.orDefault arg (VObj [])) "purity"));
      repeat split; reflexivity.
  - intros S s0. exists (predictRequest [("days_ahead", numberToString (Num.ofZ 1));
                                        ("metal", "silver")]).
    rewrite queryParams_predictRequest. split; [|reflexivity].
    change (Api.predict E VUndefined) with (invoke E (S:=S) (Predict VUndefined)).
    rewrite invoke_run. reflexivity.
Qed.

End PredictProperties.

Lemma predict_query_witness :
  exists r,
    requests (traceOf (App.loadData (H:=asciiHost) keepDefaults gold22State))
    = [chainRequest; r]
    /\ url r = gold22Url
    /\ Api.paramsGet "purity" (queryParams (url r)) = Some "22K".
Proof.
  destruct (proj1 (@predict_query asciiHost keepDefaults gold22State))
    as (r & Hreq & Hr & _ & _ & _ & Hp & _).
  exists r. split; [exact Hreq|]. split; [rewrite Hr; reflexivity|exact Hp].
Defined.

(** The query of the first load and the query for 24K gold. *)
Example predict_urls :
  url (predictRequest (filterParams (H:=asciiHost) (App.predictFilter App.initial)))
  = "http://localhost:8000/predict?days_ahead=1&metal=silver"
  /\ url (predictRequest (filterParams (H:=asciiHost)
            (App.filterMetalChange "gold" (App.predictFilter App.initial))))
     = "http://localhost:8000/predict?days_ahead=1&metal=gold&purity=24K".
Proof. split; reflexivity. Qed.

Section ApiProperties.
Context {H : Host} (E : Env).

(** C5, amended.  A call leaves the state alone and sends its one request.
    It returns normally only on an ok response, and then returns the parsed
    JSON body.  On a response that is not ok it throws: [getChain] an
    [Error] with the fixed message, whatever the body says; the other four,
    when the body is JSON other than [null], an [Error] whose message is
    the body's [detail] when that is a non-empty string, and their fallback
    message when the [detail] is absent or falsy.  A rejected [fetch] is
    thrown on. *)
Theorem api_failures {S : Type} (c : call) (s : S) :
  stateOf (invoke E c s) = s
  /\ (forall v, resultOf (invoke E c s) = Val v ->
        exists req res,
          requestOf c = Val req
          /\ traceOf (invoke E c s) = [Fetched req (Responded res)]
          /\ ok res = true /\ json res = Some v)
  /\ (forall req res, requestOf c = Val req -> serve E req = Responded res ->
        traceOf (invoke E c s) = [Fetched req (Responded res)]
        /\ (ok res = true -> forall v, json res = Some v ->
              resultOf (invoke E c s) = Val v)
        /\ (ok res = false -> exists e, resultOf (invoke E c s) = Throw e)
        /\ (ok res = false -> c = GetChain ->
              resultOf (invoke E c s) = Throw (Error "Failed to fetch chain"))
        /\ (ok res = false -> c <> GetChain ->
              forall body, json res = Some body -> nullish body = false ->
                (forall d, prop body "detail" = VStr d -> d <> "" ->
                   resultOf (invoke E c s) = Throw (Error d))
                /\ (truthy (prop body "detail") = false ->
                      resultOf (invoke E c s) = Throw (Error (fallbackOf c)))))
  /\ (forall req, requestOf c = Val req -> serve E req = Rejected ->
        resultOf (invoke E c s) = Throw FetchFailure).
Proof.
  rewrite invoke_run. destruct (requestOf c) as [req|e] eqn:Hreq;
    cbn [traceOf stateOf resultOf fst snd].
  - split; [reflexivity|]. split; [|split].
    + intros v. unfold settle. destruct (serve E req) as [|res]; [discriminate|].
      destruct (ok res) eqn:Hok.
      * destruct (json res) as [w|] eqn:Hj; [|discriminate].
        intros Hv. injection Hv as <-. exists req, res. repeat split; assumption.
      * destruct c; destruct (json res) as [error|]; try discriminate;
          destruct (get error "detail"); discriminate.
    + intros req' res Heq. injection Heq as <-. intros ->. unfold settle.
      split; [reflexivity|]. split; [|split; [|split]].
      * intros -> v ->. reflexivity.
      * intros ->. destruct c; destruct (json res) as [error|];
          try destruct (get error "detail"); eexists; reflexivity.
      * intros -> ->. reflexivity.
      * intros -> Hc body -> Hn.
        assert (Hget : get body "detail" = Val (prop body "detail"))
          by (unfold prop; destruct body; try discriminate Hn; reflexivity).
        assert (Hmsg : failureMessage c body = detailOr c body)
          by (destruct c; [contradiction|reflexivity..]).
        assert (Hres : match c, Some body with
                       | GetChain, _ => Throw (Error "Failed to fetch chain")
                       | _, None => Throw SyntaxError
                       | _, Some error =>
                           match get error "detail" with
                           | Val _ => Throw (Error (failureMessage c error))
                           | Throw e => Throw e
                           end
                       end = Throw (Error (detailOr c body)) :> result jsval)
          by (destruct c; [contradiction|..]; rewrite Hget, Hmsg; reflexivity).
        rewrite Hres. unfold detailOr. split.
        -- intros d Hd Hne. rewrite Hd. cbn [truthy ToString].
           destruct (Str.isEmpty d) eqn:He; [|reflexivity].
           apply isEmpty_spec in He. contradiction.
        -- intros ->. reflexivity.
    + intros req' Heq. injection Heq as <-. intros ->. reflexivity.
  - split; [reflexivity|]. split; [discriminate|]. split; discriminate.
Qed.

End ApiProperties.

Lemma api_failures_witness :
  resultOf (invoke (H:=asciiHost) refuseAll (S:=unit)
              (AddPrice (App.submitPayload (H:=asciiHost) goldForm)) tt)
  = Throw (Error "ledger store offline").
Proof.
  refine (proj1 (proj2 (proj2 (proj2 (proj2
            (proj1 (proj2 (proj2
               (@api_failures asciiHost refuseAll unit
                  (AddPrice (App.submitPayload (H:=asciiHost) goldForm)) tt)))
               _ _ eq_refl eq_refl))))
          eq_refl _ _ eq_refl eq_refl) _ eq_refl _);
    discriminate.
Defined.

(** C5 as stated fails in three ways.  [getChain] leaves the reason the
    server gives unread: the [Error] carries the fixed message.  For a
    reason that is not a string, here the list of a validation report, the
    [Error] of [addPrice] reads [[object Object]] and the reason is lost.
    And a refusal whose body is no JSON, or is [null], makes [addPrice]
    throw the parser's or the engine's exception, not an [Error] with the
    fallback message. *)
Lemma api_reason_not_carried :
  (serve refuseAll chainRequest
   = Responded {| ok := false;
                  json := Some (VObj [("detail", VStr "ledger store offline")]) |}
   /\ resultOf (Api.getChain refuseAll tt) = Throw (Error "Failed to fetch chain"))
  /\ resultOf (Api.addPrice (H:=asciiHost) (answering (refusal (Some validationReport)))
                 (App.submitPayload (H:=asciiHost) goldForm) tt)
     = Throw (Error "[object Object]")
  /\ resultOf (Api.addPrice (H:=asciiHost) (answering (refusal None))
                 (App.submitPayload (H:=asciiHost) goldForm) tt)
     = Throw SyntaxError
  /\ resultOf (Api.addPrice (H:=asciiHost) (answering (refusal (Some VNull)))
                 (App.submitPayload (H:=asciiHost) goldForm) tt)
     = Throw (TypeError "detail").
Proof. repeat split. Qed.

Section ViewProperties.
Context {H : Host}.








(** C6.  For a forecast result with a [metal], the card shows the series
    line (the metal in upper case, and the purity when it is truthy); when
    [can_predict] is true it shows the three estimates, each followed by the
    currency; when it is false it shows the message, and the values shown
    are the purity and the message only: no price figure. *)
Theorem prediction_card (fields : list (string * jsval)) (metal : string) :
  prop (VObj fields) "metal" = VStr metal ->
  (prop (VObj fields) "can_predict" = VBool true ->
     View.predictionCard (VObj fields)
     = Val (Elem "" []
              [seriesLine metal (prop (VObj fields) "purity");
               Elem "" []
                 [estimateLine "1g" (prop (VObj fields) "predicted_price_inr_1g")
                    (prop (VObj fields) "currency");
                  estimateLine "10g" (prop (VObj fields) "predicted_price_inr_10g")
                    (prop (VObj fields) "currency");
                  estimateLine "1kg" (prop (VObj fields) "predicted_price_inr_1kg")
                    (prop (VObj fields) "currency")]]))
  /\ (prop (VObj fields) "can_predict" = VBool false ->
        View.predictionCard (VObj fields)
        = Val (Elem "" []
                 [seriesLine metal (prop (VObj fields) "purity");
                  Elem "p" [] [Expr (prop (VObj fields) "message")]])
        /\ shown (Elem "" []
                    [seriesLine metal (prop (VObj fields) "purity");
                     Elem "p" [] [Expr (prop (VObj fields) "message")]])
           = [if truthy (prop (VObj fields) "purity")
              then prop (VObj fields) "purity" else VNull;
              prop (VObj fields) "message"]).
Proof.
  unfold prop. cbn [get]. intros Hm. unfold View.predictionCard.
  cbn [truthy get rbind]. rewrite Hm. cbn [callToUpperCase rbind].
  split; intros Hc; rewrite Hc; cbn [truthy]; [reflexivity|].
  split; [reflexivity|].
  unfold seriesLine. cbn. destruct (truthy (lookup "purity" fields)); reflexivity.
Qed.

End ViewProperties.


(** The table of the sample chain: the genesis block is left out, the two
    priced blocks are shown in order. *)
Example table_of_nested_chain :
  filter priced [nestedGenesis; silverBlock; goldBlock] = [silverBlock; goldBlock]
  /\ dataCells (H:=asciiHost) goldBlock
     = [[Expr (VNum (Num.ofZ 3))]; [Expr (VStr "2026-02-21")]; [Expr (VStr "GOLD")];
        [Expr (VStr "22K")]; [Expr (VStr "10g")]; [Expr (VNum (Num.ofZ 64200))]]
  /\ map (fun c => match c with [Expr v] => v | _ => VUndefined end)
       (dataCells (H:=asciiHost) silverBlock)
     = [VNum (Num.ofZ 1); VStr "2026-02-20"; VStr "SILVER"; VStr "-"; VStr "1g";
        VNum (Num.ofDecimal false 925 (-1))].
Proof. repeat split. Qed.


Lemma prediction_card_witness :
  View.predictionCard (H:=asciiHost) forecastGold
  = Val (Elem "" []
           [seriesLine (H:=asciiHost) "gold" (VStr "24K");
            Elem "" []
              [estimateLine "1g" (VNum (Num.ofZ 6500)) (VStr "INR");
               estimateLine "10g" (VNum (Num.ofZ 65000)) (VStr "INR");
               estimateLine "1kg" (VNum (Num.ofZ 6500000)) (VStr "INR")]])
  /\ View.predictionCard (H:=asciiHost) forecastNone
     = Val (Elem "" []
              [seriesLine (H:=asciiHost) "silver" VNull;
               Elem "p" [] [Expr (VStr "Need at least 2 data points")]]).
Proof.
  split.
  - exact (proj1 (@prediction_card asciiHost
             [("metal", VStr "gold"); ("purity", VStr "24K"); ("can_predict", VBool true);
              ("predicted_price_inr_1g", VNum (Num.ofZ 6500));
              ("predicted_price_inr_10g", VNum (Num.ofZ 65000));
              ("predicted_price_inr_1kg", VNum (Num.ofZ 6500000));
              ("currency", VStr "INR")] "gold" eq_refl) eq_refl).
  - exact (proj1 (proj2 (@prediction_card asciiHost
             [("metal", VStr "silver"); ("purity", VNull); ("can_predict", VBool false);
              ("message", VStr "Need at least 2 data points"); ("currency", VStr "INR")]
             "silver" eq_refl) eq_refl)).
Defined.

(** C10.  Changing the metal selector of the add form or of the prediction
    filter to gold puts 24K in an empty purity and keeps a purity that is
    set; changing it to any other metal empties the purity; so after the
    change the purity is non-empty if and only if the metal is gold. *)
Theorem metal_change_sets_purity (v : string) (p : Form.t) (q : Filter.t) :
  (v = "gold" -> Form.purity p = "" ->
     Form.purity (App.formMetalChange v p) = "24K")
  /\ (v = "gold" -> Filter.purity q = "" ->
        Filter.purity (App.filterMetalChange v q) = "24K")
  /\ (v = "gold" -> Form.purity p <> "" ->
        Form.purity (App.formMetalChange v p) = Form.purity p)
  /\ (v = "gold" -> Filter.purity q <> "" ->
        Filter.purity (App.filterMetalChange v q) = Filter.purity q)
  /\ (v <> "gold" ->
        Form.purity (App.formMetalChange v p) = ""
        /\ Filter.purity (App.filterMetalChange v q) = "")
  /\ Form.metal (App.formMetalChange v p) = v
  /\ Filter.metal (App.filterMetalChange v q) = v
  /\ (Form.purity (App.formMetalChange v p) <> ""
      <-> Form.metal (App.formMetalChange v p) = "gold")
  /\ (Filter.purity (App.filterMetalChange v q) <> ""
      <-> Filter.metal (App.filterMetalChange v q) = "gold").
Proof.
  unfold App.formMetalChange, App.filterMetalChange. cbn.
  destruct (String.eqb_spec v "gold") as [Hv|Hv];
    destruct (Form.purity p) as [|a fp]; destruct (Filter.purity q) as [|b fq];
    cbn; repeat split; intros; try congruence; try discriminate.
Qed.

Lemma metal_change_sets_purity_witness :
  Form.purity (App.formMetalChange "gold" (App.form App.initial)) = "24K"
  /\ Form.purity (App.formMetalChange "silver" goldForm) = "".
Proof.
  split.
  - exact (proj1 (metal_change_sets_purity "gold" (App.form App.initial)
                    (App.predictFilter App.initial)) eq_refl eq_refl).
  - refine (proj1 (proj1 (proj2 (proj2 (proj2 (proj2
              (metal_change_sets_purity "silver" goldForm
                 (App.predictFilter App.initial)))))) _)).
    discriminate.
Defined.

Section LedgerProperties.

Import Ledger.

Variable Hasher : nat -> Z -> option PricePoint -> string -> nat -> string.
Variable difficulty_prefix : string.
Variable cap : nat.
Variable genesis : Block.

#[local] Abbreviation search := (Ledger.search Hasher difficulty_prefix).
#[local] Abbreviation mine := (Ledger.mine Hasher difficulty_prefix cap).
#[local] Abbreviation reseal := (Ledger.reseal Hasher difficulty_prefix cap).
#[local] Abbreviation validFrom := (Ledger.validFrom Hasher difficulty_prefix).
#[local] Abbreviation is_valid := (Ledger.is_valid Hasher difficulty_prefix).
#[local] Abbreviation add := (Ledger.add Hasher difficulty_prefix cap genesis).
#[local] Abbreviation update := (Ledger.update Hasher difficulty_prefix cap genesis).
#[local] Abbreviation delete := (Ledger.delete Hasher difficulty_prefix cap genesis).
#[local] Abbreviation apply := (Ledger.apply Hasher difficulty_prefix cap genesis).
#[local] Abbreviation run := (Ledger.run Hasher difficulty_prefix cap genesis).
#[local] Abbreviation tailHash := (Ledger.tailHash genesis).
#[local] Abbreviation sound := (Ledger.sound Hasher difficulty_prefix).

Lemma search_sound fuel idx ts p prev s0 s h :
  search fuel idx ts p prev s0 = Some (s, h) ->
  h = Hasher idx ts p prev s /\ String.prefix difficulty_prefix h = true.
Proof.
  revert s0. induction fuel as [|fuel IH]; intros s0; cbn [Ledger.search]; [discriminate|].
  destruct (String.prefix difficulty_prefix (Hasher idx ts p prev s0)) eqn:Hp.
  - intros Hs. injection Hs as <- <-. split; [reflexivity|exact Hp].
  - apply IH.
Qed.

(** The search finds the least seal below its cap, when there is one. *)
Lemma search_complete fuel idx ts p prev s0 s :
  (s0 <= s < s0 + fuel)%nat ->
  String.prefix difficulty_prefix (Hasher idx ts p prev s) = true ->
  exists s' h, search fuel idx ts p prev s0 = Some (s', h) /\ (s0 <= s' <= s)%nat.
Proof.
  revert s0. induction fuel as [|fuel IH]; intros s0 Hs Hp; [lia|].
  cbn [Ledger.search].
  destruct (String.prefix difficulty_prefix (Hasher idx ts p prev s0)) eqn:Hp0.
  - do 2 eexists. split; [reflexivity|lia].
  - assert (s0 <> s) by (intros ->; congruence).
    destruct (IH (S s0)) as (s' & h & Hs' & Hle); [lia|exact Hp|].
    exists s', h. split; [exact Hs'|lia].
Qed.

Lemma mine_sound idx ts p prev b :
  mine idx ts p prev = Some b ->
  validFrom prev [b] = true /\ index b = idx /\ timestamp b = ts /\ payload b = p.
Proof.
  unfold Ledger.mine. destruct (search cap idx ts p prev 0) as [[s h]|] eqn:Hs; [|discriminate].
  intros Hb. injection Hb as <-. apply search_sound in Hs. destruct Hs as [-> Hp].
  cbn. rewrite String.eqb_refl, Hp, String.eqb_refl. repeat split.
Qed.

Lemma validFrom_app prev l1 l2 :
  validFrom prev (l1 ++ l2) = validFrom prev l1 && validFrom (lastHash prev l1) l2.
Proof.
  revert prev. induction l1 as [|b l1 IH]; intros prev; [reflexivity|].
  cbn [app Ledger.validFrom lastHash fold_left]. rewrite IH.
  fold (lastHash (hash b) l1). rewrite andb_assoc. reflexivity.
Qed.

Lemma reseal_valid prev idx l l' :
  reseal prev idx l = Some l' -> validFrom prev l' = true.
Proof.
  revert prev idx l'. induction l as [|b l IH]; intros prev idx l'; cbn [Ledger.reseal].
  - intros Hl. injection Hl as <-. reflexivity.
  - destruct (mine idx (timestamp b) (payload b) prev) as [b'|] eqn:Hb; [|discriminate].
    destruct (reseal (hash b') (S idx) l) as [r'|] eqn:Hr; [|discriminate].
    intros Hl. injection Hl as <-.
    apply mine_sound in Hb. destruct Hb as [Hb _].
    change (b' :: r') with ([b'] ++ r'). rewrite validFrom_app, Hb.
    cbn. exact (IH _ _ _ Hr).
Qed.

Lemma tailHash_cons g r : tailHash (g :: r) = lastHash (hash g) r.
Proof.
  unfold Ledger.tailHash. revert g. induction r as [|b r IH]; intros g; [reflexivity|].
  change (last (g :: b :: r) genesis) with (last (b :: r) genesis).
  rewrite IH. reflexivity.
Qed.

Lemma validFrom_firstn prev j r :
  validFrom prev r = true -> validFrom prev (firstn j r) = true.
Proof.
  intros Hv. rewrite <- (firstn_skipn j r), validFrom_app in Hv.
  apply andb_true_iff in Hv. exact (proj1 Hv).
Qed.

Lemma found_inv i g r :
  found i (g :: r) = true -> exists j, i = S j /\ (j < List.length r)%nat.
Proof.
  unfold found. intros Hf. apply andb_true_iff in Hf. destruct Hf as [H0 Hlt].
  destruct i as [|j]; [discriminate|]. exists j. split; [reflexivity|].
  apply Nat.ltb_lt in Hlt. cbn in Hlt. lia.
Qed.

Lemma splice_sound g r j s :
  validFrom (hash g) r = true ->
  reseal (tailHash (firstn (S j) (g :: r))) (S j) s = None \/
  (forall s', reseal (tailHash (firstn (S j) (g :: r))) (S j) s = Some s' ->
     sound (firstn (S j) (g :: r) ++ s')).
Proof.
  intros Hv. right. intros s' Hs. split; [discriminate|].
  cbn [firstn app Ledger.is_valid]. rewrite validFrom_app, (validFrom_firstn _ j r Hv).
  cbn [firstn] in Hs. rewrite tailHash_cons in Hs. exact (reseal_valid _ _ _ _ Hs).
Qed.

Lemma apply_sound o l l' : sound l -> apply o l = inl l' -> sound l'.
Proof.
  intros [Hne Hv]. destruct l as [|g r]; [contradiction|]. cbn [Ledger.is_valid] in Hv.
  destruct o as [ts p|i p|i]; cbn [Ledger.apply].
  - unfold Ledger.add. destruct (validate p); [discriminate|].
    destruct (mine (List.length (g :: r)) ts (Some p) (tailHash (g :: r))) as [b|] eqn:Hb;
      [|discriminate].
    intros Hl. injection Hl as <-. split; [discriminate|].
    cbn [app Ledger.is_valid]. rewrite validFrom_app, Hv.
    apply mine_sound in Hb. rewrite tailHash_cons in Hb. exact (proj1 Hb).
  - unfold Ledger.update. destruct (found i (g :: r)) eqn:Hf; [|discriminate].
    cbn [negb]. destruct (validate p); [discriminate|].
    destruct (found_inv i g r Hf) as (j & -> & _).
    destruct (splice_sound g r j
                match skipn (S j) (g :: r) with
                | b :: r0 => withPayload p b :: r0
                | [] => []
                end Hv) as [Hnone|Hsome].
    + rewrite Hnone. discriminate.
    + destruct (reseal _ _ _) as [s'|]; [|discriminate].
      intros Hl. injection Hl as <-. apply Hsome. reflexivity.
  - unfold Ledger.delete. destruct (found i (g :: r)) eqn:Hf; [|discriminate].
    cbn [negb]. destruct (found_inv i g r Hf) as (j & -> & _).
    destruct (splice_sound g r j (skipn (S (S j)) (g :: r)) Hv) as [Hnone|Hsome].
    + rewrite Hnone. discriminate.
    + destruct (reseal _ _ _) as [s'|]; [|discriminate].
      intros Hl. injection Hl as <-. apply Hsome. reflexivity.
Qed.

Lemma run_sound ops l l' : sound l -> run ops l = inl l' -> sound l'.
Proof.
  revert l. induction ops as [|o ops IH]; intros l Hl; cbn [Ledger.run].
  - intros Heq. injection Heq as <-. exact Hl.
  - destruct (apply o l) as [l1|e] eqn:Ho; [|discriminate].
    apply IH. exact (apply_sound o l l1 Hl Ho).
Qed.

(** C7.  From the genesis-only ledger, any sequence of add, update and
    delete operations that all succeed leaves a ledger that [is_valid]
    accepts: every block after the genesis block stores the recomputed
    Hasher output, its hash starts with the difficulty prefix, and its
    [previous_hash] is the hash of its predecessor. *)
Theorem ledger_stays_valid (ops : list op) (l : list Block) :
  run ops (genesisLedger genesis) = inl l ->
  l <> [] /\ is_valid l = true.
Proof.
  apply run_sound. split; [discriminate|reflexivity].
Qed.

End LedgerProperties.

Lemma ledger_stays_valid_witness :
  Ledger.run Ledger.toyHasher "0" 64 Ledger.toyGenesis sampleOps
    (Ledger.genesisLedger Ledger.toyGenesis) = inl sampleLedger
  /\ sampleLedger <> []
  /\ Ledger.is_valid Ledger.toyHasher "0" sampleLedger = true.
Proof.
  assert (Hrun : Ledger.run Ledger.toyHasher "0" 64 Ledger.toyGenesis sampleOps
                   (Ledger.genesisLedger Ledger.toyGenesis) = inl sampleLedger)
    by (vm_compute; reflexivity).
  split; [exact Hrun|].
  exact (ledger_stays_valid Ledger.toyHasher "0" 64 Ledger.toyGenesis sampleOps
           sampleLedger Hrun).
Defined.

(* ================================================================== *)
(** * What the handlers keep *)

Section Preservation.
Context {H : Host} (E : Env).
Variable P : App.State -> Prop.

Lemma preserves_ret {A} (a : A) : preserves P (ret a).
Proof. intros s Hs. exact Hs. Qed.

Lemma preserves_lift {A} (r : result A) : preserves P (lift r).
Proof. intros s Hs. exact Hs. Qed.

Lemma preserves_modify (f : App.State -> App.State) :
  (forall s, P s -> P (f s)) -> preserves P (modify f).
Proof. intros Hf s Hs. exact (Hf s Hs). Qed.

Lemma preserves_getState : preserves P getState.
Proof. intros s Hs. exact Hs. Qed.

Lemma preserves_bind {A B} (m : M App.State A) (k : A -> M App.State B) :
  preserves P m -> (forall a, preserves P (k a)) -> preserves P (bind m k).
Proof.
  intros Hm Hk s Hs. unfold bind. specialize (Hm s Hs).
  destruct (m s) as [[[a|e] s1] t1]; cbn [stateOf fst snd] in *; [|exact Hm].
  rewrite stateOf_after. exact (Hk a s1 Hm).
Qed.

Lemma preserves_tryCatch {A} (body : M App.State A) (handler : exn -> M App.State A) :
  preserves P body -> (forall e, preserves P (handler e)) ->
  preserves P (tryCatch body handler).
Proof.
  intros Hb Hh s Hs. unfold tryCatch. specialize (Hb s Hs).
  destruct (body s) as [[[a|e] s1] t1]; cbn [stateOf fst snd] in *; [exact Hb|].
  rewrite stateOf_after. exact (Hh e s1 Hb).
Qed.

Lemma preserves_tryFinally {A} (body : M App.State A) (fin : M App.State unit) :
  preserves P body -> preserves P fin -> preserves P (tryFinally body fin).
Proof.
  intros Hb Hf s Hs. unfold tryFinally. specialize (Hb s Hs).
  destruct (body s) as [[r s1] t1]; cbn [stateOf fst snd] in *.
  specialize (Hf s1 Hb).
  destruct (fin s1) as [[[a|e] s2] t2]; exact Hf.
Qed.

Lemma preserves_promiseAll2 {A B} (a : M App.State A) (b : M App.State B) :
  preserves P a -> preserves P b -> preserves P (promiseAll2 E a b).
Proof.
  intros Ha Hb s Hs. unfold promiseAll2. specialize (Ha s Hs).
  destruct (a s) as [[ra s1] t1]; cbn [stateOf fst snd] in *.
  specialize (Hb s1 Ha).
  destruct (b s1) as [[rb s2] t2]; exact Hb.
Qed.

Lemma preserves_invoke (c : call) : preserves P (invoke E c).
Proof.
  intros s Hs. rewrite invoke_run. destruct (requestOf c); exact Hs.
Qed.

Lemma preserves_prompt text d : preserves P (App.prompt E text d).
Proof. intros s Hs. exact Hs. Qed.

Lemma preserves_confirm text : preserves P (App.confirm E text).
Proof. intros s Hs. exact Hs. Qed.

Hypothesis blind : displayBlind P.

Lemma preserves_setError m : preserves P (App.setError m).
Proof. intros s Hs. exact (proj1 (proj2 (proj2 (blind s Hs))) m). Qed.

Lemma preserves_setChain v : preserves P (App.setChain v).
Proof. intros s Hs. exact (proj1 (blind s Hs) v). Qed.

Lemma preserves_setPrediction v : preserves P (App.setPrediction v).
Proof. intros s Hs. exact (proj1 (proj2 (blind s Hs)) v). Qed.

Lemma preserves_setActionLoading a : preserves P (App.setActionLoading a).
Proof. intros s Hs. exact (proj2 (proj2 (proj2 (blind s Hs))) a). Qed.

Ltac keep :=
  repeat first
    [ assumption
    | apply preserves_ret
    | apply preserves_lift
    | apply preserves_getState
    | apply preserves_prompt
    | apply preserves_confirm
    | apply preserves_setError
    | apply preserves_setChain
    | apply preserves_setPrediction
    | apply preserves_setActionLoading
    | exact (preserves_invoke GetChain)
    | exact (preserves_invoke (Predict _))
    | exact (preserves_invoke (AddPrice _))
    | exact (preserves_invoke (UpdatePrice _ _))
    | exact (preserves_invoke (DeletePrice _))
    | apply preserves_promiseAll2
    | apply preserves_tryFinally
    | apply preserves_tryCatch; [|intros ?]
    | apply preserves_bind; [|intros ?]
    | match goal with
      | |- preserves _ (match ?x with _ => _ end) => destruct x
      end ].

Lemma loadData_preserves : preserves P (App.loadData E).
Proof. unfold App.loadData. keep. Qed.

Lemma handleUpdate_preserves (block : jsval) : preserves P (App.handleUpdate E block).
Proof. unfold App.handleUpdate. cbv zeta. pose proof loadData_preserves. keep; try assumption. Qed.

Lemma handleDelete_preserves (block : jsval) : preserves P (App.handleDelete E block).
Proof. unfold App.handleDelete. pose proof loadData_preserves. keep; try assumption. Qed.

Lemma handleSubmit_preserves :
  (forall s, P s -> P (App.withForm App.formClear s)) ->
  (forall s b, P s -> P (App.withLoading b s)) ->
  preserves P (App.handleSubmit E).
Proof.
  intros Hclear Hloading. unfold App.handleSubmit. pose proof loadData_preserves.
  assert (forall b, preserves P (App.setLoading b))
    by (intros b s Hs; exact (Hloading s b Hs)).
  keep; auto.
Qed.

Lemma onSubmit_preserves :
  (forall s, P s -> P (App.withForm App.formClear s)) ->
  (forall s b, P s -> P (App.withLoading b s)) ->
  preserves P (App.onSubmit E).
Proof.
  intros Hclear Hloading. unfold App.onSubmit.
  pose proof (handleSubmit_preserves Hclear Hloading).
  keep; assumption.
Qed.

End Preservation.

Section InputProperties.
Context {H : Host}.

Lemma handlers_keep_filter (E : Env) (block : jsval) (s : App.State) :
  App.predictFilter (stateOf (App.onSubmit E s)) = App.predictFilter s
  /\ App.predictFilter (stateOf (App.handleUpdate E block s)) = App.predictFilter s
  /\ App.predictFilter (stateOf (App.handleDelete E block s)) = App.predictFilter s.
Proof.
  set (P := fun s' : App.State => App.predictFilter s' = App.predictFilter s).
  assert (Hblind : displayBlind P) by (intros s' Hs'; repeat split; intros; apply Hs').
  split; [|split].
  - apply (onSubmit_preserves E P Hblind); try reflexivity; intros; assumption.
  - exact (handleUpdate_preserves E P Hblind block s eq_refl).
  - exact (handleDelete_preserves E P Hblind block s eq_refl).
Qed.

(** X1.  A reload, an update dialog and a delete never change what the user
    entered: the add form, the prediction filter and the [loading] flag are
    the same after them.  A submit never changes the prediction filter, and
    changes the add form by at most clearing its date and price. *)
Theorem handlers_keep_inputs (E : Env) (block : jsval) (s : App.State) :
  (forall x,
      x = App.loadData E s \/ x = App.handleUpdate E block s
      \/ x = App.handleDelete E block s ->
      App.form (stateOf x) = App.form s
      /\ App.predictFilter (stateOf x) = App.predictFilter s
      /\ App.loading (stateOf x) = App.loading s)
  /\ App.predictFilter (stateOf (App.onSubmit E s)) = App.predictFilter s
  /\ (App.form (stateOf (App.onSubmit E s)) = App.form s
      \/ App.form (stateOf (App.onSubmit E s)) = App.formClear (App.form s)).
Proof.
  split; [|split].
  - set (P := fun s' : App.State =>
                App.form s' = App.form s
                /\ App.predictFilter s' = App.predictFilter s
                /\ App.loading s' = App.loading s).
    assert (Hblind : displayBlind P) by (intros s' Hs'; repeat split; intros; apply Hs').
    assert (HP : P s) by (repeat split).
    intros x [->|[->| ->]].
    + exact (loadData_preserves E P Hblind s HP).
    + exact (handleUpdate_preserves E P Hblind block s HP).
    + exact (handleDelete_preserves E P Hblind block s HP).
  - set (P := fun s' : App.State => App.predictFilter s' = App.predictFilter s).
    assert (Hblind : displayBlind P) by (intros s' Hs'; repeat split; intros; apply Hs').
    apply (onSubmit_preserves E P Hblind); try reflexivity; intros; assumption.
  - set (P := fun s' : App.State =>
                App.form s' = App.form s \/ App.form s' = App.formClear (App.form s)).
    assert (Hblind : displayBlind P) by (intros s' Hs'; repeat split; intros; apply Hs').
    apply (onSubmit_preserves E P Hblind).
    + intros s' [Hs'|Hs']; right; cbn; rewrite Hs'; reflexivity.
    + intros s' b Hs'. exact Hs'.
    + left. reflexivity.
Qed.

Lemma includes_In (l : list string) (v : string) : includes l v = true -> In v l.
Proof.
  unfold includes. intros Hin. apply existsb_exists in Hin.
  destruct Hin as (x & Hx & Heq). apply String.eqb_eq in Heq. subst x. exact Hx.
Qed.

Lemma formInRange_metal (v : string) (f : Form.t) :
  includes App.METALS v = true -> formInRange f = true ->
  formInRange (App.formMetalChange v f) = true.
Proof.
  intros Hv Hf. apply includes_In in Hv. unfold formInRange in *.
  apply andb_true_iff in Hf. destruct Hf as [Hf Hpu].
  apply andb_true_iff in Hf. destruct Hf as [_ Hu].
  cbn [App.formMetalChange Form.metal Form.unit Form.purity]. rewrite Hu.
  destruct Hv as [<-|[<-|[<-|[]]]]; cbn; try reflexivity.
  destruct (Form.purity f) as [|c p] eqn:Hp; [reflexivity|]. cbn [Str.isEmpty].
  destruct (String.eqb (Form.metal f) "gold"); [exact Hpu|discriminate].
Qed.

Lemma filterInRange_metal (v : string) (p : Filter.t) :
  includes App.METALS v = true -> filterInRange p = true ->
  filterInRange (App.filterMetalChange v p) = true.
Proof.
  intros Hv Hp. apply includes_In in Hv. unfold filterInRange in *.
  apply andb_true_iff in Hp. destruct Hp as [_ Hpu].
  cbn [App.filterMetalChange Filter.metal Filter.purity].
  destruct Hv as [<-|[<-|[<-|[]]]]; cbn; try reflexivity.
  destruct (Filter.purity p) as [|c q] eqn:Hq; [reflexivity|]. cbn [Str.isEmpty].
  destruct (String.eqb (Filter.metal p) "gold"); [exact Hpu|discriminate].
Qed.

Lemma perform_inputsInRange (E : Env) (a : action) (s : App.State) :
  inputsInRange s -> permitted s a = true ->
  inputsInRange (stateOf (perform E a s)).
Proof.
  intros [Hf Hp] Hperm.
  assert (Hblind : displayBlind inputsInRange)
    by (intros s' Hs'; repeat split; intros; apply Hs').
  assert (Hfilter : forall f,
             filterInRange (f (App.predictFilter s)) = true ->
             inputsInRange (stateOf (filterChange E f s))).
  { intros f Hfr. unfold filterChange.
    destruct (effectFires s (App.withPredictFilter f s)).
    - apply (loadData_preserves E inputsInRange Hblind). split; assumption.
    - split; assumption. }
  unfold formInRange in Hf.
  apply andb_true_iff in Hf. destruct Hf as [Hf Hpu].
  apply andb_true_iff in Hf. destruct Hf as [Hm Hu].
  assert (Hf : formInRange (App.form s) = true)
    by (unfold formInRange; rewrite Hm, Hu, Hpu; reflexivity).
  destruct a; cbn [perform permitted choices metalSelect puritySelect unitSelect
                     filterMetalSelect filterPuritySelect options disabled] in *.
  - split; [|exact Hp]. exact Hf.
  - split; [|exact Hp]. exact (formInRange_metal v _ Hperm Hf).
  - split; [|exact Hp]. unfold formInRange.
    cbn [stateOf fst snd App.withForm App.form App.formPurityChange
           Form.metal Form.unit Form.purity].
    rewrite Hm, Hu. unfold choices, puritySelect in Hperm. cbn [disabled options] in Hperm.
    destruct (String.eqb (Form.metal (App.form s)) "gold"); [exact Hperm|discriminate].
  - split; [|exact Hp]. unfold formInRange.
    cbn [stateOf fst snd App.withForm App.form App.formUnitChange
           Form.metal Form.unit Form.purity].
    rewrite Hm, Hpu, Hperm. reflexivity.
  - split; [|exact Hp]. exact Hf.
  - apply Hfilter. exact (filterInRange_metal v _ Hperm Hp).
  - apply Hfilter. unfold filterInRange in *.
    cbn [App.filterPurityChange Filter.metal Filter.purity].
    apply andb_true_iff in Hp. destruct Hp as [Hpm _]. rewrite Hpm.
    unfold choices, filterPuritySelect in Hperm. cbn [disabled options] in Hperm.
    destruct (String.eqb (Filter.metal (App.predictFilter s)) "gold");
      [exact Hperm|discriminate].
  - apply (onSubmit_preserves E inputsInRange Hblind).
    + intros s' Hs'. exact Hs'.
    + intros s' b Hs'. exact Hs'.
    + split; assumption.
  - apply (handleUpdate_preserves E inputsInRange Hblind). split; assumption.
  - apply (handleDelete_preserves E inputsInRange Hblind). split; assumption.
  - apply (loadData_preserves E inputsInRange Hblind). split; assumption.
Qed.

Lemma session_inputsInRange (script : list (Env * action)) (s s' : App.State)
    (t : list event) :
  inputsInRange s -> session script s = Some (s', t) -> inputsInRange s'.
Proof.
  revert s t. induction script as [|[E a] script IH]; intros s t Hs; cbn [session].
  - intros Heq. injection Heq as <- _. exact Hs.
  - destruct (permitted s a) eqn:Hperm; [|discriminate].
    destruct (session script (stateOf (perform E a s))) as [[s1 t1]|] eqn:Hrest;
      [|discriminate].
    intros Heq. injection Heq as <- _.
    exact (IH _ _ (perform_inputsInRange E a s Hs Hperm) Hrest).
Qed.

(** X2.  In every state a session reaches, the inputs are in range: the
    metal of the add form and of the filter is one of the three metals, the
    unit is one of the three units, and the purity is empty for silver and
    platinum and empty or one of the three grades for gold. *)
Theorem reachable_inputs_in_range (s : App.State) :
  reachable s -> inputsInRange s.
Proof.
  intros (script & t & Hs).
  apply (session_inputsInRange script App.initial s t); [|exact Hs].
  split; reflexivity.
Qed.

End InputProperties.

Section SessionProperties.
Context {H : Host}.

(** X3.  Every POST /prices request a submit sends from a state a session
    reaches carries an offered metal, an offered unit, a purity that is one
    of the three grades for gold and [null] for any other metal, a date that
    is not empty, and the number the price field converts to. *)
Theorem reachable_posts_in_range (E : Env) (s : App.State) (r : request) :
  reachable s ->
  In r (requests (traceOf (App.onSubmit E s))) ->
  method r = "POST" ->
  memberOf App.METALS (prop (payloadOf r) "metal") = true
  /\ memberOf App.UNITS (prop (payloadOf r) "unit") = true
  /\ (if strictEqStr (prop (payloadOf r) "metal") "gold"
      then memberOf App.GOLD_PURITY (prop (payloadOf r) "purity") = true
      else prop (payloadOf r) "purity" = VNull)
  /\ present (prop (payloadOf r) "date") = true
  /\ prop (payloadOf r) "price" = VNum (Number (Form.price (App.form s)))
  /\ Str.isEmpty (Form.price (App.form s)) = false.
Proof.
  intros Hreach Hin Hpost.
  destruct Hreach as (script & t & Hrun).
  destruct (session_inputsInRange script App.initial s t (conj eq_refl eq_refl) Hrun)
    as [Hf _].
  destruct (onSubmit_requests E s r Hin Hpost) as [Hreq ->].
  unfold formInRange in Hf. unfold App.requiredFilled in Hreq.
  apply andb_true_iff in Hf. destruct Hf as [Hf Hpu].
  apply andb_true_iff in Hf. destruct Hf as [Hm Hu].
  apply andb_true_iff in Hreq. destruct Hreq as [Hreq Hprice].
  apply andb_true_iff in Hreq. destruct Hreq as [Hdate Hgold].
  cbn [payloadOf addRequest body App.submitPayload prop get lookup String.eqb
         Ascii.eqb Bool.eqb memberOf strictEqStr present].
  repeat split; try assumption.
  - destruct (String.eqb (Form.metal (App.form s)) "gold"); [|reflexivity].
    cbn [memberOf]. destruct (Form.purity (App.form s)) as [|c p]; [discriminate|].
    exact Hpu.
  - apply negb_true_iff in Hprice. exact Hprice.
Qed.

Lemma filterParams_in_range (p : Filter.t) :
  filterInRange p = true -> predictInRange (predictRequest (filterParams p)).
Proof.
  intros Hp. unfold filterInRange in Hp.
  apply andb_true_iff in Hp. destruct Hp as [Hm Hpu].
  exists (filterParams p), (Filter.metal p). split; [reflexivity|].
  unfold filterParams.
  destruct (String.eqb_spec (Filter.metal p) "gold") as [Hg|Hg]; cbn.
  - destruct (Filter.purity p) as [|c q] eqn:Hq; cbn.
    + repeat split; try assumption; discriminate.
    + repeat split; try assumption;
        match goal with Hk : Some _ = Some _ |- _ => injection Hk as <- end; exact Hpu.
  - repeat split; try assumption; discriminate.
Qed.

Lemma perform_gets (E : Env) (a : action) (s : App.State) (r : request) :
  In r (requests (traceOf (perform E a s))) ->
  method r = "GET" ->
  r = chainRequest
  \/ r = predictRequest (filterParams (App.predictFilter (stateOf (perform E a s)))).
Proof.
  assert (Hload : forall s0 r0,
             In r0 (requests (traceOf (App.loadData E s0))) ->
             r0 = chainRequest
             \/ r0 = predictRequest
                       (filterParams (App.predictFilter (stateOf (App.loadData E s0))))).
  { intros s0 r0. destruct (loadData_run E s0) as (s1 & Hrun & Hsame).
    rewrite Hrun. cbn [traceOf stateOf fst snd]. rewrite Hsame.
    intros [<-|[<-|[]]]; [left|right]; reflexivity. }
  assert (Hrest : forall s0 rest r0,
             rest = reloadTrace E s0 \/ rest = [] ->
             In r0 (requests rest) ->
             r0 = chainRequest
             \/ r0 = predictRequest (filterParams (App.predictFilter s0))).
  { intros s0 rest r0 [->| ->]; [|contradiction].
    intros [<-|[<-|[]]]; [left|right]; reflexivity. }
  destruct a; cbn [perform traceOf stateOf fst snd requests]; try contradiction.
  - unfold filterChange. destruct (effectFires _ _);
      [intros Hin _; exact (Hload _ _ Hin)|contradiction].
  - unfold filterChange. destruct (effectFires _ _);
      [intros Hin _; exact (Hload _ _ Hin)|contradiction].
  - intros Hin Hget.
    rewrite (proj1 (handlers_keep_filter E VNull s)).
    unfold App.onSubmit in Hin. rewrite bind_getState in Hin.
    destruct (App.requiredFilled (App.form s)); [|contradiction].
    destruct (handleSubmit_run E s) as (s' & rest & Hrun & Hr).
    cbv zeta in Hrun. rewrite Hrun in Hin. cbn [traceOf snd requests] in Hin.
    destruct Hin as [<-|Hin]; [discriminate Hget|].
    exact (Hrest s rest r Hr Hin).
  - intros Hin Hget.
    rewrite (proj1 (proj2 (handlers_keep_filter E block s))).
    pose proof (handleUpdate_run E block s) as Hrun.
    remember (App.handleUpdate E block s) as x eqn:Hx. clear Hx.
    destruct Hrun as [e | t e Ht He | t e msg Ht He
                     | t data nd nu np npr s' rest Ht _ _ _ _ Hr req];
      cbn [traceOf snd] in Hin.
    + contradiction.
    + rewrite requests_app, (accepted_requests t Ht) in Hin.
      destruct e as [? ? [?|]| |]; contradiction.
    + rewrite requests_app, (accepted_requests t Ht) in Hin.
      destruct e as [? ? [?|]| |]; contradiction.
    + rewrite requests_app, (accepted_requests t Ht) in Hin.
      destruct Hin as [<-|Hin]; [discriminate Hget|].
      exact (Hrest s rest r Hr Hin).
  - intros Hin Hget.
    rewrite (proj2 (proj2 (handlers_keep_filter E block s))).
    destruct (handleDelete_run E block s)
      as [[e Hrun]|[[text Hrun]|(text & s' & rest & Hrun & Hr)]];
      rewrite Hrun in Hin; cbn [traceOf snd requests] in Hin; try contradiction.
    destruct Hin as [<-|Hin]; [discriminate Hget|].
    exact (Hrest s rest r Hr Hin).
  - intros Hin _. apply Hload. exact Hin.
Qed.

Lemma session_gets (script : list (Env * action)) (s s' : App.State)
    (t : list event) (r : request) :
  inputsInRange s -> session script s = Some (s', t) ->
  In r (requests t) -> method r = "GET" ->
  r = chainRequest \/ predictInRange r.
Proof.
  revert s t. induction script as [|[E a] script IH]; intros s t Hs; cbn [session].
  - intros Heq. injection Heq as _ <-. contradiction.
  - destruct (permitted s a) eqn:Hperm; [|discriminate].
    destruct (session script (stateOf (perform E a s))) as [[s1 t1]|] eqn:Hrest;
      [|discriminate].
    intros Heq. injection Heq as <- <-. rewrite requests_app.
    pose proof (perform_inputsInRange E a s Hs Hperm) as Hs1.
    intros Hin Hget. apply in_app_or in Hin. destruct Hin as [Hin|Hin].
    + destruct (perform_gets E a s r Hin Hget) as [->| ->]; [left; reflexivity|].
      right. apply filterParams_in_range. exact (proj2 Hs1).
    + exact (IH _ _ Hs1 Hrest Hin Hget).
Qed.

(** X4.  Every GET request of a session is the chain request or a predict
    request whose query names one of the three metals, and has a purity
    only when that metal is gold, the purity being one of the three
    grades. *)
Theorem session_gets_in_range (script : list (Env * action)) (s : App.State)
    (t : list event) (r : request) :
  session script App.initial = Some (s, t) ->
  In r (requests t) -> method r = "GET" ->
  r = chainRequest \/ predictInRange r.
Proof.
  apply session_gets. split; reflexivity.
Qed.

Lemma objectIs_str (a b : string) : objectIs (VStr a) (VStr b) = true <-> a = b.
Proof. apply String.eqb_eq. Qed.

(** X5.  The effect that loads the data runs again after a render exactly
    when the predict query of the new state differs from that of the state
    before. *)
Theorem effect_fires_iff_query_changes (before now : App.State) :
  effectFires before now = true
  <-> Api.predictParams (App.predictionPayload before)
      <> Api.predictParams (App.predictionPayload now).
Proof.
  rewrite !predictParams_payload. unfold effectFires, effectDeps, filterParams.
  cbn [App.predictionPayload prop get lookup String.eqb Ascii.eqb Bool.eqb sameDeps].
  destruct (App.predictFilter before) as [m p]; destruct (App.predictFilter now) as [m' p'].
  cbn [Filter.metal Filter.purity objectIs].
  destruct (String.eqb_spec m m') as [<-|Hm].
  - destruct (String.eqb m "gold"); cbn [andb objectIs negb].
    + destruct (String.eqb_spec p p') as [<-|Hp]; cbn [andb negb].
      * split; [discriminate|]. intros Hne. exfalso. apply Hne. reflexivity.
      * split; [|reflexivity]. intros _ Heq. apply Hp.
        destruct p, p'; cbn in Heq; congruence.
    + split; [discriminate|]. intros Hne. exfalso. apply Hne. reflexivity.
  - cbn [andb negb]. split; [|reflexivity]. intros _ Heq. apply Hm.
    cbn in Heq. congruence.
Qed.


End SessionProperties.

(* ================================================================== *)
(** * How the handlers end *)

Section Outcomes.
Context {H : Host} (E : Env).

(** The run of a reload, by how its two calls settle. *)
Lemma loadData_cases (s : App.State) :
  App.loadData E s
  = (Val tt,
     match settle GetChain (serve E chainRequest),
           settle (Predict (App.predictionPayload s))
             (serve E (predictRequest (filterParams (App.predictFilter s)))) with
     | Val c, Val p => App.withPrediction p (App.withChain c (App.withError "" s))
     | Throw e, Val _ => App.withError (message e) s
     | Val _, Throw e => App.withError (message e) s
     | Throw e1, Throw e2 =>
         App.withError (message (if secondSettlesFirst E then e2 else e1)) s
     end,
     reloadTrace E s).
Proof.
  unfold App.loadData, tryCatch, bind, App.setError, App.setChain, App.setPrediction,
    modify, getState, promiseAll2.
  change (Api.getChain E) with (invoke E (S:=App.State) GetChain).
  change (Api.predict E ?a) with (invoke E (S:=App.State) (Predict a)).
  rewrite invoke_run. cbn [requestOf]. rewrite invoke_run. cbn [requestOf].
  rewrite predictParams_payload. cbn [rbind App.withError App.predictFilter].
  unfold reloadTrace.
  change (App.predictionPayload (App.withError "" s)) with (App.predictionPayload s).
  destruct (settle GetChain _); destruct (settle (Predict _) _); reflexivity.
Qed.

(** What a reload displays depends on the filter and on what was displayed
    before, not on the rest of the state. *)
Lemma loadData_display (s1 s : App.State) :
  App.predictFilter s1 = App.predictFilter s ->
  App.chain s1 = App.chain s ->
  App.prediction s1 = App.prediction s ->
  App.chain (stateOf (App.loadData E s1)) = App.chain (stateOf (App.loadData E s))
  /\ App.prediction (stateOf (App.loadData E s1))
     = App.prediction (stateOf (App.loadData E s))
  /\ App.error (stateOf (App.loadData E s1)) = App.error (stateOf (App.loadData E s)).
Proof.
  intros Hf Hc Hp. rewrite !loadData_cases. cbn [stateOf fst snd].
  unfold App.predictionPayload. rewrite Hf.
  destruct (settle GetChain _); destruct (settle (Predict _) _);
    cbn; repeat split; assumption.
Qed.

Lemma guarded_final (c : call) (req : request) (g : App.State -> App.State)
    (s : App.State) :
  requestOf c = Val req ->
  tryFinally
    (tryCatch (bind (invoke E c) (fun _ => App.loadData E))
       (fun e => App.setError (message e)))
    (modify g) s
  = (Val tt, g (afterCall E (settle c (serve E req)) s),
     Fetched req (serve E req) :: reloadAfter E (settle c (serve E req)) s).
Proof.
  intros Hreq. unfold tryFinally, tryCatch, bind. rewrite invoke_run, Hreq.
  destruct (settle c (serve E req)) as [v|e]; cbn [afterCall reloadAfter].
  - rewrite loadData_cases. reflexivity.
  - reflexivity.
Qed.

Lemma update_final (i p : jsval) (s : App.State) :
  tryFinally
    (tryCatch (bind (Api.updatePrice E i p) (fun _ => App.loadData E))
       (fun e => App.setError (message e)))
    (App.setActionLoading "") s
  = (Val tt,
     App.withActionLoading ""
       (afterCall E (settle (UpdatePrice i p) (serve E (updateRequest i p))) s),
     Fetched (updateRequest i p) (serve E (updateRequest i p))
     :: reloadAfter E (settle (UpdatePrice i p) (serve E (updateRequest i p))) s).
Proof. exact (guarded_final (UpdatePrice i p) _ _ s eq_refl). Qed.

Lemma delete_final (i : jsval) (s : App.State) :
  tryFinally
    (tryCatch (bind (Api.deletePrice E i) (fun _ => App.loadData E))
       (fun e => App.setError (message e)))
    (App.setActionLoading "") s
  = (Val tt,
     App.withActionLoading ""
       (afterCall E (settle (DeletePrice i) (serve E (deleteRequest i))) s),
     Fetched (deleteRequest i) (serve E (deleteRequest i))
     :: reloadAfter E (settle (DeletePrice i) (serve E (deleteRequest i))) s).
Proof. exact (guarded_final (DeletePrice i) _ _ s eq_refl). Qed.

(** What is displayed after a call that settled with [r] on the state [s1],
    which shows what [s] shows and has its filter. *)
Lemma afterCall_display (r : result jsval) (s1 s : App.State) :
  App.predictFilter s1 = App.predictFilter s ->
  App.chain s1 = App.chain s ->
  App.prediction s1 = App.prediction s ->
  match r with
  | Val _ =>
      App.chain (afterCall E r s1) = App.chain (stateOf (App.loadData E s))
      /\ App.prediction (afterCall E r s1) = App.prediction (stateOf (App.loadData E s))
      /\ App.error (afterCall E r s1) = App.error (stateOf (App.loadData E s))
  | Throw e =>
      App.chain (afterCall E r s1) = App.chain s
      /\ App.prediction (afterCall E r s1) = App.prediction s
      /\ App.error (afterCall E r s1) = message e
  end.
Proof.
  intros Hf Hc Hp. destruct r as [v|e]; cbn [afterCall].
  - exact (loadData_display s1 s Hf Hc Hp).
  - cbn. repeat split; assumption.
Qed.

(** X7.  A reload never throws and sends the chain request and the predict
    request.  When both calls return, the chain and the prediction shown are
    the two bodies and the error is cleared; when either throws, the chain
    and the prediction stay as they were and the error is the message of a
    call that threw. *)
Theorem reload_outcome (s : App.State) :
  resultOf (App.loadData E s) = Val tt
  /\ traceOf (App.loadData E s) = reloadTrace E s
  /\ (forall c p,
        settle GetChain (serve E chainRequest) = Val c ->
        settle (Predict (App.predictionPayload s))
          (serve E (predictRequest (filterParams (App.predictFilter s)))) = Val p ->
        App.chain (stateOf (App.loadData E s)) = c
        /\ App.prediction (stateOf (App.loadData E s)) = p
        /\ App.error (stateOf (App.loadData E s)) = "")
  /\ ((exists e, settle GetChain (serve E chainRequest) = Throw e)
      \/ (exists e,
            settle (Predict (App.predictionPayload s))
              (serve E (predictRequest (filterParams (App.predictFilter s)))) = Throw e) ->
      App.chain (stateOf (App.loadData E s)) = App.chain s
      /\ App.prediction (stateOf (App.loadData E s)) = App.prediction s
      /\ exists e,
           (settle GetChain (serve E chainRequest) = Throw e
            \/ settle (Predict (App.predictionPayload s))
                 (serve E (predictRequest (filterParams (App.predictFilter s)))) = Throw e)
           /\ App.error (stateOf (App.loadData E s)) = message e).
Proof.
  rewrite loadData_cases. cbn [resultOf stateOf traceOf fst snd].
  split; [reflexivity|]. split; [reflexivity|].
  destruct (settle GetChain _) as [c|e1];
    destruct (settle (Predict _) _) as [p|e2]; split.
  - intros c' p' Hc Hp. injection Hc as <-. injection Hp as <-. repeat split.
  - intros [[e He]|[e He]]; discriminate He.
  - intros c' p' _ Hp. discriminate Hp.
  - intros _. repeat split. exists e2. split; [right|]; reflexivity.
  - intros c' p' Hc _. discriminate Hc.
  - intros _. repeat split. exists e1. split; [left|]; reflexivity.
  - intros c' p' Hc _. discriminate Hc.
  - intros _. repeat split.
    destruct (secondSettlesFirst E);
      [exists e2; split; [right|]|exists e1; split; [left|]]; reflexivity.
Qed.

Lemma handleSubmit_final (s : App.State) :
  App.handleSubmit E s
  = (Val tt,
     App.withLoading false
       match settle (AddPrice (App.submitPayload (App.form s)))
               (serve E (addRequest (App.submitPayload (App.form s)))) with
       | Val _ =>
           stateOf (App.loadData E
                      (App.withForm App.formClear
                         (App.withLoading true (App.withError "" s))))
       | Throw e => App.withError (message e) (App.withLoading true (App.withError "" s))
       end,
     Fetched (addRequest (App.submitPayload (App.form s)))
       (serve E (addRequest (App.submitPayload (App.form s))))
     :: match settle (AddPrice (App.submitPayload (App.form s)))
                (serve E (addRequest (App.submitPayload (App.form s)))) with
        | Val _ => reloadTrace E s
        | Throw _ => []
        end).
Proof.
  unfold App.handleSubmit.
  rewrite bind_setError, bind_setLoading.
  unfold tryFinally, tryCatch.
  rewrite bind_getState.
  change (Api.addPrice E ?p) with (invoke E (S:=App.State) (AddPrice p)).
  unfold bind at 1. rewrite invoke_run. cbn [requestOf].
  change (App.form (App.withLoading true (App.withError "" s))) with (App.form s).
  destruct (settle _ _) as [v|e].
  - unfold App.setForm. rewrite bind_modify. rewrite loadData_cases. reflexivity.
  - reflexivity.
Qed.

(** X8.  A submit handler always returns and always ends with [loading]
    false.  When the add call throws, only the POST was sent, the form is as
    it was and the error is the message thrown; when it returns, the date
    and the price of the form are cleared, the reload follows the POST, and
    what is shown is what a reload shows. *)
Theorem submit_outcome (s : App.State) :
  resultOf (App.handleSubmit E s) = Val tt
  /\ App.loading (stateOf (App.handleSubmit E s)) = false
  /\ (forall e,
        settle (AddPrice (App.submitPayload (App.form s)))
          (serve E (addRequest (App.submitPayload (App.form s)))) = Throw e ->
        requests (traceOf (App.handleSubmit E s))
        = [addRequest (App.submitPayload (App.form s))]
        /\ App.form (stateOf (App.handleSubmit E s)) = App.form s
        /\ App.error (stateOf (App.handleSubmit E s)) = message e
        /\ App.chain (stateOf (App.handleSubmit E s)) = App.chain s
        /\ App.prediction (stateOf (App.handleSubmit E s)) = App.prediction s)
  /\ (forall v,
        settle (AddPrice (App.submitPayload (App.form s)))
          (serve E (addRequest (App.submitPayload (App.form s)))) = Val v ->
        requests (traceOf (App.handleSubmit E s))
        = [addRequest (App.submitPayload (App.form s)); chainRequest;
           predictRequest (filterParams (App.predictFilter s))]
        /\ App.form (stateOf (App.handleSubmit E s)) = App.formClear (App.form s)
        /\ App.chain (stateOf (App.handleSubmit E s))
           = App.chain (stateOf (App.loadData E s))
        /\ App.prediction (stateOf (App.handleSubmit E s))
           = App.prediction (stateOf (App.loadData E s))
        /\ App.error (stateOf (App.handleSubmit E s))
           = App.error (stateOf (App.loadData E s))).
Proof.
  rewrite handleSubmit_final. cbn [resultOf stateOf traceOf fst snd].
  split; [reflexivity|]. split; [reflexivity|].
  set (s1 := App.withForm App.formClear (App.withLoading true (App.withError "" s))).
  pose proof (loadData_display s1 s eq_refl eq_refl eq_refl) as (Hc & Hp & He).
  pose proof (loadData_preserves E (fun s' => App.form s' = App.form s1)) as Hform.
  specialize (Hform (fun s' Hs' => conj (fun _ => Hs') (conj (fun _ => Hs')
                      (conj (fun _ => Hs') (fun _ => Hs')))) s1 eq_refl).
  destruct (settle _ _) as [v|e]; split; try discriminate.
  - intros v' _. cbn [requests reloadTrace]. split; [reflexivity|].
    cbn [App.withLoading App.form App.chain App.prediction App.error].
    repeat split; assumption.
  - intros e' He'. injection He' as <-. repeat split.
Qed.

End Outcomes.

Ltac step_final E :=
  match goal with
  | |- context [tryFinally (tryCatch (bind (Api.updatePrice E ?i ?p) _) _) _ ?st] =>
      rewrite (update_final E i p st)
  | |- context [tryFinally (tryCatch (bind (Api.deletePrice E ?i) _) _) _ ?st] =>
      rewrite (delete_final E i st)
  | _ => step E
  end.

Section RowOutcomes.
Context {H : Host} (E : Env).

Lemma gets_are_not_puts (s : App.State) (r : request) (out : outcome) :
  In (Fetched r out) (reloadTrace E s) -> method r = "GET".
Proof. intros [Heq|[Heq|[]]]; injection Heq as <- _; reflexivity. Qed.

(** The run of an update dialog that sent its PUT. *)
Lemma handleUpdate_sent (block : jsval) (s : App.State) (r : request) (out : outcome) :
  In (Fetched r out) (traceOf (App.handleUpdate E block s)) ->
  method r = "PUT" ->
  exists nd ue pr np,
    In (Prompted App.promptDate (App.promptDefault (prop (prop block "data") "date"))
          (Some nd)) (traceOf (App.handleUpdate E block s))
    /\ In (Prompted App.promptUnit (App.promptDefault (prop (prop block "data") "unit"))
             (Some ue)) (traceOf (App.handleUpdate E block s))
    /\ In (Prompted App.promptPrice
             (App.promptDefault (VStr (ToString (prop (prop block "data") "price"))))
             (Some pr)) (traceOf (App.handleUpdate E block s))
    /\ (if strictEqStr (prop (prop block "data") "metal") "gold"
        then exists pe,
               In (Prompted App.promptPurity
                     (App.promptDefault (jsOr (prop (prop block "data") "purity")
                                           (VStr "24K")))
                     (Some pe)) (traceOf (App.handleUpdate E block s))
               /\ np = VStr (toUpperCase (trim pe))
        else np = VNull)
    /\ r = updateRequest (prop block "index")
             (replacement (prop block "data") nd (toLowerCase (trim ue)) np (Number pr))
    /\ out = serve E r
    /\ resultOf (App.handleUpdate E block s) = Val tt
    /\ stateOf (App.handleUpdate E block s)
       = App.withActionLoading ""
           (afterCall E
              (settle (UpdatePrice (prop block "index")
                         (replacement (prop block "data") nd (toLowerCase (trim ue)) np
                            (Number pr))) out)
              (App.withActionLoading ("update-" +++ ToString (prop block "index"))
                 (App.withError "" s)))
    /\ requests (traceOf (App.handleUpdate E block s))
       = r :: requests
                (reloadAfter E
                   (settle (UpdatePrice (prop block "index")
                              (replacement (prop block "data") nd (toLowerCase (trim ue))
                                 np (Number pr))) out) s).
Proof.
  unfold App.handleUpdate.
  repeat step_final E.
  all: unfold ret, App.setError, modify.
  all: cbn [after app traceOf snd].
  all: repeat match goal with
         | Hg : get ?v ?k = Val ?x |- _ =>
             is_var x; pose proof (get_prop v k x Hg); subst x
         end.
  all: intros Hin Hput.
  all: cbn [In] in Hin.
  all: repeat (destruct Hin as [Hin|Hin]; try discriminate Hin).
  all: try contradiction.
  all: try (exfalso; unfold reloadAfter in Hin; destruct (settle _ _);
            [apply gets_are_not_puts in Hin; rewrite Hin in Hput; discriminate Hput
            |contradiction]).
  all: injection Hin as <- <-.
  all: try discriminate Hput.
  all: match goal with
       | Hd : promptAnswer E App.promptDate _ = Some ?nd,
         Hu : promptAnswer E App.promptUnit _ = Some ?ue,
         Hp : promptAnswer E App.promptPrice _ = Some ?pr,
         Hm : method (updateRequest _ (VObj [_; _; (_, ?np); _; _])) = _ |- _ =>
           exists nd, ue, pr, np
       end.
  all: repeat match goal with
         | |- _ /\ _ => split
         end.
  all: try (cbn [In]; tauto).
  all: try reflexivity.
  all: try (cbn [requests]; f_equal; destruct (settle _ _); reflexivity).
  all: try match goal with
           | Hm : strictEqStr _ "gold" = _ |- _ => rewrite Hm
           end.
  all: try reflexivity.
  all: try (exfalso; congruence).
  all: match goal with
       | Hp : promptAnswer E App.promptPurity _ = Some ?pe |- _ => exists pe
       end.
  all: split; [cbn [In]; tauto|reflexivity].
Qed.

Lemma afterCall_inputs (r : result jsval) (s1 : App.State) :
  App.form (afterCall E r s1) = App.form s1
  /\ App.predictFilter (afterCall E r s1) = App.predictFilter s1
  /\ App.loading (afterCall E r s1) = App.loading s1
  /\ App.actionLoading (afterCall E r s1) = App.actionLoading s1.
Proof.
  destruct r as [v|e]; cbn [afterCall]; [|repeat split].
  rewrite loadData_cases. cbn [stateOf fst snd].
  destruct (settle GetChain _); destruct (settle (Predict _) _); repeat split.
Qed.

(** X9.  A PUT of the update dialog carries what was typed: the date as
    entered, the unit trimmed and in lower case, for gold the purity
    trimmed and in upper case and for any other metal [null], and the price
    entry converted to a number; and each prompt offered the block's
    current value (for the purity of gold, 24K when the block has none). *)
Theorem update_sends_entries (block : jsval) (s : App.State) (r : request)
    (out : outcome) :
  In (Fetched r out) (traceOf (App.handleUpdate E block s)) ->
  method r = "PUT" ->
  exists nd ue pr np,
    In (Prompted App.promptDate (App.promptDefault (prop (prop block "data") "date"))
          (Some nd)) (traceOf (App.handleUpdate E block s))
    /\ In (Prompted App.promptUnit (App.promptDefault (prop (prop block "data") "unit"))
             (Some ue)) (traceOf (App.handleUpdate E block s))
    /\ In (Prompted App.promptPrice
             (App.promptDefault (VStr (ToString (prop (prop block "data") "price"))))
             (Some pr)) (traceOf (App.handleUpdate E block s))
    /\ (if strictEqStr (prop (prop block "data") "metal") "gold"
        then exists pe,
               In (Prompted App.promptPurity
                     (App.promptDefault (jsOr (prop (prop block "data") "purity")
                                           (VStr "24K")))
                     (Some pe)) (traceOf (App.handleUpdate E block s))
               /\ np = VStr (toUpperCase (trim pe))
        else np = VNull)
    /\ r = updateRequest (prop block "index")
             (replacement (prop block "data") nd (toLowerCase (trim ue)) np (Number pr)).
Proof.
  intros Hin Hput.
  destruct (handleUpdate_sent block s r out Hin Hput)
    as (nd & ue & pr & np & H1 & H2 & H3 & H4 & H5 & _).
  exists nd, ue, pr, np. exact (conj H1 (conj H2 (conj H3 (conj H4 H5)))).
Qed.

(** X10.  Once the update dialog has sent its PUT the handler returns and
    the mark of the row in progress is cleared.  When the call throws,
    nothing else is sent, the error is the message thrown, and the chain
    and the prediction stay; when it returns, the reload follows and what
    is shown is what a reload shows. *)
Theorem update_outcome (block : jsval) (s : App.State) (r : request) (out : outcome) :
  In (Fetched r out) (traceOf (App.handleUpdate E block s)) ->
  method r = "PUT" ->
  out = serve E r
  /\ resultOf (App.handleUpdate E block s) = Val tt
  /\ App.actionLoading (stateOf (App.handleUpdate E block s)) = ""
  /\ App.loading (stateOf (App.handleUpdate E block s)) = App.loading s
  /\ exists p,
       r = updateRequest (prop block "index") p
       /\ (forall e,
             settle (UpdatePrice (prop block "index") p) out = Throw e ->
             requests (traceOf (App.handleUpdate E block s)) = [r]
             /\ App.error (stateOf (App.handleUpdate E block s)) = message e
             /\ App.chain (stateOf (App.handleUpdate E block s)) = App.chain s
             /\ App.prediction (stateOf (App.handleUpdate E block s))
                = App.prediction s)
       /\ (forall v,
             settle (UpdatePrice (prop block "index") p) out = Val v ->
             requests (traceOf (App.handleUpdate E block s))
             = [r; chainRequest; predictRequest (filterParams (App.predictFilter s))]
             /\ App.chain (stateOf (App.handleUpdate E block s))
                = App.chain (stateOf (App.loadData E s))
             /\ App.prediction (stateOf (App.handleUpdate E block s))
                = App.prediction (stateOf (App.loadData E s))
             /\ App.error (stateOf (App.handleUpdate E block s))
                = App.error (stateOf (App.loadData E s))).
Proof.
  intros Hin Hput.
  destruct (handleUpdate_sent block s r out Hin Hput)
    as (nd & ue & pr & np & _ & _ & _ & _ & Hr & Hout & Hres & Hst & Hreq).
  rewrite Hst, Hreq. clear Hst Hreq.
  set (p := replacement (prop block "data") nd (toLowerCase (trim ue)) np (Number pr))
    in *.
  set (s1 := App.withActionLoading ("update-" +++ ToString (prop block "index"))
               (App.withError "" s)).
  pose proof (afterCall_inputs (settle (UpdatePrice (prop block "index") p) out) s1)
    as (_ & _ & Hl & _).
  pose proof (afterCall_display E (settle (UpdatePrice (prop block "index") p) out) s1 s
                eq_refl eq_refl eq_refl) as Hd.
  split; [exact Hout|]. split; [exact Hres|]. split; [reflexivity|].
  split; [exact Hl|]. exists p. split; [exact Hr|].
  destruct (settle (UpdatePrice (prop block "index") p) out) as [v|e]; split.
  - discriminate.
  - intros v' _. split; [reflexivity|]. exact Hd.
  - intros e' He'. injection He' as <-. split; [reflexivity|].
    destruct Hd as (Hc & Hp & He). repeat split; assumption.
  - discriminate.
Qed.

Lemma reloadAfter_filter (r : result jsval) (s1 s : App.State) :
  App.predictFilter s1 = App.predictFilter s -> reloadAfter E r s1 = reloadAfter E r s.
Proof. intros Hf. destruct r; [|reflexivity]. unfold reloadAfter, reloadTrace. rewrite Hf. reflexivity. Qed.

(** The run of a removal, by what the block holds and how the confirmation
    is answered. *)
Lemma handleDelete_cases (block : jsval) (s : App.State) :
  App.handleDelete E block s
  = match get block "data" with
    | Throw e => (Throw e, s, [])
    | Val d =>
        match App.confirmText block d with
        | Throw e => (Throw e, s, [])
        | Val text =>
            if confirmAnswer E text then
              (Val tt,
               App.withActionLoading ""
                 (afterCall E
                    (settle (DeletePrice (prop block "index"))
                       (serve E (deleteRequest (prop block "index"))))
                    (App.withActionLoading ("delete-" +++ ToString (prop block "index"))
                       (App.withError "" s))),
               Confirmed text true
               :: Fetched (deleteRequest (prop block "index"))
                    (serve E (deleteRequest (prop block "index")))
               :: reloadAfter E
                    (settle (DeletePrice (prop block "index"))
                       (serve E (deleteRequest (prop block "index")))) s)
            else (Val tt, s, [Confirmed text false])
        end
    end.
Proof.
  unfold App.handleDelete. rewrite bind_lift.
  destruct (get block "data") as [d|e] eqn:Hd; [|reflexivity].
  rewrite bind_lift. destruct (App.confirmText block d) as [text|e]; [|reflexivity].
  rewrite bind_confirm. destruct (confirmAnswer E text); cbn [negb]; [|reflexivity].
  rewrite bind_setError, bind_lift, (get_total block "data" "index" d Hd).
  rewrite bind_setActionLoading, delete_final. cbn [after app].
  rewrite (reloadAfter_filter _ (App.withActionLoading _ (App.withError "" s)) s eq_refl).
  reflexivity.
Qed.

End RowOutcomes.

Section RowEdges.
Context {H : Host} (E : Env).

(** X11.  A confirmed removal sends the DELETE of the block's index,
    returns, and clears the mark of the row in progress.  When the call
    throws, nothing else is sent, the error is the message thrown, and the
    chain and the prediction stay; when it returns, the reload follows and
    what is shown is what a reload shows. *)
Theorem delete_outcome (block : jsval) (s : App.State) (text : string) :
  In (Confirmed text true) (traceOf (App.handleDelete E block s)) ->
  App.confirmText block (prop block "data") = Val text
  /\ resultOf (App.handleDelete E block s) = Val tt
  /\ App.actionLoading (stateOf (App.handleDelete E block s)) = ""
  /\ App.loading (stateOf (App.handleDelete E block s)) = App.loading s
  /\ (forall e,
        settle (DeletePrice (prop block "index"))
          (serve E (deleteRequest (prop block "index"))) = Throw e ->
        requests (traceOf (App.handleDelete E block s))
        = [deleteRequest (prop block "index")]
        /\ App.error (stateOf (App.handleDelete E block s)) = message e
        /\ App.chain (stateOf (App.handleDelete E block s)) = App.chain s
        /\ App.prediction (stateOf (App.handleDelete E block s)) = App.prediction s)
  /\ (forall v,
        settle (DeletePrice (prop block "index"))
          (serve E (deleteRequest (prop block "index"))) = Val v ->
        requests (traceOf (App.handleDelete E block s))
        = [deleteRequest (prop block "index"); chainRequest;
           predictRequest (filterParams (App.predictFilter s))]
        /\ App.chain (stateOf (App.handleDelete E block s))
           = App.chain (stateOf (App.loadData E s))
        /\ App.prediction (stateOf (App.handleDelete E block s))
           = App.prediction (stateOf (App.loadData E s))
        /\ App.error (stateOf (App.handleDelete E block s))
           = App.error (stateOf (App.loadData E s))).
Proof.
  rewrite handleDelete_cases.
  destruct (get block "data") as [d|e0] eqn:Hd; [|cbn; intros Hf; destruct Hf].
  pose proof (get_prop block "data" d Hd). subst d.
  destruct (App.confirmText block _) as [text'|e0]; [|cbn; intros Hf; destruct Hf].
  destruct (confirmAnswer E text'); cbn [traceOf stateOf resultOf fst snd].
  - intros [Heq|Hin].
    + injection Heq as <-.
      set (s1 := App.withActionLoading ("delete-" +++ ToString (prop block "index"))
                   (App.withError "" s)).
      pose proof (afterCall_inputs E
                    (settle (DeletePrice (prop block "index"))
                       (serve E (deleteRequest (prop block "index")))) s1)
        as (_ & _ & Hl & _).
      pose proof (afterCall_display E
                    (settle (DeletePrice (prop block "index"))
                       (serve E (deleteRequest (prop block "index")))) s1 s
                    eq_refl eq_refl eq_refl) as Hdis.
      split; [reflexivity|]. split; [reflexivity|]. split; [reflexivity|].
      split; [exact Hl|].
      destruct (settle (DeletePrice (prop block "index")) _) as [v|e]; split.
      * discriminate.
      * intros v' _. split; [reflexivity|]. exact Hdis.
      * intros e' He'. injection He' as <-. split; [reflexivity|].
        destruct Hdis as (Hc & Hp & He). repeat split; assumption.
      * discriminate.
    + exfalso. destruct Hin as [Hin|Hin]; [discriminate Hin|].
      destruct (settle _ _); cbn [reloadAfter reloadTrace] in Hin;
        [destruct Hin as [Hin|[Hin|[]]]; discriminate Hin|contradiction].
  - intros [Heq|[]]. discriminate Heq.
Qed.





End RowEdges.

Section Idle.
Context {H : Host}.

Lemma loadData_idle (E : Env) (s : App.State) : idle s -> idle (stateOf (App.loadData E s)).
Proof.
  intros [Hl Ha]. rewrite loadData_cases. cbn [stateOf fst snd].
  destruct (settle GetChain _); destruct (settle (Predict _) _); split; assumption.
Qed.

Lemma afterCall_idle (E : Env) (r : result jsval) (s1 : App.State) :
  App.loading s1 = false ->
  idle (App.withActionLoading "" (afterCall E r s1)).
Proof.
  intros Hl. destruct (afterCall_inputs E r s1) as (_ & _ & Hl' & _).
  split; [|reflexivity]. cbn [App.withActionLoading App.loading].
  rewrite Hl'. exact Hl.
Qed.

Lemma handleUpdate_idle (E : Env) (block : jsval) (s : App.State) :
  idle s -> idle (stateOf (App.handleUpdate E block s)).
Proof.
  intros [Hl Ha]. unfold App.handleUpdate.
  repeat step_final E.
  all: unfold ret, App.setError, modify.
  all: cbn [after stateOf fst snd].
  all: try (split; assumption).
  all: apply afterCall_idle; exact Hl.
Qed.

Lemma handleDelete_idle (E : Env) (block : jsval) (s : App.State) :
  idle s -> idle (stateOf (App.handleDelete E block s)).
Proof.
  intros [Hl Ha]. rewrite handleDelete_cases.
  destruct (get block "data") as [d|e]; [|split; assumption].
  destruct (App.confirmText block d) as [text|e]; [|split; assumption].
  destruct (confirmAnswer E text); [|split; assumption].
  cbn [stateOf fst snd]. apply afterCall_idle. exact Hl.
Qed.

Lemma handleSubmit_idle (E : Env) (s : App.State) :
  idle s -> idle (stateOf (App.handleSubmit E s)).
Proof.
  intros [Hl Ha]. rewrite handleSubmit_final. cbn [stateOf fst snd].
  split; [reflexivity|].
  destruct (settle _ _) as [v|e]; cbn [App.withLoading App.actionLoading].
  - rewrite loadData_cases. cbn [stateOf fst snd].
    destruct (settle GetChain _); destruct (settle (Predict _) _); exact Ha.
  - exact Ha.
Qed.

Lemma perform_idle (E : Env) (a : action) (s : App.State) :
  idle s -> idle (stateOf (perform E a s)).
Proof.
  intros Hs. destruct a; cbn [perform]; try exact Hs.
  - unfold filterChange. destruct (effectFires _ _); [|exact Hs].
    apply loadData_idle. exact Hs.
  - unfold filterChange. destruct (effectFires _ _); [|exact Hs].
    apply loadData_idle. exact Hs.
  - unfold App.onSubmit. rewrite bind_getState.
    destruct (App.requiredFilled _); [|exact Hs].
    apply handleSubmit_idle. exact Hs.
  - apply handleUpdate_idle. exact Hs.
  - apply handleDelete_idle. exact Hs.
  - apply loadData_idle. exact Hs.
Qed.

Lemma session_idle (script : list (Env * action)) (s s' : App.State) (t : list event) :
  idle s -> session script s = Some (s', t) -> idle s'.
Proof.
  revert s t. induction script as [|[E a] script IH]; intros s t Hs; cbn [session].
  - intros Heq. injection Heq as <- _. exact Hs.
  - destruct (permitted s a); [|discriminate].
    destruct (session script (stateOf (perform E a s))) as [[s1 t1]|] eqn:Hrest;
      [|discriminate].
    intros Heq. injection Heq as <- _.
    exact (IH _ _ (perform_idle E a s Hs) Hrest).
Qed.

Lemma mapR_In {A B} (f : A -> result B) (l : list A) (ys : list B) :
  View.mapR f l = Val ys ->
  forall y, In y ys -> exists x, In x l /\ f x = Val y.
Proof.
  revert ys. induction l as [|x l IH]; cbn [View.mapR]; intros ys.
  - intros Heq. injection Heq as <-. intros y [].
  - destruct (f x) as [y0|e] eqn:Hx; [|discriminate]. cbn [rbind].
    destruct (View.mapR f l) as [rest|e]; [|discriminate]. cbn [rbind].
    intros Heq. injection Heq as <-. intros y [<-|Hin].
    + exists x. split; [left; reflexivity|exact Hx].
    + destruct (IH rest eq_refl y Hin) as (x' & Hin' & Hx').
      exists x'. split; [right; exact Hin'|exact Hx'].
Qed.

Lemma tableRow_idle (b : jsval) (row : node) :
  View.tableRow "" b = Val row ->
  buttonDisabled row 0 = VBool false /\ buttonDisabled row 1 = VBool false.
Proof.
  unfold View.tableRow.
  destruct (get b "hash") as [hash|e] eqn:Hh; [|discriminate].
  rewrite (get_total b "hash" "index" hash Hh), (get_total b "hash" "data" hash Hh).
  cbn [rbind].
  destruct (get (prop b "data") "date") as [date|e] eqn:Hd; [|discriminate].
  rewrite !(get_total (prop b "data") "date" _ date Hd). cbn [rbind].
  destruct (callSlice16 hash) as [short|e]; [|discriminate].
  cbn [rbind]. intros Heq. injection Heq as <-. split; reflexivity.
Qed.

Lemma tableRows_idle (chain : jsval) (rows : list node) :
  View.tableRows "" chain = Val rows ->
  forall row, In row rows ->
    buttonDisabled row 0 = VBool false /\ buttonDisabled row 1 = VBool false.
Proof.
  unfold View.tableRows.
  destruct (get chain "blocks") as [blocks|e]; [|discriminate]. cbn [rbind].
  destruct blocks as [| | | | |items|]; try discriminate.
  destruct (View.filterR View.hasPrice items) as [kept|e]; [|discriminate].
  cbn [rbind]. intros Hrows row Hin.
  destruct (mapR_In _ _ _ Hrows row Hin) as (b & _ & Hb).
  exact (tableRow_idle b row Hb).
Qed.

(** X13.  Every action, run to its end, leaves the component idle: in
    every state a session reaches, whatever the server answered and however
    the dialogs went, [loading] is false and [actionLoading] is empty; and
    whenever the table of the chain of that state can be built, none of the
    Update and Remove buttons in it is disabled. *)
Theorem reachable_idle (s : App.State) :
  reachable s ->
  App.loading s = false
  /\ App.actionLoading s = ""
  /\ (forall rows,
        View.tableRows (App.actionLoading s) (App.chain s) = Val rows ->
        forall row, In row rows ->
          buttonDisabled row 0 = VBool false /\ buttonDisabled row 1 = VBool false).
Proof.
  intros (script & t & Hrun).
  destruct (session_idle script App.initial s t (conj eq_refl eq_refl) Hrun) as [Hl Ha].
  split; [exact Hl|]. split; [exact Ha|].
  rewrite Ha. apply tableRows_idle.
Qed.

End Idle.

Section Building.
Context {H : Host}.

(** X14.  In a row of the table the Update button is disabled exactly when
    [actionLoading] is [update-] followed by the block's index, the Remove
    button exactly when it is [delete-] followed by that index, and never
    both. *)
Theorem row_buttons (al : string) (b : jsval) (row : node) :
  View.tableRow al b = Val row ->
  buttonDisabled row 0
  = VBool (String.eqb al ("update-" +++ ToString (prop b "index")))
  /\ buttonDisabled row 1
     = VBool (String.eqb al ("delete-" +++ ToString (prop b "index")))
  /\ (buttonDisabled row 0 = VBool false \/ buttonDisabled row 1 = VBool false).
Proof.
  unfold View.tableRow.
  destruct (get b "hash") as [hash|e] eqn:Hh; [|discriminate].
  rewrite (get_total b "hash" "index" hash Hh), (get_total b "hash" "data" hash Hh).
  cbn [rbind].
  destruct (get (prop b "data") "date") as [date|e] eqn:Hd; [|discriminate].
  rewrite !(get_total (prop b "data") "date" _ date Hd). cbn [rbind].
  destruct (callSlice16 hash) as [short|e]; [|discriminate].
  cbn [rbind]. intros Heq. injection Heq as <-.
  cbn [buttonDisabled nth lookup String.eqb Ascii.eqb Bool.eqb].
  split; [reflexivity|]. split; [reflexivity|].
  assert (Hex : String.eqb al ("update-" +++ ToString (prop b "index")) = false
                \/ String.eqb al ("delete-" +++ ToString (prop b "index")) = false).
  { destruct (String.eqb_spec al ("update-" +++ ToString (prop b "index"))) as [->|_];
      [right|left]; reflexivity. }
  destruct Hex as [Hx|Hx]; [left|right]; exact (f_equal VBool Hx).
Qed.

(** X15.  Building the prediction card throws exactly when there is a
    prediction whose [metal] is not a string, and what is thrown is a
    [TypeError]; without a prediction the card reads No prediction yet. *)
Theorem prediction_card_builds (p : jsval) :
  (truthy p = false ->
     View.predictionCard p = Val (Elem "p" [] [Text "No prediction yet."]))
  /\ (truthy p = true -> isString (prop p "metal") = true ->
        exists n, View.predictionCard p = Val n)
  /\ (truthy p = true -> isString (prop p "metal") = false ->
        exists k, View.predictionCard p = Throw (TypeError k)).
Proof.
  unfold View.predictionCard. split; [|split].
  - intros ->. reflexivity.
  - intros Ht Hs. rewrite Ht.
    assert (Hg : get p "metal" = Val (prop p "metal"))
      by (destruct p; try discriminate Ht; reflexivity).
    rewrite Hg, !(get_total p "metal" _ _ Hg). cbn [rbind].
    destruct (prop p "metal"); try discriminate Hs. cbn [callToUpperCase rbind].
    destruct (truthy (prop p "can_predict")); eexists; reflexivity.
  - intros Ht Hs. rewrite Ht.
    assert (Hg : get p "metal" = Val (prop p "metal"))
      by (destruct p; try discriminate Ht; reflexivity).
    rewrite Hg. cbn [rbind].
    destruct (prop p "metal"); try discriminate Hs; eexists; reflexivity.
Qed.






(** X17.  When the server refuses an added price with a JSON object, the
    banner shows the [detail] of that object when it is a non-empty string
    and Failed to add price when the object has no [detail]; a [detail]
    that is an empty list leaves the page without a banner. *)
Theorem refused_submit_banner (E : Env) (s : App.State) (res : response)
    (fields : list (string * jsval)) :
  serve E (addRequest (App.submitPayload (App.form s))) = Responded res ->
  ok res = false ->
  json res = Some (VObj fields) ->
  App.error (stateOf (App.handleSubmit E s))
  = detailOr (AddPrice (App.submitPayload (App.form s))) (VObj fields)
  /\ (forall d, lookup "detail" fields = VStr d -> d <> "" ->
        errorBanner (App.error (stateOf (App.handleSubmit E s)))
        = Elem "div" [("className", VStr "error")] [Expr (VStr d)])
  /\ (truthy (lookup "detail" fields) = false ->
        errorBanner (App.error (stateOf (App.handleSubmit E s)))
        = Elem "div" [("className", VStr "error")] [Expr (VStr "Failed to add price")])
  /\ (lookup "detail" fields = VArr [] ->
        errorBanner (App.error (stateOf (App.handleSubmit E s))) = Expr (VStr "")).
Proof.
  intros Hserve Hok Hjson. rewrite handleSubmit_final, Hserve.
  unfold settle. rewrite Hok, Hjson. cbn [get stateOf fst snd failureMessage message].
  cbn [App.withLoading App.withError App.error].
  unfold detailOr, prop. cbn [get fallbackOf].
  split; [reflexivity|]. split; [|split].
  - intros d -> Hd. cbn [truthy ToString]. unfold errorBanner.
    destruct (Str.isEmpty d) eqn:He; cbn [negb]; rewrite ?He; [|reflexivity].
    apply isEmpty_spec in He. contradiction.
  - intros ->. reflexivity.
  - intros ->. reflexivity.
Qed.

End Building.

(* ================================================================== *)
(** * The properties at the sample inputs *)

#[local] Existing Instance asciiHost.

Lemma handlers_keep_inputs_witness :
  App.form (stateOf (App.handleUpdate (H:=asciiHost) keepDefaults goldBlock goldFormState))
  = goldForm.
Proof.
  exact (proj1 (proj1 (@handlers_keep_inputs asciiHost keepDefaults goldBlock goldFormState)
                  _ (or_intror (or_introl eq_refl)))).
Defined.

Lemma reachable_inputs_in_range_witness : inputsInRange filledGold.
Proof.
  apply (@reachable_inputs_in_range asciiHost filledGold).
  exists fillGoldForm. eexists. vm_compute. reflexivity.
Defined.

Lemma reachable_posts_in_range_witness :
  memberOf App.GOLD_PURITY
    (prop (payloadOf (addRequest (App.submitPayload (H:=asciiHost) goldForm))) "purity")
  = true.
Proof.
  refine (proj1 (proj2 (proj2
            (@reachable_posts_in_range asciiHost keepDefaults filledGold
               (addRequest (App.submitPayload (H:=asciiHost) goldForm)) _ _ _)))).
  - exists fillGoldForm. eexists. vm_compute. reflexivity.
  - left. reflexivity.
  - reflexivity.
Defined.

Lemma session_gets_in_range_witness :
  gold22Request = chainRequest \/ predictInRange gold22Request.
Proof.
  refine (@session_gets_in_range asciiHost askGold22 _ _ gold22Request _ _ _).
  - vm_compute. reflexivity.
  - do 5 right. left. reflexivity.
  - reflexivity.
Defined.

Lemma update_sends_entries_witness :
  exists nd ue pr np,
    goldPut
    = updateRequest (H:=asciiHost) (prop goldBlock "index")
        (replacement (prop goldBlock "data") nd (toLowerCase (trim ue)) np (Number pr)).
Proof.
  assert (Hin : In (Fetched goldPut (acceptAll goldPut))
                  (traceOf (App.handleUpdate (H:=asciiHost) keepDefaults goldBlock
                              App.initial)))
    by (vm_compute; do 4 right; left; reflexivity).
  destruct (@update_sends_entries asciiHost keepDefaults goldBlock App.initial goldPut
              (acceptAll goldPut) Hin eq_refl)
    as (nd & ue & pr & np & _ & _ & _ & _ & Hr).
  exists nd, ue, pr, np. exact Hr.
Defined.

Lemma update_outcome_witness :
  App.actionLoading
    (stateOf (App.handleUpdate (H:=asciiHost) refuseAll goldBlock App.initial)) = "".
Proof.
  refine (proj1 (proj2 (proj2
            (@update_outcome asciiHost refuseAll goldBlock App.initial goldPut
               (serve refuseAll goldPut) _ eq_refl)))).
  vm_compute. do 4 right. left. reflexivity.
Defined.

Lemma delete_outcome_witness :
  resultOf (App.handleDelete (H:=asciiHost) keepDefaults goldBlock App.initial) = Val tt.
Proof.
  refine (proj1 (proj2
            (@delete_outcome asciiHost keepDefaults goldBlock App.initial
               "Remove #3 (GOLD 22K 10g - Rs 64200)?" _))).
  left. reflexivity.
Defined.


Lemma reachable_idle_witness :
  App.actionLoading afterRefusedUpdate = ""
  /\ exists rows,
       View.tableRows (H:=asciiHost) "" nestedChain = Val rows
       /\ List.length rows = 2%nat
       /\ forall row, In row rows ->
            buttonDisabled row 0 = VBool false /\ buttonDisabled row 1 = VBool false.
Proof.
  assert (Hreach : reachable (H:=asciiHost) afterRefusedUpdate)
    by (exists refusedUpdate; eexists; vm_compute; reflexivity).
  destruct (@reachable_idle asciiHost afterRefusedUpdate Hreach) as (_ & Ha & Hrows).
  split; [exact Ha|].
  destruct (View.tableRows (H:=asciiHost) "" nestedChain) as [rows|e] eqn:Hr;
    [|discriminate Hr].
  exists rows. split; [reflexivity|]. split.
  - vm_compute in Hr. injection Hr as <-. reflexivity.
  - apply Hrows. exact Hr.
Defined.

Lemma row_buttons_witness :
  exists row,
    View.tableRow (H:=asciiHost) "update-3" goldBlock = Val row
    /\ buttonDisabled row 0 = VBool true
    /\ buttonDisabled row 1 = VBool false.
Proof.
  destruct (View.tableRow (H:=asciiHost) "update-3" goldBlock) as [row|e] eqn:Hrow;
    [|discriminate Hrow].
  exists row. split; [reflexivity|].
  destruct (@row_buttons asciiHost "update-3" goldBlock row Hrow) as (Hu & Hd & _).
  split; [exact Hu|exact Hd].
Defined.

Lemma prediction_card_builds_witness :
  exists n, View.predictionCard (H:=asciiHost) forecastGold = Val n.
Proof.
  exact (proj1 (proj2 (@prediction_card_builds asciiHost forecastGold)) eq_refl eq_refl).
Defined.


Lemma refused_submit_banner_witness :
  errorBanner
    (App.error (stateOf (App.handleSubmit (H:=asciiHost) refuseAll goldFormState)))
  = Elem "div" [("className", VStr "error")] [Expr (VStr "ledger store offline")].
Proof.
  refine (proj1 (proj2
            (@refused_submit_banner asciiHost refuseAll goldFormState _
               [("detail", VStr "ledger store offline")] eq_refl eq_refl eq_refl))
          _ eq_refl _).
  discriminate.
Defined.
